(** * Forecast strategies, loader and storage sink of tradeDumpSupabase

    A shallow embedding of [stock_forecast/stock_price_forecast.py],
    [stock_forecast/store_forecasts_to_supabase.py] and
    [stock_forecast/store_forecasts_to_supabase_v2.py].

    Conventions.
    - A pandas DataFrame is the list of its rows; [df.empty] is [[]].
    - A Python call that can raise returns a [result]; [try ... except
      Exception] is [try_except].
    - Python floats are kept abstract behind the class [PyNum]; the two
      instances are exact rationals ([Qc]) and IEEE binary64 ([float]).
    - A timestamp is its number of nanoseconds since the epoch (pandas'
      [Timestamp.value]); a calendar date is its day number.
    - Third-party libraries (scikit-learn, statsmodels, prophet, the Supabase
      client) are the fields of [Externals]. *)

From Stdlib Require Import ZArith List String Ascii Bool Lia Permutation.
From Stdlib Require Import QArith Qcanon Floats Lqa.
Import ListNotations.

Local Open Scope string_scope.
Local Open Scope list_scope.
Local Open Scope Z_scope.

(** ** Exceptions *)

Inductive result (A : Type) : Type :=
| Ret (a : A)
| Raise (msg : string).
Arguments Ret {A} a.
Arguments Raise {A} msg.

Definition bind {A B : Type} (c : result A) (k : A -> result B) : result B :=
  match c with
  | Ret a => k a
  | Raise e => Raise e
  end.

Declare Scope py_scope.
Delimit Scope py_scope with py.
Notation "x <- c ;; k" := (bind c (fun x => k))
  (at level 61, c at next level, right associativity) : py_scope.
Local Open Scope py_scope.

(** [try: body except Exception as e: handler(e)] *)
Definition try_except {A : Type} (body : result A) (handler : string -> result A)
  : result A :=
  match body with
  | Ret a => Ret a
  | Raise e => handler e
  end.

(** ** Numbers *)

(** The arithmetic the scripts use on prices (numpy [float64] scalars and
    columns: division never raises). [of_int] is the int-to-float conversion,
    [isna] is [pd.isna]. *)
Class PyNum (F : Type) : Type := {
  fadd : F -> F -> F;
  fsub : F -> F -> F;
  fmul : F -> F -> F;
  fdiv : F -> F -> F;
  of_int : Z -> F;
  isna : F -> bool
}.

(** Exact rational arithmetic (the idealisation behind "within floating-point
    tolerance"). A quotient by zero is 0 there, by [Qcinv]'s convention, so
    what the scripts do with a zero divisor is stated in binary64 only. *)
#[export] Instance Qc_PyNum : PyNum Qc := {
  fadd := Qcplus;
  fsub := Qcminus;
  fmul := Qcmult;
  fdiv := Qcdiv;
  of_int := fun z => Q2Qc (inject_Z z);
  isna := fun _ => false
}.

(** IEEE 754 binary64, the representation of Python and numpy floats: the
    operations round to nearest, and dividing by zero gives an infinity or
    NaN as numpy does (the scripts silence the warning). [float_of_int] is
    the correctly rounded conversion for integers below [2^63] in absolute
    value. *)
Definition float_of_int (z : Z) : float :=
  match z with
  | Z0 => PrimFloat.zero
  | Zpos _ => PrimFloat.of_uint63 (Uint63.of_Z z)
  | Zneg _ => PrimFloat.opp (PrimFloat.of_uint63 (Uint63.of_Z (- z)))
  end.

#[export] Instance float_PyNum : PyNum float := {
  fadd := PrimFloat.add;
  fsub := PrimFloat.sub;
  fmul := PrimFloat.mul;
  fdiv := PrimFloat.div;
  of_int := float_of_int;
  isna := PrimFloat.is_nan
}.

(** ** Timestamps and dates *)

Definition ns_per_day : Z := 86400 * 1000000000.

(** [timedelta(days=k)], in nanoseconds. The strategies add it to a pandas
    [Timestamp], which holds a signed 64-bit count of nanoseconds: past that
    range the addition raises, the strategy's [except] catches it and the
    result is empty. The sum is modelled here without the bound; the
    properties that count the points of a result assume the horizon stays in
    range ([horizon_in_range]). *)
Definition timedelta_days (k : Z) : Z := k * ns_per_day.

(** [pd.to_datetime(ts).date()], as a day number. *)
Definition date_of (ts : Z) : Z := ts / ns_per_day.

(** ** Python sequences *)

(** [range(n)] *)
Definition range (n : Z) : list Z := map Z.of_nat (seq 0 (Z.to_nat n)).

(** [np.arange(a, b)] on integers *)
Definition arange (a b : Z) : list Z := map (fun i => a + i) (range (b - a)).

(** [len(l)] *)
Definition len {A : Type} (l : list A) : Z := Z.of_nat (List.length l).

(** [l[-1]] and [.iloc[-1]]: IndexError on an empty sequence. *)
Definition index_last {A : Type} (l : list A) : result A :=
  match rev l with
  | [] => Raise "IndexError: index -1 is out of bounds"
  | x :: _ => Ret x
  end.

(** [l[0]] *)
Definition index_first {A : Type} (l : list A) : result A :=
  match l with
  | [] => Raise "IndexError: index 0 is out of bounds"
  | x :: _ => Ret x
  end.

(** [l[-m:]] for [m >= 0]: [l[-0:]] is the whole sequence. *)
Definition slice_last {A : Type} (m : Z) (l : list A) : list A :=
  if m =? 0 then l else skipn (List.length l - Z.to_nat m)%nat l.

(** [df.tail(n)]: pandas returns [iloc[0:0]] for [n == 0] and [iloc[-n:]]
    otherwise, so a negative [n] drops the first [-n] rows. *)
Definition tail {A : Type} (n : Z) (l : list A) : list A :=
  if n =? 0 then []
  else if 0 <? n then skipn (List.length l - Z.to_nat n)%nat l
  else skipn (Z.to_nat (- n)) l.

(** ** The forecasting module *)

Section Forecast.

Context {F : Type} {N : PyNum F}.

(** One row of the [stock_prices] table. *)
Record PriceBar : Type := {
  bar_timestamp : Z;
  bar_symbol : string;
  open : F;
  high : F;
  low : F;
  close : F;
  volume : F
}.

(** One row of a forecast DataFrame. [lower_bound] and [upper_bound] are
    [None] when the DataFrame has no such column. *)
Record ForecastPoint : Type := {
  timestamp : Z;
  symbol : string;
  predicted_close : F;
  forecast_day : Z;
  price_change : F;
  price_change_pct : F;
  lower_bound : option F;
  upper_bound : option F
}.

(** [df.sort_values(key)]: ascending. Rows of one key are kept here in their
    input order; pandas' default sort (quicksort) does not promise an order
    among them. A frame whose keys are pairwise distinct has one ascending
    arrangement only, so there the model is the code's sort whatever the
    algorithm; the properties that depend on the place of a row assume
    distinct timestamps. *)
Fixpoint insert_sorted {A : Type} (key : A -> Z) (b : A) (l : list A) : list A :=
  match l with
  | [] => [b]
  | x :: xs => if key b <=? key x then b :: l else x :: insert_sorted key b xs
  end.

Definition sort_values {A : Type} (key : A -> Z) (df : list A) : list A :=
  fold_right (insert_sorted key) [] df.

(** A row before the derived columns are added. *)
Record RawPoint : Type := {
  raw_timestamp : Z;
  raw_predicted : F;
  raw_day : Z;
  raw_bounds : option (F * F)
}.

(** [pd.DataFrame({...})] from columns: ValueError unless all arrays have the
    same length (the scalar [symbol] is broadcast). *)
Fixpoint zip_columns (ts : list Z) (ps : list F) (ds : list Z)
  : result (list RawPoint) :=
  match ts, ps, ds with
  | [], [], [] => Ret []
  | t :: ts', p :: ps', d :: ds' =>
      rest <- zip_columns ts' ps' ds' ;;
      Ret ({| raw_timestamp := t; raw_predicted := p; raw_day := d;
              raw_bounds := None |} :: rest)
  | _, _, _ => Raise "ValueError: All arrays must be of the same length"
  end.

Fixpoint zip_bounds (rows : list RawPoint) (lo hi : list F)
  : result (list RawPoint) :=
  match rows, lo, hi with
  | [], [], [] => Ret []
  | r :: rows', l :: lo', h :: hi' =>
      rest <- zip_bounds rows' lo' hi' ;;
      Ret ({| raw_timestamp := raw_timestamp r; raw_predicted := raw_predicted r;
              raw_day := raw_day r; raw_bounds := Some (l, h) |} :: rest)
  | _, _, _ => Raise "ValueError: All arrays must be of the same length"
  end.

(** [forecast_df["price_change"] = forecast_df["predicted_close"] - last_price]
    [forecast_df["price_change_pct"] = (forecast_df["price_change"] / last_price) * 100] *)
Definition add_price_change (symbol : string) (last_price : F) (r : RawPoint)
  : ForecastPoint :=
  let change := fsub (raw_predicted r) last_price in
  {| timestamp := raw_timestamp r;
     symbol := symbol;
     predicted_close := raw_predicted r;
     forecast_day := raw_day r;
     price_change := change;
     price_change_pct := fmul (fdiv change last_price) (of_int 100);
     lower_bound := option_map fst (raw_bounds r);
     upper_bound := option_map snd (raw_bounds r) |}.

(** *** Third-party libraries *)

(** - [sk_fit X y]: [LinearRegression().fit] on one feature, giving
      [(coef_, intercept_)], or raising (for instance on NaN input).
    - [arima_forecast prices steps]: [ARIMA(prices, order=(1,1,1)).fit()
      .get_forecast(steps)], giving the predicted mean and the two columns of
      [conf_int(alpha=0.05)], or raising.
    - [prophet_fit history]: [Prophet(...).fit], or raising;
      [prophet_predict model ds] is the [yhat, yhat_lower, yhat_upper] of
      [model.predict] at the row of date [ds].
    - [supabase_select symbol]: the rows of
      [table("stock_prices").select("*").eq("symbol", symbol)], or raising. *)
Class Externals : Type := {
  sk_fit : list Z -> list F -> result (F * F);
  ARIMA_AVAILABLE : bool;
  arima_forecast : list F -> Z -> result (list F * list F * list F);
  PROPHET_AVAILABLE : bool;
  ProphetModel : Type;
  prophet_fit : list (Z * F) -> result ProphetModel;
  prophet_predict : ProphetModel -> Z -> F * F * F;
  supabase_select : string -> result (list PriceBar)
}.

Context {E : Externals}.

(** [model.predict(X)]: [X @ coef_ + intercept_]; scikit-learn rejects an
    array of zero samples. *)
Definition sk_predict (model : F * F) (X : list Z) : result (list F) :=
  match X with
  | [] => Raise "ValueError: Found array with 0 sample(s)"
  | _ => Ret (map (fun x => fadd (fmul (fst model) (of_int x)) (snd model)) X)
  end.

(** *** fetch_historical_data *)

Definition fetch_historical_data (symbol : string) (days : Z)
  : result (list PriceBar) :=
  try_except
    (data <- supabase_select symbol ;;
     match data with
     | [] => Ret []
     | _ => Ret (tail days (sort_values bar_timestamp data))
     end)
    (fun _ => Ret []).

(** *** forecast_linear_regression *)

Definition forecast_linear_regression (df : list PriceBar) (symbol : string)
  (days : Z) : result (list ForecastPoint) :=
  if (match df with [] => true | _ => false end) || (len df <? 5) then Ret []
  else
    try_except
      (let df := sort_values bar_timestamp df in
       let prices := map close df in
       let X := arange 0 (len prices) in
       let y := prices in
       model <- sk_fit X y ;;
       last_date <- index_last (map bar_timestamp df) ;;
       let future_dates :=
         map (fun i => last_date + timedelta_days (i + 1)) (range days) in
       let future_X := arange (len prices) (len prices + days) in
       predicted_prices <- sk_predict model future_X ;;
       forecast_df <- zip_columns future_dates predicted_prices
                        (map (fun i => i + 1) (range days)) ;;
       last_price <- index_last y ;;
       Ret (map (add_price_change symbol last_price) forecast_df))
      (fun _ => Ret []).

(** *** forecast_moving_average *)

(** [pd.Series(xs).ewm(span=span, adjust=False).mean()]:
    [y_0 = x_0], [y_t = (1 - alpha) * y_(t-1) + alpha * x_t] with
    [alpha = 2 / (span + 1)]; pandas rejects [span < 1]. *)
Fixpoint ewm_rec (alpha prev : F) (xs : list F) : list F :=
  match xs with
  | [] => []
  | x :: xs' =>
      let y := fadd (fmul (fsub (of_int 1) alpha) prev) (fmul alpha x) in
      y :: ewm_rec alpha y xs'
  end.

Definition ewm_mean (span : Z) (xs : list F) : result (list F) :=
  if span <? 1 then Raise "ValueError: span must satisfy: span >= 1"
  else
    match xs with
    | [] => Ret []
    | x :: xs' =>
        Ret (x :: ewm_rec (fdiv (of_int 2) (fadd (of_int span) (of_int 1))) x xs')
    end.

(** The body of the [for i in range(days)] loop: one appended dict. *)
Definition moving_average_point (symbol : string) (last_date : Z)
  (last_price trend : F) (i : Z) : ForecastPoint :=
  let future_date := last_date + timedelta_days (i + 1) in
  let predicted_price := fadd last_price (fmul trend (of_int (i + 1))) in
  {| timestamp := future_date;
     symbol := symbol;
     predicted_close := predicted_price;
     forecast_day := i + 1;
     price_change := fsub predicted_price last_price;
     price_change_pct :=
       fmul (fdiv (fsub predicted_price last_price) last_price) (of_int 100);
     lower_bound := None;
     upper_bound := None |}.

(** The strategy, with the smoothing routine as an argument. *)
Definition forecast_moving_average_with (ewm : Z -> list F -> result (list F))
  (df : list PriceBar) (symbol : string) (days : Z)
  : result (list ForecastPoint) :=
  if (match df with [] => true | _ => false end) || (len df <? 5) then Ret []
  else
    try_except
      (let df := sort_values bar_timestamp df in
       let prices := map close df in
       ewma <- ewm (Z.min 20 (len prices)) prices ;;
       let recent_prices := slice_last (Z.min 10 (len prices)) prices in
       recent_last <- index_last recent_prices ;;
       recent_first <- index_first recent_prices ;;
       let trend := fdiv (fsub recent_last recent_first) (of_int (len recent_prices)) in
       last_date <- index_last (map bar_timestamp df) ;;
       last_price <- index_last prices ;;
       Ret (map (moving_average_point symbol last_date last_price trend)
              (range days)))
      (fun _ => Ret []).

Definition forecast_moving_average := forecast_moving_average_with ewm_mean.

(** *** forecast_arima *)

Definition forecast_arima (df : list PriceBar) (symbol : string) (days : Z)
  : result (list ForecastPoint) :=
  if negb ARIMA_AVAILABLE then Ret []
  else if (match df with [] => true | _ => false end) || (len df <? 15) then Ret []
  else
    try_except
      (let df := sort_values bar_timestamp df in
       let prices := map close df in
       fc <- arima_forecast prices days ;;
       let predicted_prices := fst (fst fc) in
       last_date <- index_last (map bar_timestamp df) ;;
       last_price <- index_last prices ;;
       let future_dates :=
         map (fun i => last_date + timedelta_days (i + 1)) (range days) in
       rows <- zip_columns future_dates predicted_prices
                 (map (fun i => i + 1) (range days)) ;;
       forecast_df <- zip_bounds rows (snd (fst fc)) (snd fc) ;;
       Ret (map (add_price_change symbol last_price) forecast_df))
      (fun _ => Ret []).

(** *** forecast_prophet *)

(** [Series.max()] of a non-empty column. *)
Definition series_max (l : list Z) : result Z :=
  match l with
  | [] => Raise "ValueError: max of an empty column"
  | x :: xs => Ret (fold_left Z.max xs x)
  end.

(** [model.make_future_dataframe(periods, freq='D')]: the distinct history
    dates in ascending order, followed by [periods] daily dates after the
    latest one. *)
Definition make_future_dataframe (ds : list Z) (periods : Z) : result (list Z) :=
  let history_dates := sort_values (fun d => d) (nodup Z.eq_dec ds) in
  last_date <- series_max history_dates ;;
  Ret (history_dates
       ++ map (fun i => last_date + timedelta_days (i + 1)) (range periods)).

Definition forecast_prophet (df : list PriceBar) (symbol : string) (days : Z)
  : result (list ForecastPoint) :=
  if negb PROPHET_AVAILABLE then Ret []
  else if (match df with [] => true | _ => false end) || (len df <? 10) then Ret []
  else
    try_except
      (let df_prophet :=
         sort_values fst (map (fun b => (bar_timestamp b, close b)) df) in
       model <- prophet_fit df_prophet ;;
       future <- make_future_dataframe (map fst df_prophet) days ;;
       let forecast := map (fun ds => (ds, prophet_predict model ds)) future in
       let forecast_future := tail days forecast in
       last_price <- index_last (map snd df_prophet) ;;
       rows <- zip_columns (map fst forecast_future)
                 (map (fun r => fst (fst (snd r))) forecast_future)
                 (map (fun i => i + 1) (range days)) ;;
       forecast_df <- zip_bounds rows
                        (map (fun r => snd (fst (snd r))) forecast_future)
                        (map (fun r => snd (snd r)) forecast_future) ;;
       Ret (map (add_price_change symbol last_price) forecast_df))
      (fun _ => Ret []).

(** *** generate_forecast *)

Definition generate_forecast (symbol : string) (days : Z) (method : string)
  : result (list ForecastPoint) :=
  df <- fetch_historical_data symbol 90 ;;
  match df with
  | [] => Ret []
  | _ =>
      if String.eqb method "linear" then forecast_linear_regression df symbol days
      else if String.eqb method "moving_average" then
        forecast_moving_average df symbol days
      else if String.eqb method "arima" then forecast_arima df symbol days
      else if String.eqb method "prophet" then forecast_prophet df symbol days
      else Ret []
  end.

End Forecast.

(** ** Strings *)

(** [s.lower()] on ASCII letters. *)
Definition lower_ascii (c : ascii) : ascii :=
  let n := nat_of_ascii c in
  if ((65 <=? n) && (n <=? 90))%nat then ascii_of_nat (n + 32) else c.

Fixpoint lower (s : string) : string :=
  match s with
  | EmptyString => EmptyString
  | String c s' => String (lower_ascii c) (lower s')
  end.

(** [needle in hay] *)
Fixpoint contains (needle hay : string) : bool :=
  prefix needle hay
  || match hay with
     | EmptyString => false
     | String _ hay' => contains needle hay'
     end.

(** [str.isspace] on one character of the ASCII range. *)
Definition is_space (c : ascii) : bool :=
  let n := nat_of_ascii c in
  (((9 <=? n) && (n <=? 13)) || ((28 <=? n) && (n <=? 32)))%nat.

Fixpoint lstrip (s : string) : string :=
  match s with
  | EmptyString => EmptyString
  | String c s' => if is_space c then lstrip s' else s
  end.

Fixpoint rstrip (s : string) : string :=
  match s with
  | EmptyString => EmptyString
  | String c s' =>
      match rstrip s' with
      | EmptyString => if is_space c then EmptyString else String c EmptyString
      | r => String c r
      end
  end.

(** [s.strip()] *)
Definition strip (s : string) : string := rstrip (lstrip s).

(** ** The forecast table and the two storage scripts *)

Section Store.

Context {F : Type} {N : PyNum F}.

(** A JSON value of a record. [JDate d] is the string [date.isoformat()] of
    the day numbered [d]: distinct days have distinct ISO strings. *)
Inductive json : Type :=
| JNull
| JString (s : string)
| JFloat (x : F)
| JInt (z : Z)
| JDate (day : Z).

(** A Python dict with string keys, in insertion order. *)
Definition record : Type := list (string * json).

(** [key in d] and [d.get(key)] *)
Fixpoint get (key : string) (d : record) : option json :=
  match d with
  | [] => None
  | (k, v) :: d' => if String.eqb k key then Some v else get key d'
  end.

(** *** The table [forecast_stocks]

    The server side is PostgreSQL behind the Supabase client. Its schema is
    the one the scripts print ([print_table_schema]):
    [forecast_date DATE NOT NULL, symbol VARCHAR NOT NULL, method VARCHAR NOT
    NULL, ..., UNIQUE(forecast_date, symbol, method)]. *)

Definition unique_key : Type := (Z * string * string)%type.

Definition key_of (r : record) : option unique_key :=
  match get "forecast_date" r, get "symbol" r, get "method" r with
  | Some (JDate d), Some (JString s), Some (JString m) => Some (d, s, m)
  | _, _, _ => None
  end.

Definition has_key (r : record) : bool :=
  match key_of r with
  | Some _ => true
  | None => false
  end.

Definition unique_key_eqb (a b : unique_key) : bool :=
  (fst (fst a) =? fst (fst b)) && String.eqb (snd (fst a)) (snd (fst b))
  && String.eqb (snd a) (snd b).

Definition key_in (k : unique_key) (ks : list unique_key) : bool :=
  existsb (unique_key_eqb k) ks.

Fixpoint has_duplicate (ks : list unique_key) : bool :=
  match ks with
  | [] => false
  | k :: ks' => key_in k ks' || has_duplicate ks'
  end.

(** The keys of the rows that have one. *)
Fixpoint keys (rows : list record) : list unique_key :=
  match rows with
  | [] => []
  | r :: rows' =>
      match key_of r with
      | Some k => k :: keys rows'
      | None => keys rows'
      end
  end.

Definition unique_violation : string :=
  "duplicate key value violates unique constraint forecast_stocks_forecast_date_symbol_method_key".

Definition not_null_violation : string :=
  "null value in column violates not-null constraint".

(** Failures of an insert request that do not depend on the stored rows (a
    value the server rejects, a refused request): a message, or [None]. *)
Variable other_failure : list record -> option string.

(** [supabase.table(TABLE_NAME).insert(batch).execute()]: one INSERT
    statement, so a batch is stored whole or not at all. It is refused when a
    key column is missing, when two of its rows share a key, or when one of
    its keys is already stored. Returns the table afterwards and the outcome
    of the call. The table holds the records as the client sent them; what
    the server adds to a row or does to its values (the [id] and
    [created_at] columns, nulls for the columns not sent, the rounding of the
    DECIMAL columns) is not modelled, the three key columns being stored as
    sent. *)
Definition supabase_insert (table batch : list record)
  : list record * result unit :=
  match other_failure batch with
  | Some msg => (table, Raise msg)
  | None =>
      if negb (forallb has_key batch) then (table, Raise not_null_violation)
      else if has_duplicate (keys batch)
              || existsb (fun k => key_in k (keys table)) (keys batch)
      then (table, Raise unique_violation)
      else (table ++ batch, Ret tt)
  end.

(** [[records[i:i+batch_size] for i in range(0, len(records), batch_size)]] *)
Fixpoint batches_from (fuel n : nat) (records : list record) : list (list record) :=
  match fuel with
  | O => []
  | S fuel' =>
      match records with
      | [] => []
      | _ => firstn n records :: batches_from fuel' n (skipn n records)
      end
  end.

(** [range(0, len(records), batch_size)] raises on a zero step and is empty on
    a negative one. *)
Definition batches (batch_size : Z) (records : list record)
  : result (list (list record)) :=
  if batch_size =? 0 then Raise "ValueError: range() arg 3 must not be zero"
  else if batch_size <? 0 then Ret []
  else Ret (batches_from (List.length records) (Z.to_nat batch_size) records).

(** The batch loop, the same in both scripts. *)
Fixpoint insert_batches (table : list record) (bs : list (list record))
  (total_inserted : Z) : list record * Z :=
  match bs with
  | [] => (table, total_inserted)
  | batch :: bs' =>
      match supabase_insert table batch with
      | (table', Ret _) => insert_batches table' bs' (total_inserted + len batch)
      | (table', Raise e) =>
          let error_str := lower e in
          if contains "duplicate" error_str || contains "unique" error_str
          then insert_batches table' bs' (total_inserted + len batch)
          else insert_batches table' bs' total_inserted
      end
  end.

(** Everything after the records are prepared; the outer [except] returns 0. *)
Definition insert_records (table records : list record) (batch_size : Z)
  : list record * result Z :=
  match batches batch_size records with
  | Raise _ => (table, Ret 0)
  | Ret bs =>
      let (table', total_inserted) := insert_batches table bs 0 in
      (table', Ret total_inserted)
  end.

(** [float(x) if pd.notna(x) else None] *)
Definition float_or_none (x : F) : json :=
  if isna x then JNull else JFloat x.

(** [float(row[col]) if col in row else None] *)
Definition column_or_none (x : option F) : json :=
  match x with
  | Some v => JFloat v
  | None => JNull
  end.

(** Two notions the properties of the loop are stated with. *)

(** An insert request that the table turns down. *)
Definition refused (table batch : list record) : bool :=
  match other_failure batch with
  | Some _ => true
  | None =>
      negb (forallb has_key batch)
      || (has_duplicate (keys batch)
          || existsb (fun k => key_in k (keys table)) (keys batch))
  end.

(** What a batch adds to the count, whatever the table holds. *)
Definition counted (batch : list record) : Z :=
  match other_failure batch with
  | Some msg =>
      if contains "duplicate" (lower msg) || contains "unique" (lower msg)
      then len batch else 0
  | None => if forallb has_key batch then len batch else 0
  end.

End Store.

(** *** Reading and deleting rows of the table *)

Section Queries.

Context {F : Type} {N : PyNum F}.

(** [.eq(column, value)] on a text column. *)
Definition column_is (column value : string) (r : @record F) : bool :=
  match get column r with
  | Some (JString s) => String.eqb s value
  | _ => false
  end.

(** [.lt("forecast_date", cutoff)]: a row without a date does not match. *)
Definition dated_before (cutoff : Z) (r : @record F) : bool :=
  match get "forecast_date" r with
  | Some (JDate d) => d <? cutoff
  | _ => false
  end.

(** The date a row is ordered by. *)
Definition row_date (r : @record F) : Z :=
  match get "forecast_date" r with
  | Some (JDate d) => d
  | _ => 0
  end.

(** Failures of a read request, by its filters, and of a delete request, by
    its cutoff: a message, or [None]. *)
Variable select_failure : list (string * string) -> option string.
Variable delete_failure : Z -> option string.

(** [select("*")] with the given [eq] filters, [.execute()]: the matching
    rows, in the order of the table. *)
Definition execute_select (table : list (@record F))
  (filters : list (string * string)) : result (list (@record F)) :=
  match select_failure filters with
  | Some msg => Raise msg
  | None =>
      Ret (filter (fun r => forallb (fun cv => column_is (fst cv) (snd cv) r) filters)
             table)
  end.

(** The same with [.limit(limit).order("forecast_date", desc=True)]: latest
    dates first (rows of one date in the order of the table), at most [limit]
    rows. *)
Definition execute_select_latest (table : list (@record F))
  (filters : list (string * string)) (limit : Z) : result (list (@record F)) :=
  rows <- execute_select table filters ;;
  Ret (firstn (Z.to_nat limit) (sort_values (fun r => - row_date r) rows)).

(** [delete().lt("forecast_date", cutoff).execute()]: the table afterwards
    and the deleted rows. *)
Definition execute_delete_before (table : list (@record F)) (cutoff : Z)
  : list (@record F) * result (list (@record F)) :=
  match delete_failure cutoff with
  | Some msg => (table, Raise msg)
  | None =>
      (filter (fun r => negb (dated_before cutoff r)) table,
       Ret (filter (dated_before cutoff) table))
  end.

(** [if value: query = query.eq(column, value)]: [None] and the empty string
    add no filter. *)
Definition eq_filter (column : string) (value : option string)
  : list (string * string) :=
  match value with
  | Some (String c s) => [(column, String c s)]
  | _ => []
  end.

(** The dates a [datetime] can hold, as day numbers: 0001-01-01 and
    9999-12-31. *)
Definition date_min : Z := -719162.
Definition date_max : Z := 2932896.

(** [now - timedelta(days=days)] on a [datetime]: OverflowError when [days]
    is more than a [timedelta] holds or the result leaves the years 1 to
    9999. *)
Definition datetime_minus_days (now days : Z) : result Z :=
  if 999999999 <? Z.abs days
  then Raise "days; must have magnitude <= 999999999"
  else
    let d := now - timedelta_days days in
    if (date_min <=? date_of d) && (date_of d <=? date_max)
    then Ret d
    else Raise "date value out of range".

(** [clear_old_forecasts], the same in both scripts: [now] is
    [datetime.now()]. The cutoff is computed inside the [try]: when it
    overflows no request is sent. Whether the request succeeds or anything
    raises, the function prints and returns. *)
Definition clear_old_forecasts (now : Z) (table : list (@record F)) (days : Z)
  : list (@record F) * result unit :=
  match datetime_minus_days now days with
  | Ret cutoff =>
      let cutoff_date := date_of cutoff in
      (fst (execute_delete_before table cutoff_date), Ret tt)
  | Raise _ => (table, Ret tt)
  end.

(** [f"forecast_all_stocks_{method}.csv"] *)
Definition all_stocks_path (method : string) : string :=
  "forecast_all_stocks_" ++ method ++ ".csv".

End Queries.

(** The CSV files of the working directory: [None] when [os.path.exists] is
    false, otherwise what [pd.read_csv] gives, a frame or an exception. A
    file written by [to_csv] reads back as the frame written. *)
Definition Files (F : Type) : Type :=
  string -> option (result (list (@ForecastPoint F))).

(** [df.to_csv(path, index=False)] *)
Definition to_csv {F : Type} (files : Files F) (path : string)
  (df : list (@ForecastPoint F)) : Files F :=
  fun p => if String.eqb p path then Some (Ret df) else files p.

(** *** store_forecasts_to_supabase.py *)

Module StoreV1.
Section V1.

Context {F : Type} {N : PyNum F}.
Variable other_failure : list (@record F) -> option string.

(** The dict built per row; [today] is [datetime.now().date()]. *)
Definition make_record (today : Z) (method : string) (row : @ForecastPoint F)
  : @record F :=
  [ ("forecast_date", JDate today);
    ("symbol", JString (symbol row));
    ("method", JString method);
    ("predicted_close", JFloat (predicted_close row));
    ("price_change", JFloat (price_change row));
    ("price_change_pct", JFloat (price_change_pct row));
    ("forecast_day", JInt (forecast_day row));
    ("lower_bound", column_or_none (lower_bound row));
    ("upper_bound", column_or_none (upper_bound row)) ].

Definition insert_forecast_data (today : Z) (table : list (@record F))
  (forecast_df : list (@ForecastPoint F)) (method : string) (batch_size : Z)
  : list (@record F) * result Z :=
  match forecast_df with
  | [] => (table, Ret 0)
  | _ =>
      let records := map (make_record today method) forecast_df in
      insert_records other_failure table records batch_size
  end.

Variable select_failure : list (string * string) -> option string.

(** [create_forecast_table]: whether the table answers a query. *)
Definition create_forecast_table (table : list (@record F)) : bool :=
  match execute_select select_failure table [] with
  | Ret _ => true
  | Raise _ => false
  end.

(** The loop of [store_all_forecasts] over the methods; [today] is the date
    read by each call of [insert_forecast_data]. *)
Fixpoint store_methods (files : Files F) (today : Z) (table : list (@record F))
  (methods : list string) (total_records : Z) : list (@record F) * Z :=
  match methods with
  | [] => (table, total_records)
  | method :: rest =>
      match files (all_stocks_path method) with
      | None => store_methods files today table rest total_records
      | Some (Raise _) => store_methods files today table rest total_records
      | Some (Ret forecast_df) =>
          match insert_forecast_data today table forecast_df method 100 with
          | (table', Ret inserted) =>
              store_methods files today table' rest (total_records + inserted)
          | (table', Raise _) =>
              store_methods files today table' rest total_records
          end
      end
  end.

(** [store_all_forecasts]: the table afterwards and the total it prints. *)
Definition store_all_forecasts (files : Files F) (today : Z)
  (table : list (@record F)) : list (@record F) * Z :=
  let _ := create_forecast_table table in
  store_methods files today table
    ["linear"; "moving_average"; "arima"; "prophet"] 0.

(** [query_forecasts(symbol, method, limit)] *)
Definition query_forecasts (table : list (@record F))
  (symbol method : option string) (limit : Z) : result (list (@record F)) :=
  try_except
    (let query := eq_filter "symbol" symbol ++ eq_filter "method" method in
     execute_select_latest select_failure table query limit)
    (fun _ => Ret []).

End V1.
End StoreV1.

(** *** store_forecasts_to_supabase_v2.py *)

Module StoreV2.
Section V2.

Context {F : Type} {N : PyNum F}.
Variable other_failure : list (@record F) -> option string.

Definition make_record (method : string) (row : @ForecastPoint F) : @record F :=
  let forecast_date := date_of (timestamp row) in
  [ ("forecast_date", JDate forecast_date);
    ("symbol", JString (strip (symbol row)));
    ("method", JString method);
    ("predicted_close", JFloat (predicted_close row));
    ("price_change", float_or_none (price_change row));
    ("price_change_pct", float_or_none (price_change_pct row));
    ("forecast_day", JInt (forecast_day row)) ].

Definition insert_forecast_data (table : list (@record F))
  (forecast_df : list (@ForecastPoint F)) (method : string) (batch_size : Z)
  : list (@record F) * result Z :=
  match forecast_df with
  | [] => (table, Ret 0)
  | _ =>
      let records := map (make_record method) forecast_df in
      insert_records other_failure table records batch_size
  end.

Variable select_failure : list (string * string) -> option string.

(** The loop of [store_all_forecasts] over the methods. *)
Fixpoint store_methods (files : Files F) (table : list (@record F))
  (methods : list string) (total_records : Z) : list (@record F) * Z :=
  match methods with
  | [] => (table, total_records)
  | method :: rest =>
      match files (all_stocks_path method) with
      | None => store_methods files table rest total_records
      | Some (Raise _) => store_methods files table rest total_records
      | Some (Ret forecast_df) =>
          match insert_forecast_data table forecast_df method 50 with
          | (table', Ret inserted) =>
              store_methods files table' rest (total_records + inserted)
          | (table', Raise _) => store_methods files table' rest total_records
          end
      end
  end.

(** [store_all_forecasts]: the table afterwards and the total it prints. *)
Definition store_all_forecasts (files : Files F) (table : list (@record F))
  : list (@record F) * Z :=
  store_methods files table ["linear"; "moving_average"; "arima"; "prophet"] 0.

(** [query_forecasts(symbol, method)] *)
Definition query_forecasts (table : list (@record F))
  (symbol method : option string) : result (list (@record F)) :=
  try_except
    (let query := eq_filter "symbol" symbol ++ eq_filter "method" method in
     execute_select select_failure table query)
    (fun _ => Ret []).

End V2.
End StoreV2.

(** ** Ordinary least squares *)

Section LeastSquares.

Context {F : Type} {N : PyNum F}.

Definition fsum (l : list F) : F := fold_left fadd l (of_int 0).

Definition mean (l : list F) : F := fdiv (fsum l) (of_int (len l)).

(** The fit [LinearRegression] computes on one feature: centre both columns,
    [coef_ = sum (x - mean x) (y - mean y) / sum (x - mean x)^2],
    [intercept_ = mean y - mean x * coef_]. *)
Definition ols_fit (X : list Z) (y : list F) : result (F * F) :=
  let xs := map of_int X in
  let x_offset := mean xs in
  let y_offset := mean y in
  let sxy :=
    fsum (map (fun p => fmul (fsub (fst p) x_offset) (fsub (snd p) y_offset))
            (combine xs y)) in
  let sxx := fsum (map (fun x => fmul (fsub x x_offset) (fsub x x_offset)) xs) in
  let coef := fdiv sxy sxx in
  Ret (coef, fsub y_offset (fmul x_offset coef)).

(** An installation with scikit-learn only, reading [stock_prices] from the
    given rows. *)
Definition sklearn_only (rows : list (@PriceBar F)) : @Externals F := {|
  sk_fit := ols_fit;
  ARIMA_AVAILABLE := false;
  arima_forecast := fun _ _ => Raise "ImportError: statsmodels";
  PROPHET_AVAILABLE := false;
  ProphetModel := unit;
  prophet_fit := fun _ => Raise "ImportError: prophet";
  prophet_predict := fun _ _ => (of_int 0, of_int 0, of_int 0);
  supabase_select :=
    fun symbol => Ret (filter (fun b => String.eqb (bar_symbol b) symbol) rows)
|}.

(** An installation with all libraries, where the two optional models answer
    with a flat forecast at the last value and a band of one unit. *)
Definition flat_band (prices : list F) (steps : Z)
  : result (list F * list F * list F) :=
  last_price <- index_last prices ;;
  let n := Z.to_nat steps in
  Ret (repeat last_price n,
       repeat (fsub last_price (of_int 1)) n,
       repeat (fadd last_price (of_int 1)) n).

Definition all_libraries (rows : list (@PriceBar F)) : @Externals F := {|
  sk_fit := ols_fit;
  ARIMA_AVAILABLE := true;
  arima_forecast := flat_band;
  PROPHET_AVAILABLE := true;
  ProphetModel := F;
  prophet_fit := fun history => index_last (map snd history);
  prophet_predict :=
    fun model _ => (model, fsub model (of_int 1), fadd model (of_int 1));
  supabase_select :=
    fun symbol => Ret (filter (fun b => String.eqb (bar_symbol b) symbol) rows)
|}.

(** A bar of [symbol] on day [day] (at midnight) closing at [price]. *)
Definition daily_bar (symbol : string) (day : Z) (price : F) : @PriceBar F := {|
  bar_timestamp := timedelta_days day;
  bar_symbol := symbol;
  open := price;
  high := price;
  low := price;
  close := price;
  volume := of_int 0
|}.

(** Consecutive daily bars from day 0 with the given closes. *)
Definition daily_series (symbol : string) (closes : list F) : list (@PriceBar F) :=
  map (fun ic => daily_bar symbol (Z.of_nat (fst ic)) (snd ic))
    (combine (seq 0 (List.length closes)) closes).

End LeastSquares.

(** ** The four strategies behind one contract *)

Inductive Method : Type := linear | moving_average | arima | prophet.

Definition method_name (m : Method) : string :=
  match m with
  | linear => "linear"
  | moving_average => "moving_average"
  | arima => "arima"
  | prophet => "prophet"
  end.

(** The minimum number of points each strategy asks for. *)
Definition min_points (m : Method) : Z :=
  match m with
  | linear => 5
  | moving_average => 5
  | arima => 15
  | prophet => 10
  end.

Definition forecast {F : Type} {N : PyNum F} {E : @Externals F} (m : Method)
  : list (@PriceBar F) -> string -> Z -> result (list (@ForecastPoint F)) :=
  match m with
  | linear => forecast_linear_regression
  | moving_average => forecast_moving_average
  | arima => forecast_arima
  | prophet => forecast_prophet
  end.

(** The final bar of a series: the last row once sorted by timestamp. *)
Definition final_bar {F : Type} (df : list (@PriceBar F)) : result (@PriceBar F) :=
  index_last (sort_values bar_timestamp df).

(** [1, 2, ..., h] *)
Definition days_ahead (h : Z) : list Z := map (fun i => i + 1) (range h).

(** Ascending order of a column of timestamps. *)
Fixpoint ascending (l : list Z) : Prop :=
  match l with
  | [] => True
  | x :: l' => (forall y, In y l' -> x <= y) /\ ascending l'
  end.

(** The scenario of the specification: 20 consecutive days closing at
    100, 101, ..., 119. *)
Definition scenario_series : list (@PriceBar Qc) :=
  daily_series "AAPL" (map (fun i => Q2Qc (inject_Z (100 + i))) (range 20)).

(** A series in binary64 whose final close is zero. *)
Definition falling_to_zero : list (@PriceBar float) :=
  daily_series "ZERO" [5; 4; 3; 2; 1; 0]%float.

(** ** What the common contract promises *)

(** A result of horizon [h] issued after timestamp [last]: [h] points, numbered
    [1..h], dated [last] plus [1..h] whole days. *)
Definition horizon_shape {F : Type} (last h : Z) (r : list (@ForecastPoint F))
  : Prop :=
  len r = h
  /\ map forecast_day r = days_ahead h
  /\ map timestamp r = map (fun k => last + timedelta_days k) (days_ahead h).

(** The derived columns of one point, relative to [last_close]. *)
Definition change_columns {F : Type} {N : PyNum F} (last_close : F)
  (p : @ForecastPoint F) : Prop :=
  price_change p = fsub (predicted_close p) last_close
  /\ price_change_pct p = fmul (fdiv (price_change p) last_close) (of_int 100).

(** The outcome every strategy has: no forecast, or the full horizon after the
    final bar with the derived columns relative to its close. *)
Definition contract_result {F : Type} {N : PyNum F} (df : list (@PriceBar F))
  (days : Z) (r : list (@ForecastPoint F)) : Prop :=
  r = []
  \/ exists b, final_bar df = Ret b
       /\ horizon_shape (bar_timestamp b) days r
       /\ Forall (change_columns (close b)) r.

(** The forecast of the scenario by the linear strategy, horizon 5. *)
Definition scenario_forecast : list (@ForecastPoint Qc) :=
  Eval vm_compute in
    match @forecast Qc _ (sklearn_only []) linear scenario_series "AAPL" 5 with
    | Ret r => r
    | Raise _ => []
    end.

(** Fourteen daily bars, one short of what ARIMA asks for. *)
Definition short_series : list (@PriceBar Qc) := firstn 14 scenario_series.

(** Six daily bars in binary64, all closing at 100. *)
Definition flat_series : list (@PriceBar float) :=
  daily_series "FLAT" [100; 100; 100; 100; 100; 100]%float.

(** The moving-average forecast of [falling_to_zero], horizon 2. *)
Definition falling_forecast : list (@ForecastPoint float) :=
  Eval vm_compute in
    match @forecast_moving_average float _ falling_to_zero "ZERO" 2 with
    | Ret r => r
    | Raise _ => []
    end.

(** The ARIMA forecast of the scenario, horizon 5, by the flat model with its
    band of one unit. *)
Definition scenario_arima_forecast : list (@ForecastPoint Qc) :=
  Eval vm_compute in
    match @forecast Qc _ (all_libraries []) arima scenario_series "AAPL" 5 with
    | Ret r => r
    | Raise _ => []
    end.

(** The scenario in binary64. *)
Definition scenario_series_binary64 : list (@PriceBar float) :=
  daily_series "AAPL" (map (fun i => float_of_int (100 + i)) (range 20)).

(** ** Saving forecasts and the run over methods and tickers *)

(** [s.replace(old, new)] for single characters. *)
Fixpoint replace_char (old new : ascii) (s : string) : string :=
  match s with
  | EmptyString => EmptyString
  | String c s' =>
      String (if Ascii.eqb c old then new else c) (replace_char old new s')
  end.

Section Run.

Context {F : Type} {N : PyNum F} {E : @Externals F}.

(** [save_forecast]: nothing is written for an empty frame. *)
Definition save_forecast (files : Files F) (forecast_df : list (@ForecastPoint F))
  (symbol : string) : Files F :=
  match forecast_df with
  | [] => files
  | _ =>
      let filename :=
        ("forecast_" ++ replace_char "." "_" symbol ++ ".csv")%string in
      to_csv files filename forecast_df
  end.

(** The tickers and methods of the script. *)
Definition TICKERS : list string :=
  ["RELIANCE.NS"; "TCS.NS"; "HDFCBANK.NS"; "INFY.NS"; "AAPL"; "GOOG"].

Definition METHODS : list string :=
  (["linear"; "moving_average"]
   ++ (if ARIMA_AVAILABLE then ["arima"] else [])
   ++ (if PROPHET_AVAILABLE then ["prophet"] else []))%list.

(** The inner loop [for ticker in TICKERS] of the script, for one method:
    the files afterwards and [all_forecasts[method]]. *)
Fixpoint forecast_tickers (method : string) (tickers : list string)
  (files : Files F) (forecasts : list (list (@ForecastPoint F)))
  : result (Files F * list (list (@ForecastPoint F))) :=
  match tickers with
  | [] => Ret (files, forecasts)
  | ticker :: rest =>
      forecast <- generate_forecast ticker 7 method ;;
      match forecast with
      | [] => forecast_tickers method rest files forecasts
      | _ =>
          let files :=
            save_forecast files forecast
              (replace_char "." "_" ticker ++ "_" ++ method)%string in
          forecast_tickers method rest files (forecasts ++ [forecast])
      end
  end.

(** The outer loop [for method in METHODS]: the files afterwards and the
    dict [all_forecasts], in the order of the methods. *)
Fixpoint forecast_methods (methods tickers : list string) (files : Files F)
  (all_forecasts : list (string * list (list (@ForecastPoint F))))
  : result (Files F * list (string * list (list (@ForecastPoint F)))) :=
  match methods with
  | [] => Ret (files, all_forecasts)
  | method :: rest =>
      out <- forecast_tickers method tickers files [] ;;
      let files :=
        match snd out with
        | [] => fst out
        | _ => to_csv (fst out) (all_stocks_path method) (List.concat (snd out))
        end in
      forecast_methods rest tickers files (all_forecasts ++ [(method, snd out)])
  end.

End Run.

(** ** Notions the properties of the run are stated with *)

Section RunNotions.

Context {F : Type} {N : PyNum F} {E : @Externals F}.

(** The forecasts of a method that are not empty, in the order of the
    tickers. *)
Definition successful_forecasts (method : string) (tickers : list string)
  : list (list (@ForecastPoint F)) :=
  flat_map (fun ticker =>
              match generate_forecast ticker 7 method with
              | Ret (p :: r) => [p :: r]
              | _ => []
              end) tickers.

(** The file [save_forecast] writes for a ticker and a method in the run. *)
Definition ticker_path (ticker method : string) : string :=
  "forecast_"
  ++ replace_char "." "_" (replace_char "." "_" ticker ++ "_" ++ method)
  ++ ".csv".

End RunNotions.

(** ** Notions the properties of repeated stores are stated with *)

(** Every batch of the records is empty or refused by the table. *)
Definition settled {F : Type} {N : PyNum F}
  (other_failure : list (@record F) -> option string)
  (table records : list (@record F)) (batch_size : Z) : Prop :=
  match batches batch_size records with
  | Ret bs => Forall (fun b => b = [] \/ refused other_failure table b = true) bs
  | Raise _ => True
  end.

(** ** The ranges of dates *)

(** A pandas [Timestamp] and the [Timedelta] a [timedelta] is turned into
    when added to it are signed 64-bit counts of nanoseconds. *)
Definition Timestamp_max : Z := 9223372036854775807.
Definition Timestamp_min : Z := - 9223372036854775807.

(** The dates of a horizon of [days] days can be computed from any bar of
    the frame: [timedelta(days=days)] fits a [Timedelta], every timestamp of
    the frame is a [Timestamp] and so is that timestamp [days] days later. *)
Definition horizon_in_range {F : Type} (df : list (@PriceBar F)) (days : Z)
  : bool :=
  (timedelta_days days <=? Timestamp_max)
  && forallb (fun b => (Timestamp_min <=? bar_timestamp b)
                       && (bar_timestamp b + timedelta_days days <=? Timestamp_max))
       df.

(** The cutoff of a clean-up with retention [days] at the instant [now] can
    be computed: [days] fits a [timedelta] and the cutoff is a date of the
    years 1 to 9999. *)
Definition cutoff_in_range (now days : Z) : bool :=
  (Z.abs days <=? 999999999)
  && (date_min <=? date_of now - days) && (date_of now - days <=? date_max).

(** ** What the specification asks of the loader *)

(** The last [n] rows of a frame: all of them when there are fewer, none for
    [n <= 0]. *)
Definition last_rows {A : Type} (n : Z) (l : list A) : list A :=
  skipn (List.length l - Z.to_nat n) l.

(** * Properties *)

(** ** Sequences *)

(** A list of numbers that removing repetitions leaves as it is has none. *)
Lemma NoDup_by_nodup (l : list Z) : nodup Z.eq_dec l = l -> NoDup l.
Proof. intros <-. apply NoDup_nodup. Qed.

Lemma range_length (n : Z) : List.length (range n) = Z.to_nat n.
Proof. unfold range. now rewrite length_map, length_seq. Qed.

Lemma days_ahead_length (h : Z) : List.length (days_ahead h) = Z.to_nat h.
Proof. unfold days_ahead. now rewrite length_map, range_length. Qed.

Lemma range_In (n i : Z) : In i (range n) <-> 0 <= i < n.
Proof.
  unfold range. rewrite in_map_iff. split.
  - intros (k & <- & Hk). apply in_seq in Hk. lia.
  - intros Hi. exists (Z.to_nat i). split; [lia | apply in_seq; lia].
Qed.

Lemma days_ahead_In (h k : Z) : In k (days_ahead h) <-> 1 <= k <= h.
Proof.
  unfold days_ahead. rewrite in_map_iff. split.
  - intros (i & <- & Hi). apply range_In in Hi. lia.
  - intros Hk. exists (k - 1). split; [lia | apply range_In; lia].
Qed.

Lemma index_last_app {A : Type} (l : list A) (x : A) : index_last (l ++ [x]) = Ret x.
Proof. unfold index_last. now rewrite rev_app_distr. Qed.

Lemma index_last_cons {A : Type} (x y : A) (l : list A) :
  index_last (x :: y :: l) = index_last (y :: l).
Proof.
  destruct (exists_last (l := y :: l)) as (l' & z & Hz); [discriminate |].
  rewrite Hz, app_comm_cons. now rewrite !index_last_app.
Qed.

Lemma index_last_nonempty {A : Type} (l : list A) :
  l <> [] -> exists x, index_last l = Ret x.
Proof.
  intros H. destruct (exists_last H) as (l' & x & ->).
  exists x. apply index_last_app.
Qed.

Lemma index_last_In {A : Type} (l : list A) (x : A) : index_last l = Ret x -> In x l.
Proof.
  unfold index_last. intros H. apply in_rev.
  destruct (rev l); [discriminate | injection H as ->; now left].
Qed.

Lemma index_last_map {A B : Type} (f : A -> B) (l : list A) :
  index_last (map f l) = (x <- index_last l ;; Ret (f x))%py.
Proof.
  unfold index_last. rewrite <- map_rev. now destruct (rev l).
Qed.

Lemma index_last_skipn {A : Type} (n : nat) (l : list A) :
  (n < List.length l)%nat -> index_last (skipn n l) = index_last l.
Proof.
  revert n. induction l as [| a l IH]; intros n Hn; [simpl in Hn; lia |].
  destruct n as [| n]; [reflexivity |].
  simpl in Hn. simpl skipn. rewrite IH by lia.
  destruct l; [simpl in Hn; lia | now rewrite index_last_cons].
Qed.

(** ** Sorting *)

Section SortFacts.

Context {A : Type} (key : A -> Z).

Lemma insert_sorted_perm (b : A) (l : list A) :
  Permutation (insert_sorted key b l) (b :: l).
Proof.
  induction l as [| x l IH]; simpl; [reflexivity |].
  destruct (key b <=? key x); [reflexivity |].
  rewrite IH. apply perm_swap.
Qed.

Lemma sort_values_perm (l : list A) : Permutation (sort_values key l) l.
Proof.
  induction l as [| x l IH]; simpl; [reflexivity |].
  rewrite insert_sorted_perm. now constructor.
Qed.

Lemma sort_values_length (l : list A) :
  List.length (sort_values key l) = List.length l.
Proof. apply Permutation_length, sort_values_perm. Qed.

Lemma sort_values_In (l : list A) (x : A) : In x (sort_values key l) <-> In x l.
Proof.
  split; apply Permutation_in;
    [apply sort_values_perm | symmetry; apply sort_values_perm].
Qed.

Lemma insert_sorted_ascending (b : A) (l : list A) :
  ascending (map key l) -> ascending (map key (insert_sorted key b l)).
Proof.
  induction l as [| x l IH]; simpl.
  - intros _. split; [intros y [] | exact I].
  - intros [Hx Hl]. destruct (key b <=? key x) eqn:Hb; simpl.
    + apply Z.leb_le in Hb. split; [| now split].
      intros y [<- | Hy]; [exact Hb | specialize (Hx y Hy); lia].
    + apply Z.leb_gt in Hb. split; [| now apply IH].
      intros y Hy. apply in_map_iff in Hy as (a & <- & Ha).
      apply (Permutation_in _ (insert_sorted_perm b l)) in Ha.
      destruct Ha as [<- | Ha]; [lia | apply Hx, in_map, Ha].
Qed.

Lemma sort_values_ascending (l : list A) : ascending (map key (sort_values key l)).
Proof.
  induction l as [| x l IH]; simpl; [exact I | now apply insert_sorted_ascending].
Qed.

(** A sorted series is left as it is. *)
Lemma sort_values_sorted (l : list A) :
  ascending (map key l) -> sort_values key l = l.
Proof.
  induction l as [| x l IH]; simpl; [reflexivity |].
  intros [Hx Hl]. rewrite (IH Hl).
  destruct l as [| y l]; [reflexivity |]. simpl.
  assert (key x <= key y) as Hxy by (apply Hx; now left).
  apply Z.leb_le in Hxy. now rewrite Hxy.
Qed.

Lemma ascending_last_max (l : list A) (b : A) :
  ascending (map key l) -> index_last l = Ret b ->
  forall x, In x l -> key x <= key b.
Proof.
  induction l as [| a l IH]; intros Hasc Hlast x Hx; [destruct Hx |].
  destruct Hasc as [Ha Hl]. destruct l as [| a' l].
  - unfold index_last in Hlast. simpl in Hlast. injection Hlast as <-.
    destruct Hx as [<- | []]. lia.
  - rewrite index_last_cons in Hlast.
    destruct Hx as [<- | Hx]; [| now apply IH].
    apply Ha, in_map, index_last_In, Hlast.
Qed.

Lemma sort_values_nonempty (l : list A) : l <> [] -> sort_values key l <> [].
Proof.
  intros H Hs. apply H. apply length_zero_iff_nil.
  rewrite <- sort_values_length, Hs. reflexivity.
Qed.

End SortFacts.

Lemma sort_values_map {A B : Type} (f : A -> B) (key : B -> Z) (l : list A) :
  sort_values key (map f l) = map f (sort_values (fun a => key (f a)) l).
Proof.
  induction l as [| x l IH]; simpl; [reflexivity |].
  rewrite IH. generalize (sort_values (fun a => key (f a)) l). intros s.
  induction s as [| y s IHs]; simpl; [reflexivity |].
  destruct (key (f x) <=? key (f y)); simpl; [reflexivity | now rewrite IHs].
Qed.

(** The final bar is a bar of the series with the latest timestamp; when the
    series is already in ascending order it is its last row. *)
Lemma final_bar_latest {F : Type} (df : list (@PriceBar F)) (b : @PriceBar F) :
  final_bar df = Ret b ->
  In b df /\ forall b', In b' df -> bar_timestamp b' <= bar_timestamp b.
Proof.
  unfold final_bar. intros H. split.
  - apply (sort_values_In bar_timestamp), index_last_In, H.
  - intros b' Hb'. apply (ascending_last_max bar_timestamp _ _
      (sort_values_ascending bar_timestamp df) H).
    now apply sort_values_In.
Qed.

Lemma final_bar_sorted {F : Type} (df : list (@PriceBar F)) :
  ascending (map bar_timestamp df) -> final_bar df = index_last df.
Proof. intros H. unfold final_bar. now rewrite sort_values_sorted. Qed.

Lemma final_bar_exists {F : Type} (df : list (@PriceBar F)) :
  df <> [] -> exists b, final_bar df = Ret b.
Proof.
  intros H. apply index_last_nonempty. now apply sort_values_nonempty.
Qed.

(** ** Columns of a forecast DataFrame *)

Section Columns.

Context {F : Type} {N : PyNum F}.

Lemma zip_columns_spec (ts : list Z) (ps : list F) (ds : list Z)
  (rows : list (@RawPoint F)) :
  zip_columns ts ps ds = Ret rows ->
  map raw_timestamp rows = ts /\ map raw_predicted rows = ps
  /\ map raw_day rows = ds.
Proof.
  revert ps ds rows. induction ts as [| t ts IH]; intros ps ds rows H.
  - destruct ps, ds; try discriminate. injection H as <-. now repeat split.
  - destruct ps as [| p ps], ds as [| d ds]; try discriminate.
    simpl in H. destruct (zip_columns ts ps ds) as [rest |] eqn:Hz;
      [| discriminate].
    injection H as <-. destruct (IH _ _ _ Hz) as (H1 & H2 & H3).
    simpl. now rewrite H1, H2, H3.
Qed.

Lemma zip_bounds_spec (rows : list (@RawPoint F)) (lo hi : list F)
  (rows' : list (@RawPoint F)) :
  zip_bounds rows lo hi = Ret rows' ->
  map raw_timestamp rows' = map raw_timestamp rows
  /\ map raw_predicted rows' = map raw_predicted rows
  /\ map raw_day rows' = map raw_day rows.
Proof.
  revert lo hi rows'. induction rows as [| r rows IH]; intros lo hi rows' H.
  - destruct lo, hi; try discriminate. injection H as <-. now repeat split.
  - destruct lo as [| l lo], hi as [| h hi]; try discriminate.
    simpl in H. destruct (zip_bounds rows lo hi) as [rest |] eqn:Hz;
      [| discriminate].
    injection H as <-. destruct (IH _ _ _ Hz) as (H1 & H2 & H3).
    simpl. now rewrite H1, H2, H3.
Qed.

Lemma add_price_change_columns (symbol : string) (last_price : F)
  (rows : list (@RawPoint F)) :
  Forall (change_columns last_price) (map (add_price_change symbol last_price) rows).
Proof.
  apply Forall_forall. intros p Hp.
  apply in_map_iff in Hp as (r & <- & _). now split.
Qed.

(** A frame whose date and day columns are those the strategies build is
    empty or has the promised shape. *)
Lemma dated_rows_shape (last days : Z) (r : list (@ForecastPoint F)) :
  map timestamp r = map (fun i => last + timedelta_days (i + 1)) (range days) ->
  map forecast_day r = map (fun i => i + 1) (range days) ->
  r = [] \/ horizon_shape last days r.
Proof.
  intros Ht Hd. destruct r as [| p r]; [now left | right].
  assert (Hlen : List.length (p :: r) = Z.to_nat days).
  { rewrite <- (length_map forecast_day), Hd, length_map. apply range_length. }
  repeat split.
  - unfold len. rewrite Hlen. simpl in Hlen. lia.
  - exact Hd.
  - unfold days_ahead. now rewrite map_map.
Qed.

Lemma vector_rows_shape (symbol : string) (last days : Z) (last_price : F)
  (rows : list (@RawPoint F)) :
  map raw_timestamp rows
  = map (fun i => last + timedelta_days (i + 1)) (range days) ->
  map raw_day rows = map (fun i => i + 1) (range days) ->
  let r := map (add_price_change symbol last_price) rows in
  r = [] \/ horizon_shape last days r.
Proof.
  intros Ht Hd r. apply dated_rows_shape; unfold r; rewrite map_map; assumption.
Qed.

End Columns.

(** ** Exceptions *)

Lemma bind_ret_inv {A B : Type} (c : result A) (k : A -> result B) (b : B) :
  (x <- c ;; k x)%py = Ret b -> exists a, c = Ret a /\ k a = Ret b.
Proof. destruct c as [a | e]; simpl; [eauto | discriminate]. Qed.

(** A body run under [except Exception: return pd.DataFrame()] returns. *)
Lemma try_except_empty {A : Type} (P : list A -> Prop) (body : result (list A)) :
  P [] -> (forall a, body = Ret a -> P a) ->
  exists r, try_except body (fun _ => Ret []) = Ret r /\ P r.
Proof.
  intros Hnil Hret. destruct body as [a | e]; simpl; eauto.
Qed.

Ltac bind_inv H :=
  repeat (let a := fresh "v" in let Ha := fresh "Hv" in
          apply bind_ret_inv in H; destruct H as (a & Ha & H)).

(** ** The strategies meet the contract *)

Section Strategies.

Context {F : Type} {N : PyNum F} {E : @Externals F}.

Lemma contract_result_nil (df : list (@PriceBar F)) (days : Z) :
  contract_result df days [].
Proof. now left. Qed.

(** The last date and the last price the strategies read are those of the
    final bar. *)
Lemma last_columns (df : list (@PriceBar F)) (last_date : Z) (last_price : F) :
  index_last (map bar_timestamp (sort_values bar_timestamp df)) = Ret last_date ->
  index_last (map close (sort_values bar_timestamp df)) = Ret last_price ->
  exists b, final_bar df = Ret b /\ bar_timestamp b = last_date
            /\ close b = last_price.
Proof.
  rewrite !index_last_map. unfold final_bar.
  destruct (index_last (sort_values bar_timestamp df)) as [b |]; simpl;
    [| discriminate].
  intros [= <-] [= <-]. now exists b.
Qed.

Lemma vector_rows_contract (df : list (@PriceBar F)) (symbol : string)
  (days : Z) (b : @PriceBar F) (rows : list (@RawPoint F)) :
  final_bar df = Ret b ->
  map raw_timestamp rows
  = map (fun i => bar_timestamp b + timedelta_days (i + 1)) (range days) ->
  map raw_day rows = map (fun i => i + 1) (range days) ->
  contract_result df days (map (add_price_change symbol (close b)) rows).
Proof.
  intros Hb Ht Hd.
  destruct (vector_rows_shape symbol _ _ (close b) rows Ht Hd) as [Hnil | Hs].
  - left. exact Hnil.
  - right. exists b.
    split; [exact Hb | split; [exact Hs | apply add_price_change_columns]].
Qed.

Lemma linear_contract (df : list (@PriceBar F)) (symbol : string) (days : Z) :
  exists r, forecast_linear_regression df symbol days = Ret r
            /\ contract_result df days r.
Proof.
  unfold forecast_linear_regression.
  destruct (_ || _); [exists []; split; [reflexivity | now left] |].
  apply try_except_empty; [now left |]. cbv zeta. intros r H.
  bind_inv H. injection H as <-.
  destruct (last_columns df _ _ Hv0 Hv3) as (b & Hb & <- & <-).
  apply zip_columns_spec in Hv2 as (Ht & _ & Hd).
  now apply vector_rows_contract.
Qed.

Lemma arima_contract (df : list (@PriceBar F)) (symbol : string) (days : Z) :
  exists r, forecast_arima df symbol days = Ret r /\ contract_result df days r.
Proof.
  unfold forecast_arima.
  destruct (negb _); [exists []; split; [reflexivity | now left] |].
  destruct (_ || _); [exists []; split; [reflexivity | now left] |].
  apply try_except_empty; [now left |]. cbv zeta. intros r H.
  bind_inv H. injection H as <-.
  destruct (last_columns df _ _ Hv0 Hv1) as (b & Hb & <- & <-).
  apply zip_columns_spec in Hv2 as (Ht & _ & Hd).
  apply zip_bounds_spec in Hv3 as (Ht' & _ & Hd').
  apply vector_rows_contract; [assumption | congruence | congruence].
Qed.

Lemma moving_average_point_columns (symbol : string) (last_date : Z)
  (last_price trend : F) (i : Z) :
  change_columns last_price
    (moving_average_point symbol last_date last_price trend i).
Proof. now split. Qed.

Lemma moving_average_with_contract (ewm : Z -> list F -> result (list F))
  (df : list (@PriceBar F)) (symbol : string) (days : Z) :
  exists r, forecast_moving_average_with ewm df symbol days = Ret r
            /\ contract_result df days r.
Proof.
  unfold forecast_moving_average_with.
  destruct (_ || _); [exists []; split; [reflexivity | now left] |].
  apply try_except_empty; [now left |]. cbv zeta. intros r H.
  bind_inv H. injection H as <-.
  destruct (last_columns df _ _ Hv2 Hv3) as (b & Hb & <- & <-).
  match goal with |- contract_result _ _ (map ?f _) => set (point := f) end.
  destruct (dated_rows_shape (bar_timestamp b) days (map point (range days)))
    as [Hnil | Hs]; try (rewrite map_map; reflexivity).
  - left. exact Hnil.
  - right. exists b. split; [exact Hb | split; [exact Hs |]].
    apply Forall_forall. intros p Hp. apply in_map_iff in Hp as (i & <- & _).
    apply moving_average_point_columns.
Qed.

End Strategies.

(** ** The Prophet strategy *)

Lemma fold_left_max_spec (xs : list Z) (x : Z) :
  In (fold_left Z.max xs x) (x :: xs)
  /\ forall y, In y (x :: xs) -> y <= fold_left Z.max xs x.
Proof.
  revert x. induction xs as [| a xs IH]; intros x; simpl.
  - split; [now left | intros y [<- | []]; lia].
  - destruct (IH (Z.max x a)) as [Hin Hle]. split.
    + destruct Hin as [Hm | Hin]; [| now right; right].
      rewrite <- Hm. destruct (Z.max_spec x a) as [[_ ->] | [_ ->]]; auto.
    + intros y Hy.
      assert (Z.max x a <= fold_left Z.max xs (Z.max x a)) by (apply Hle; now left).
      destruct Hy as [<- | [<- | Hy]]; try lia. apply Hle. now right.
Qed.

Lemma series_max_spec (l : list Z) (m : Z) :
  series_max l = Ret m -> In m l /\ forall y, In y l -> y <= m.
Proof.
  destruct l as [| x xs]; [discriminate |]. intros [= <-].
  apply fold_left_max_spec.
Qed.

Lemma tail_future {A : Type} (days : Z) (history new : list A) :
  List.length new = Z.to_nat days ->
  List.length (tail days (history ++ new)) = Z.to_nat days ->
  tail days (history ++ new) = new.
Proof.
  intros Hnew Htail. unfold tail in *.
  destruct (days =? 0) eqn:H0.
  - apply Z.eqb_eq in H0. subst days. simpl in Hnew.
    apply length_zero_iff_nil in Hnew. now subst new.
  - destruct (0 <? days) eqn:Hpos.
    + rewrite length_app, Hnew.
      replace (List.length history + Z.to_nat days - Z.to_nat days)%nat
        with (List.length history) by lia.
      now rewrite skipn_app, skipn_all, Nat.sub_diag.
    + apply Z.ltb_ge in Hpos.
      replace (Z.to_nat days) with 0%nat in * by lia.
      apply length_zero_iff_nil in Hnew, Htail. now rewrite Htail, Hnew.
Qed.

Section Prophet.

Context {F : Type} {N : PyNum F} {E : @Externals F}.

Lemma prophet_frame (df : list (@PriceBar F)) :
  sort_values fst (map (fun b => (bar_timestamp b, close b)) df)
  = map (fun b => (bar_timestamp b, close b)) (sort_values bar_timestamp df).
Proof. apply (sort_values_map (fun b => (bar_timestamp b, close b)) fst). Qed.

(** The latest history date Prophet extends from is the timestamp of the
    final bar. *)
Lemma history_max (df : list (@PriceBar F)) (b : @PriceBar F) (m : Z) :
  final_bar df = Ret b ->
  series_max (sort_values (fun d => d)
                (nodup Z.eq_dec (map bar_timestamp (sort_values bar_timestamp df))))
  = Ret m ->
  m = bar_timestamp b.
Proof.
  intros Hb Hm. destruct (final_bar_latest df b Hb) as [Hin Hmax].
  apply series_max_spec in Hm as [Hm Hle].
  apply Z.le_antisymm.
  - apply sort_values_In, nodup_In, in_map_iff in Hm as (b' & <- & Hb').
    apply Hmax. exact (proj1 (sort_values_In bar_timestamp df b') Hb').
  - apply Hle. apply sort_values_In, nodup_In, in_map.
    exact (proj2 (sort_values_In bar_timestamp df b) Hin).
Qed.

Lemma prophet_contract (df : list (@PriceBar F)) (symbol : string) (days : Z) :
  exists r, forecast_prophet df symbol days = Ret r /\ contract_result df days r.
Proof.
  unfold forecast_prophet.
  destruct (negb _); [exists []; split; [reflexivity | now left] |].
  destruct (_ || _); [exists []; split; [reflexivity | now left] |].
  apply try_except_empty; [now left |]. cbv zeta. rewrite prophet_frame.
  intros r H. bind_inv H. injection H as <-.
  rewrite map_map in Hv0, Hv1. cbn [fst snd] in Hv0, Hv1.
  change (map (fun x => close x) ?l) with (map close l) in Hv1.
  change (map (fun x => bar_timestamp x) ?l) with (map bar_timestamp l) in Hv0.
  rewrite index_last_map in Hv1.
  destruct (index_last (sort_values bar_timestamp df)) as [b |] eqn:Hb;
    [| discriminate].
  injection Hv1 as <-.
  unfold make_future_dataframe in Hv0.
  apply bind_ret_inv in Hv0 as (last_date & Hmax & Hv0). injection Hv0 as <-.
  apply (history_max df b) in Hmax; [| exact Hb]. subst last_date.
  apply zip_columns_spec in Hv2 as (Ht & Hp & Hd).
  apply zip_bounds_spec in Hv3 as (Ht' & _ & Hd').
  rewrite map_app in Ht, Hp.
  rewrite tail_future in Ht.
  - apply vector_rows_contract; [exact Hb | | congruence].
    rewrite Ht', Ht. rewrite !map_map. reflexivity.
  - now rewrite !length_map, range_length.
  - rewrite <- (length_map fst), <- Ht, length_map, <- (length_map raw_day).
    now rewrite Hd, length_map, range_length.
Qed.

End Prophet.

(** ** The common contract *)

Section Contract.

Context {F : Type} {N : PyNum F} {E : @Externals F}.

Lemma forecast_contract (m : Method) (df : list (@PriceBar F)) (symbol : string)
  (days : Z) :
  exists r, forecast m df symbol days = Ret r /\ contract_result df days r.
Proof.
  destruct m; simpl.
  - apply linear_contract.
  - apply moving_average_with_contract.
  - apply arima_contract.
  - apply prophet_contract.
Qed.

Lemma days_ahead_nth (h : Z) (i : nat) (k : Z) :
  nth_error (days_ahead h) i = Some k -> k = Z.of_nat i + 1.
Proof.
  unfold days_ahead, range. rewrite map_map, nth_error_map, nth_error_seq.
  destruct (i <? Z.to_nat h)%nat; simpl; [| discriminate].
  now intros [= <-].
Qed.

Lemma horizon_shape_nth (last h : Z) (r : list (@ForecastPoint F)) (i : nat)
  (p : @ForecastPoint F) :
  horizon_shape last h r -> nth_error r i = Some p ->
  forecast_day p = Z.of_nat i + 1
  /\ timestamp p = last + (Z.of_nat i + 1) * ns_per_day.
Proof.
  intros (_ & Hd & Ht) Hp. split.
  - apply (map_nth_error forecast_day) in Hp. rewrite Hd in Hp.
    now apply days_ahead_nth in Hp.
  - apply (map_nth_error timestamp) in Hp. rewrite Ht in Hp.
    rewrite nth_error_map in Hp.
    destruct (nth_error (days_ahead h) i) as [k |] eqn:Hk; [| discriminate].
    apply days_ahead_nth in Hk. subst k. simpl in Hp. now injection Hp as <-.
Qed.

End Contract.

(** ** The strategies: shape, derived columns, minimum length *)

(** C1. For each of the four strategies, every input series and every horizon
    (in particular every [h >= 1]) the call returns, and the result is either
    empty or has exactly [h] points, the point at position [i] (from 0)
    carrying [forecast_day = i + 1] and the timestamp of the latest bar plus
    [i + 1] whole days. *)
Theorem forecast_empty_or_full_horizon {F : Type} {N : PyNum F}
  {E : @Externals F} (m : Method) (df : list (@PriceBar F)) (symbol : string)
  (h : Z) :
  exists r, forecast m df symbol h = Ret r
    /\ (r = []
        \/ exists b, final_bar df = Ret b
             /\ In b df
             /\ (forall b', In b' df -> bar_timestamp b' <= bar_timestamp b)
             /\ len r = h
             /\ map forecast_day r = days_ahead h
             /\ forall i p, nth_error r i = Some p ->
                  forecast_day p = Z.of_nat i + 1
                  /\ timestamp p
                     = bar_timestamp b + (Z.of_nat i + 1) * ns_per_day).
Proof.
  destruct (forecast_contract m df symbol h) as (r & Hr & [Hnil | (b & Hb & Hs & _)]).
  - exists r. split; [exact Hr | now left].
  - exists r. split; [exact Hr | right]. exists b.
    destruct (final_bar_latest df b Hb) as [Hin Hmax].
    repeat (split; [assumption || apply Hs |]).
    intros i p Hp. exact (horizon_shape_nth _ _ _ _ _ Hs Hp).
Qed.

(** C2. For each strategy, every input series whose bars have pairwise
    distinct timestamps and every non-empty result, every point has
    [price_change = predicted_close - last_close] and
    [price_change_pct = price_change / last_close * 100], where [last_close]
    is the close of the final bar of the input series (the bar with the
    latest timestamp; the last row when the series is in ascending order). *)
Theorem changes_relative_to_last_close {F : Type} {N : PyNum F}
  {E : @Externals F} (m : Method) (df : list (@PriceBar F)) (symbol : string)
  (h : Z) (r : list (@ForecastPoint F)) :
  NoDup (map bar_timestamp df) ->
  forecast m df symbol h = Ret r -> r <> [] ->
  exists b, final_bar df = Ret b
    /\ In b df
    /\ (forall b', In b' df -> bar_timestamp b' <= bar_timestamp b)
    /\ (ascending (map bar_timestamp df) -> index_last df = Ret b)
    /\ forall p, In p r ->
         price_change p = fsub (predicted_close p) (close b)
         /\ price_change_pct p
            = fmul (fdiv (price_change p) (close b)) (of_int 100).
Proof.
  intros _ Hr Hne.
  destruct (forecast_contract m df symbol h) as (r' & Hr' & Hc).
  rewrite Hr in Hr'. injection Hr' as <-.
  destruct Hc as [Hnil | (b & Hb & _ & Hcols)]; [contradiction |].
  exists b. destruct (final_bar_latest df b Hb) as [Hin Hmax].
  repeat (split; [assumption |]). split.
  - intros Hasc. now rewrite <- final_bar_sorted.
  - intros p Hp. rewrite Forall_forall in Hcols. exact (Hcols p Hp).
Qed.

Lemma changes_relative_to_last_close_witness :
  exists b, final_bar scenario_series = Ret b
    /\ In b scenario_series
    /\ (forall b', In b' scenario_series -> bar_timestamp b' <= bar_timestamp b)
    /\ (ascending (map bar_timestamp scenario_series)
        -> index_last scenario_series = Ret b)
    /\ forall p, In p scenario_forecast ->
         price_change p = fsub (predicted_close p) (close b)
         /\ price_change_pct p
            = fmul (fdiv (price_change p) (close b)) (of_int 100).
Proof.
  apply (@changes_relative_to_last_close Qc _ (sklearn_only []) linear
           scenario_series "AAPL" 5 scenario_forecast).
  - apply NoDup_by_nodup. vm_compute. reflexivity.
  - vm_compute. reflexivity.
  - discriminate.
Defined.

(** C5. A series shorter than the minimum length of the method (5 for linear
    and moving_average, 15 for arima, 10 for prophet) gives an empty result,
    returned normally, whatever the horizon. *)
Theorem short_series_empty {F : Type} {N : PyNum F} {E : @Externals F}
  (m : Method) (df : list (@PriceBar F)) (symbol : string) (h : Z) :
  len df < min_points m -> forecast m df symbol h = Ret [].
Proof.
  intros Hlen. apply Z.ltb_lt in Hlen.
  destruct m; simpl in *;
    unfold forecast_linear_regression, forecast_moving_average,
      forecast_moving_average_with, forecast_arima, forecast_prophet;
    rewrite Hlen, orb_true_r; try reflexivity.
  - now destruct (negb ARIMA_AVAILABLE).
  - now destruct (negb PROPHET_AVAILABLE).
Qed.

Lemma short_series_empty_witness :
  @forecast Qc _ (all_libraries []) arima short_series "AAPL" 7 = Ret [].
Proof.
  apply (@short_series_empty Qc _ (all_libraries []) arima short_series "AAPL" 7).
  vm_compute. reflexivity.
Defined.

(** ** generate_forecast *)

Lemma fetch_historical_data_returns {F : Type} {E : @Externals F}
  (symbol : string) (days : Z) :
  exists df, fetch_historical_data symbol days = Ret df.
Proof.
  unfold fetch_historical_data, try_except.
  destruct (supabase_select symbol) as [[| b data] | e]; simpl; eauto.
Qed.

(** C10. For a method string other than linear, moving_average, arima and
    prophet, [generate_forecast] returns an empty result, without raising,
    whatever the symbol, its data and the horizon. *)
Theorem unknown_method_empty {F : Type} {N : PyNum F} {E : @Externals F}
  (symbol : string) (days : Z) (method : string) :
  method <> "linear" -> method <> "moving_average" -> method <> "arima" ->
  method <> "prophet" ->
  generate_forecast symbol days method = Ret [].
Proof.
  intros H1 H2 H3 H4. unfold generate_forecast.
  destruct (fetch_historical_data_returns symbol 90) as (df & ->). simpl.
  destruct df; [reflexivity |].
  apply String.eqb_neq in H1, H2, H3, H4. now rewrite H1, H2, H3, H4.
Qed.

Lemma unknown_method_empty_witness :
  @generate_forecast Qc _ (all_libraries scenario_series) "AAPL" 7 "lstm" = Ret [].
Proof.
  apply (@unknown_method_empty Qc _ (all_libraries scenario_series) "AAPL" 7 "lstm");
    discriminate.
Defined.

(** On the four method names [generate_forecast] runs the strategy of that
    name on the last 90 bars. *)
Lemma generate_forecast_known {F : Type} {N : PyNum F} {E : @Externals F}
  (symbol : string) (days : Z) (m : Method) :
  generate_forecast symbol days (method_name m)
  = (df <- fetch_historical_data symbol 90 ;;
     match df with
     | [] => Ret []
     | _ => forecast m df symbol days
     end)%py.
Proof. destruct m; reflexivity. Qed.

(** ** The linear strategy on the scenario *)

(** C3. On 20 consecutive daily bars closing at 100, 101, ..., 119 with
    horizon 5, the linear strategy (least squares, in exact arithmetic) gives
    predicted closes 120, 121, 122, 123, 124, price changes 1, 2, 3, 4, 5 and
    percentage changes 100/119, ..., 500/119, which round to 0.84, 1.68,
    2.52, 3.36 and 4.20. The same fit evaluated in binary64 gives the same
    closes and changes, and percentages within 0.005 of those roundings. *)
Theorem linear_scenario :
  map (fun b => this (close b)) scenario_series
  = [100; 101; 102; 103; 104; 105; 106; 107; 108; 109;
     110; 111; 112; 113; 114; 115; 116; 117; 118; 119]%Q
  /\ map (fun b => date_of (bar_timestamp b)) scenario_series
     = map Z.of_nat (seq 0 20)
  /\ @forecast Qc _ (sklearn_only []) linear scenario_series "AAPL" 5
     = Ret scenario_forecast
  /\ map (fun p => this (predicted_close p)) scenario_forecast
     = [120; 121; 122; 123; 124]%Q
  /\ map (fun p => this (price_change p)) scenario_forecast
     = [1; 2; 3; 4; 5]%Q
  /\ map (fun p => this (price_change_pct p)) scenario_forecast
     = [100 # 119; 200 # 119; 300 # 119; 400 # 119; 500 # 119]%Q
  /\ Forall2 (fun p pct => (pct - 0.005 < this (price_change_pct p))%Q
                           /\ (this (price_change_pct p) < pct + 0.005)%Q)
       scenario_forecast [0.84; 1.68; 2.52; 3.36; 4.20]%Q
  /\ map forecast_day scenario_forecast = [1; 2; 3; 4; 5]
  /\ map (fun p => date_of (timestamp p)) scenario_forecast = [20; 21; 22; 23; 24]
  /\ exists r,
       @forecast float _ (sklearn_only []) linear scenario_series_binary64 "AAPL" 5
       = Ret r
       /\ map predicted_close r = [120; 121; 122; 123; 124]%float
       /\ map price_change r = [1; 2; 3; 4; 5]%float
       /\ Forall2 (fun p per_mille =>
                     (fst per_mille <? price_change_pct p * 1000)%float
                     && (price_change_pct p * 1000 <? snd per_mille)%float = true)
            r [(835, 845); (1675, 1685); (2515, 2525); (3355, 3365);
               (4195, 4205)]%float.
Proof.
  repeat match goal with |- _ /\ _ => split end;
    try (vm_compute; reflexivity).
  - repeat (constructor; [split; vm_compute; reflexivity |]). constructor.
  - eexists. split; [vm_compute; reflexivity |].
    repeat split; try reflexivity.
    repeat (constructor; [vm_compute; reflexivity |]). constructor.
Qed.

(** ** The moving-average strategy *)

Lemma range_nth (n : Z) (i : nat) (k : Z) :
  nth_error (range n) i = Some k -> k = Z.of_nat i /\ (i < Z.to_nat n)%nat.
Proof.
  unfold range. rewrite nth_error_map, nth_error_seq.
  destruct (i <? Z.to_nat n)%nat eqn:Hi; simpl; [| discriminate].
  apply Nat.ltb_lt in Hi. now intros [= <-].
Qed.

Lemma len_map {A B : Type} (f : A -> B) (l : list A) : len (map f l) = len l.
Proof. unfold len. now rewrite length_map. Qed.

Lemma len_sort_values {A : Type} (key : A -> Z) (l : list A) :
  len (sort_values key l) = len l.
Proof. unfold len. now rewrite sort_values_length. Qed.

Lemma ewm_mean_returns {F : Type} {N : PyNum F} (span : Z) (xs : list F) :
  1 <= span -> exists baseline, ewm_mean span xs = Ret baseline.
Proof.
  intros H. unfold ewm_mean. apply Z.ltb_ge in H. rewrite H.
  destruct xs; eauto.
Qed.

Section MovingAverage.

Context {F : Type} {N : PyNum F}.

(** The window of recent closes and its two ends. *)
Lemma recent_window (df : list (@PriceBar F)) :
  5 <= len df ->
  let closes := map close (sort_values bar_timestamp df) in
  let window_size := Z.min 10 (len df) in
  let window := skipn (List.length closes - Z.to_nat window_size) closes in
  exists b earliest,
    final_bar df = Ret b
    /\ slice_last (Z.min 10 (len closes)) closes = window
    /\ len window = window_size
    /\ index_first window = Ret earliest
    /\ index_last window = Ret (close b)
    /\ index_last closes = Ret (close b)
    /\ index_last (map bar_timestamp (sort_values bar_timestamp df))
       = Ret (bar_timestamp b)
    /\ In earliest closes.
Proof.
  intros Hlen closes window_size window.
  assert (Hc : len closes = len df)
    by (unfold closes; now rewrite len_map, len_sort_values).
  assert (Hne : df <> []) by (intros ->; unfold len in Hlen; simpl in Hlen; lia).
  destruct (final_bar_exists df Hne) as (b & Hb). exists b.
  assert (Hw : len window = window_size).
  { unfold window, len. rewrite length_skipn. unfold len in Hc.
    unfold window_size, len in *. lia. }
  destruct window as [| earliest rest] eqn:Hwin.
  { unfold len in Hw. simpl in Hw. unfold window_size in Hw. lia. }
  exists earliest. rewrite <- Hwin.
  assert (Hlast : index_last closes = Ret (close b)).
  { unfold closes. rewrite index_last_map. unfold final_bar in Hb. now rewrite Hb. }
  repeat split.
  - exact Hb.
  - unfold slice_last. rewrite Hc. fold window_size.
    destruct (window_size =? 0) eqn:H0; [| reflexivity].
    apply Z.eqb_eq in H0. unfold window_size in H0. lia.
  - rewrite Hwin. exact Hw.
  - rewrite Hwin. reflexivity.
  - rewrite <- Hlast. unfold window. apply index_last_skipn.
    unfold len in Hc, Hlen. unfold window_size, len. lia.
  - exact Hlast.
  - rewrite index_last_map. unfold final_bar in Hb. now rewrite Hb.
  - assert (Hin : In earliest window) by (rewrite Hwin; now left).
    unfold window in Hin. rewrite <- (firstn_skipn
      (List.length closes - Z.to_nat window_size) closes).
    apply in_or_app. now right.
Qed.

(** The strategy on a series of at least five bars, for any smoothing routine
    that returns. *)
Lemma moving_average_with_value (ewm : Z -> list F -> result (list F))
  (df : list (@PriceBar F)) (symbol : string) (days : Z) (baseline : list F) :
  5 <= len df ->
  let closes := map close (sort_values bar_timestamp df) in
  let window_size := Z.min 10 (len df) in
  let window := skipn (List.length closes - Z.to_nat window_size) closes in
  ewm (Z.min 20 (len df)) closes = Ret baseline ->
  forall b earliest,
    final_bar df = Ret b -> index_first window = Ret earliest ->
    forecast_moving_average_with ewm df symbol days
    = Ret (map (moving_average_point symbol (bar_timestamp b) (close b)
                  (fdiv (fsub (close b) earliest) (of_int window_size)))
             (range days)).
Proof.
  intros Hlen closes window_size window Hewm b earliest Hb Hfirst.
  destruct (recent_window df Hlen)
    as (b' & e' & Hb' & Hslice & Hw & Hfirst' & Hlast & Hlastc & Hlastt & _).
  fold closes window_size in Hslice, Hw, Hfirst', Hlast, Hlastc.
  fold window in Hslice, Hw, Hfirst', Hlast.
  rewrite Hb in Hb'. injection Hb' as <-.
  rewrite Hfirst in Hfirst'. injection Hfirst' as <-.
  unfold forecast_moving_average_with.
  assert (Hguard : (match df with [] => true | _ => false end) || (len df <? 5)
                   = false).
  { destruct df; [unfold len in Hlen; simpl in Hlen; lia |].
    simpl. now apply Z.ltb_ge. }
  rewrite Hguard. cbv zeta. fold closes.
  assert (Hc : len closes = len df)
    by (unfold closes; now rewrite len_map, len_sort_values).
  rewrite Hc, Hewm. cbn [bind]. rewrite <- Hc, Hslice, Hlast, Hfirst.
  cbn [bind]. rewrite Hlastt, Hlastc. cbn [bind try_except].
  now rewrite Hw.
Qed.

End MovingAverage.

(** C4. On a series of at least five bars with pairwise distinct timestamps
    and for every horizon, the moving_average strategy returns, and the
    point of day [k] of its result is [last_close + trend * k] with
    [trend = (most_recent - earliest_in_window) / window_size] over the window
    of the last [min(10, length)] closes; there is one point per day of the
    horizon when the dates of the horizon can be computed. The smoothed
    baseline (span [min(20, length)]) is computed, and whatever it is the
    points are the same. On a constant series the forecast is that constant
    at every point, given that subtracting the constant from itself gives a
    zero that stays zero when divided by the window size and multiplied by
    the day numbers and leaves the constant unchanged when added to it. *)
Theorem moving_average_extrapolates_trend {F : Type} {N : PyNum F}
  (df : list (@PriceBar F)) (symbol : string) (days : Z) :
  5 <= len df ->
  NoDup (map bar_timestamp df) ->
  let closes := map close (sort_values bar_timestamp df) in
  let window_size := Z.min 10 (len df) in
  let window := skipn (List.length closes - Z.to_nat window_size) closes in
  exists b earliest,
    final_bar df = Ret b
    /\ len window = window_size
    /\ index_first window = Ret earliest
    /\ index_last window = Ret (close b)
    /\ (exists baseline, ewm_mean (Z.min 20 (len df)) closes = Ret baseline)
    /\ (forall ewm baseline,
          ewm (Z.min 20 (len df)) closes = Ret baseline ->
          exists r,
            forecast_moving_average_with ewm df symbol days = Ret r
            /\ (horizon_in_range df days = true ->
                List.length r = Z.to_nat days)
            /\ forall i p, nth_error r i = Some p ->
                 forecast_day p = Z.of_nat i + 1
                 /\ predicted_close p
                    = fadd (close b)
                        (fmul (fdiv (fsub (close b) earliest) (of_int window_size))
                           (of_int (Z.of_nat i + 1))))
    /\ (forall c zero,
          (forall b', In b' df -> close b' = c) ->
          fsub c c = zero ->
          fdiv zero (of_int window_size) = zero ->
          (forall k, 1 <= k <= days -> fmul zero (of_int k) = zero) ->
          fadd c zero = c ->
          exists r,
            forecast_moving_average df symbol days = Ret r
            /\ (horizon_in_range df days = true ->
                List.length r = Z.to_nat days)
            /\ forall p, In p r -> predicted_close p = c).
Proof.
  intros Hlen _ closes window_size window.
  destruct (recent_window df Hlen)
    as (b & earliest & Hb & _ & Hw & Hfirst & Hlast & _ & _ & Hin).
  fold closes window_size in Hw, Hfirst, Hlast, Hin.
  fold window in Hw, Hfirst, Hlast.
  exists b, earliest.
  assert (Hspan : exists baseline, ewm_mean (Z.min 20 (len df)) closes = Ret baseline)
    by (apply ewm_mean_returns; lia).
  repeat (split; [assumption |]).
  assert (Hany : forall ewm baseline,
    ewm (Z.min 20 (len df)) closes = Ret baseline ->
    exists r,
      forecast_moving_average_with ewm df symbol days = Ret r
      /\ List.length r = Z.to_nat days
      /\ forall i p, nth_error r i = Some p ->
           forecast_day p = Z.of_nat i + 1
           /\ predicted_close p
              = fadd (close b)
                  (fmul (fdiv (fsub (close b) earliest) (of_int window_size))
                     (of_int (Z.of_nat i + 1)))).
  { intros ewm baseline Hewm.
    rewrite (moving_average_with_value ewm df symbol days baseline Hlen Hewm
               b earliest Hb Hfirst).
    eexists. split; [reflexivity |]. split.
    - now rewrite length_map, range_length.
    - intros i p Hp. rewrite nth_error_map in Hp.
      destruct (nth_error (range days) i) as [k |] eqn:Hk; [| discriminate].
      apply range_nth in Hk as [-> _]. injection Hp as <-. now split. }
  split.
  { intros ewm baseline Hewm.
    destruct (Hany ewm baseline Hewm) as (r & Hr & Hlenr & Hpts).
    exists r. split; [exact Hr |]. split; [intros _; exact Hlenr | exact Hpts]. }
  intros c zero Hconst Hsub Hdiv Hmul Hadd.
  destruct Hspan as (baseline & Hewm).
  destruct (Hany ewm_mean baseline Hewm) as (r & Hr & Hlenr & Hpts).
  exists r. split; [exact Hr |]. split; [intros _; exact Hlenr |].
  intros p Hp. apply In_nth_error in Hp as (i & Hi).
  destruct (Hpts i p Hi) as [_ ->].
  assert (Hb' : close b = c).
  { apply Hconst. apply (final_bar_latest df b Hb). }
  assert (He : earliest = c).
  { unfold closes in Hin. apply in_map_iff in Hin as (b' & <- & Hb'').
    apply Hconst. exact (proj1 (sort_values_In bar_timestamp df b') Hb''). }
  rewrite Hb', He, Hsub, Hdiv, Hmul, Hadd; [reflexivity |].
  assert (i < List.length r)%nat by (apply nth_error_Some; congruence).
  lia.
Qed.

Lemma moving_average_extrapolates_trend_witness :
  exists r,
    @forecast_moving_average float _ flat_series "FLAT" 3 = Ret r
    /\ List.length r = 3%nat
    /\ forall p, In p r -> predicted_close p = 100%float.
Proof.
  assert (Hlen : 5 <= len flat_series) by (vm_compute; discriminate).
  assert (Hnd : NoDup (map bar_timestamp flat_series))
    by (apply NoDup_by_nodup; vm_compute; reflexivity).
  assert (Hrange : horizon_in_range flat_series 3 = true)
    by (vm_compute; reflexivity).
  destruct (@moving_average_extrapolates_trend float _ flat_series "FLAT" 3
              Hlen Hnd)
    as (b & earliest & _ & _ & _ & _ & _ & _ & Hconst).
  destruct (Hconst 100%float 0%float) as (r & Hr & Hlenr & Hpts).
  - intros b' Hb'. simpl in Hb'.
    repeat (destruct Hb' as [<- | Hb']; [reflexivity |]). destruct Hb'.
  - reflexivity.
  - reflexivity.
  - intros k Hk.
    assert (Hcases : k = 1 \/ k = 2 \/ k = 3) by lia.
    destruct Hcases as [-> | [-> | ->]]; reflexivity.
  - reflexivity.
  - exists r. split; [exact Hr |]. split; [exact (Hlenr Hrange) | exact Hpts].
Defined.

(** ** fetch_historical_data *)

Lemma ascending_skipn (n : nat) (l : list Z) : ascending l -> ascending (skipn n l).
Proof.
  revert l. induction n as [| n IH]; intros l H; [exact H |].
  destruct l as [| x l]; [exact I |]. simpl. apply IH, H.
Qed.

Lemma tail_nonneg {A : Type} (n : Z) (l : list A) :
  0 <= n -> tail n l = skipn (List.length l - Z.to_nat n) l.
Proof.
  intros Hn. unfold tail. destruct (n =? 0) eqn:H0.
  - apply Z.eqb_eq in H0. subst n. simpl. now rewrite Nat.sub_0_r, skipn_all.
  - apply Z.eqb_neq in H0. assert (Hpos : (0 <? n) = true) by (apply Z.ltb_lt; lia).
    now rewrite Hpos.
Qed.

Lemma tail_negative {A : Type} (n : Z) (l : list A) :
  n < 0 -> tail n l = skipn (Z.to_nat (- n)) l.
Proof.
  intros Hn. unfold tail.
  destruct (n =? 0) eqn:H0; [apply Z.eqb_eq in H0; lia |].
  destruct (0 <? n) eqn:Hpos; [apply Z.ltb_lt in Hpos; lia |].
  reflexivity.
Qed.

Lemma tail_nil {A : Type} (n : Z) : tail n (@nil A) = [].
Proof.
  unfold tail. destruct (n =? 0); [reflexivity |].
  destruct (0 <? n); now rewrite skipn_nil.
Qed.

(** A negative number of bars is passed on to [tail], which then drops the
    first bars of the sorted history instead. *)
Lemma loader_negative_lookback {F : Type} {E : @Externals F}
  (symbol : string) (lookback_days : Z) (b : @PriceBar F)
  (history : list (@PriceBar F)) :
  lookback_days < 0 -> supabase_select symbol = Ret (b :: history) ->
  fetch_historical_data symbol lookback_days
  = Ret (skipn (Z.to_nat (- lookback_days))
           (sort_values bar_timestamp (b :: history))).
Proof.
  intros Hn Hsel. unfold fetch_historical_data. rewrite Hsel.
  cbn [bind try_except]. now rewrite tail_negative.
Qed.

(** C9, as the code has it. For every symbol whose stored bars have pairwise
    distinct timestamps and every [lookback_days], the loader returns
    normally; when the fetch raises the series is empty, and so it is when
    there is no history. Otherwise the series is taken from the history
    sorted in ascending order of timestamp: for [lookback_days >= 0] it is
    the last [lookback_days] bars, as many as there are when the history is
    shorter; for [lookback_days < 0] it is the history without its first
    [- lookback_days] bars. *)
Theorem loader_last_bars {F : Type} {E : @Externals F}
  (symbol : string) (lookback_days : Z) :
  (forall history, supabase_select symbol = Ret history ->
     NoDup (map bar_timestamp history)) ->
  exists series,
    fetch_historical_data symbol lookback_days = Ret series
    /\ match supabase_select symbol with
       | Raise _ => series = []
       | Ret history =>
           let sorted := sort_values bar_timestamp history in
           Permutation sorted history
           /\ ascending (map bar_timestamp sorted)
           /\ (0 <= lookback_days ->
               series = skipn (List.length sorted - Z.to_nat lookback_days) sorted
               /\ len series = Z.min lookback_days (len history))
           /\ (lookback_days < 0 ->
               series = skipn (Z.to_nat (- lookback_days)) sorted
               /\ len series = Z.max 0 (len history + lookback_days))
           /\ ascending (map bar_timestamp series)
           /\ (history = [] -> series = [])
       end.
Proof.
  intros _. unfold fetch_historical_data, try_except.
  destruct (supabase_select symbol) as [history | e]; simpl;
    [| exists []; now split].
  set (sorted := sort_values bar_timestamp history).
  assert (Hlen : List.length sorted = List.length history)
    by apply sort_values_length.
  exists (tail lookback_days sorted).
  split.
  - destruct history as [| b history]; [| reflexivity].
    unfold sorted. simpl. now rewrite tail_nil.
  - split; [apply sort_values_perm |].
    split; [apply sort_values_ascending |].
    split.
    { intros Hn. rewrite tail_nonneg by exact Hn. split; [reflexivity |].
      unfold len. rewrite length_skipn, Hlen. lia. }
    split.
    { intros Hn. rewrite tail_negative by exact Hn. split; [reflexivity |].
      unfold len. rewrite length_skipn, Hlen. lia. }
    split.
    + destruct (Z.lt_ge_cases lookback_days 0) as [Hn | Hn].
      * rewrite tail_negative by exact Hn.
        rewrite <- skipn_map. apply ascending_skipn, sort_values_ascending.
      * rewrite tail_nonneg by exact Hn.
        rewrite <- skipn_map. apply ascending_skipn, sort_values_ascending.
    + intros ->. unfold sorted. simpl. now rewrite tail_nil.
Qed.

Lemma loader_last_bars_witness :
  exists series,
    @fetch_historical_data Qc (sklearn_only scenario_series) "AAPL" 3
    = Ret series
    /\ map (fun b => this (close b)) series = [117; 118; 119]%Q.
Proof.
  assert (Hnd : forall history,
            @supabase_select Qc (sklearn_only scenario_series) "AAPL"
            = Ret history -> NoDup (map bar_timestamp history)).
  { intros history H. vm_compute in H. injection H as <-.
    apply NoDup_by_nodup. vm_compute. reflexivity. }
  destruct (@loader_last_bars Qc (sklearn_only scenario_series) "AAPL" 3 Hnd)
    as (series & Hs & H).
  exists series. split; [exact Hs |].
  hnf in H. destruct H as (_ & _ & Hlast & _).
  destruct Hlast as [-> _]; [lia |]. vm_compute. reflexivity.
Defined.

(** The claim C9 fails for a negative number of bars: asked for the last
    [-1] bars of a history of 20 bars on 20 different days, the loader
    returns 19 bars, the history without its earliest bar, where the last
    [-1] rows of a frame are no row at all. *)
Lemma loader_negative_lookback_returns_bars :
  @supabase_select Qc (sklearn_only scenario_series) "AAPL" = Ret scenario_series
  /\ NoDup (map bar_timestamp scenario_series)
  /\ @fetch_historical_data Qc (sklearn_only scenario_series) "AAPL" (-1)
     = Ret (skipn 1 scenario_series)
  /\ len (skipn 1 scenario_series) = 19
  /\ last_rows (-1) (sort_values bar_timestamp scenario_series) = [].
Proof.
  split; [reflexivity |].
  split; [apply NoDup_by_nodup; vm_compute; reflexivity |].
  split; [vm_compute; reflexivity |].
  split; reflexivity.
Qed.

(** ** The table and the batch loop *)

Lemma unique_violation_swallowed :
  contains "duplicate" (lower unique_violation)
  || contains "unique" (lower unique_violation) = true.
Proof. vm_compute. reflexivity. Qed.

Lemma not_null_violation_reported :
  contains "duplicate" (lower not_null_violation)
  || contains "unique" (lower not_null_violation) = false.
Proof. vm_compute. reflexivity. Qed.

Lemma unique_key_eqb_refl (k : unique_key) : unique_key_eqb k k = true.
Proof.
  unfold unique_key_eqb. now rewrite Z.eqb_refl, !String.eqb_refl.
Qed.

Lemma key_in_app (k : unique_key) (ks ks' : list unique_key) :
  key_in k (ks ++ ks') = key_in k ks || key_in k ks'.
Proof. apply existsb_app. Qed.

Section StoreFacts.

Context {F : Type} {N : PyNum F}.
Variable other_failure : list (@record F) -> option string.

Lemma keys_app (t t' : list (@record F)) : keys (t ++ t') = keys t ++ keys t'.
Proof.
  induction t as [| r t IH]; simpl; [reflexivity |].
  destruct (key_of r); simpl; now rewrite IH.
Qed.

Lemma insert_refused (table batch : list (@record F)) :
  refused other_failure table batch = true ->
  exists msg, supabase_insert other_failure table batch = (table, Raise msg).
Proof.
  unfold refused, supabase_insert.
  destruct (other_failure batch) as [msg |]; [eauto |].
  destruct (negb (forallb has_key batch)); [eauto |]. simpl.
  intros ->. eauto.
Qed.

Lemma insert_accepted (table batch : list (@record F)) :
  refused other_failure table batch = false ->
  supabase_insert other_failure table batch = (table ++ batch, Ret tt).
Proof.
  unfold refused, supabase_insert.
  destruct (other_failure batch) as [msg |]; [discriminate |].
  destruct (negb (forallb has_key batch)); [discriminate |]. simpl.
  now intros ->.
Qed.

(** A refusal stands when the table grows. *)
Lemma refused_mono (table more batch : list (@record F)) :
  refused other_failure table batch = true -> refused other_failure (table ++ more) batch = true.
Proof.
  unfold refused. destruct (other_failure batch); [reflexivity |].
  destruct (negb (forallb has_key batch)); [reflexivity |]. simpl.
  destruct (has_duplicate (keys batch)); [reflexivity |]. simpl.
  rewrite !existsb_exists. intros (k & Hk & Hin). exists k. split; [exact Hk |].
  now rewrite keys_app, key_in_app, Hin.
Qed.

(** A stored batch is refused from then on. *)
Lemma refused_once_stored (table batch : list (@record F)) :
  refused other_failure table batch = false -> batch <> [] ->
  refused other_failure (table ++ batch) batch = true.
Proof.
  unfold refused. destruct (other_failure batch); [discriminate |].
  destruct (forallb has_key batch) eqn:Hkeys; [| discriminate]. simpl.
  intros _ Hne. destruct batch as [| r batch]; [contradiction |].
  simpl in Hkeys. apply andb_prop in Hkeys as [Hr _].
  unfold has_key in Hr. apply orb_true_iff. right.
  rewrite keys_app. cbn [keys]. destruct (key_of r) as [k |]; [| discriminate].
  cbn [existsb]. rewrite key_in_app. unfold key_in at 2. cbn [existsb].
  rewrite unique_key_eqb_refl. cbn [orb]. now rewrite orb_true_r.
Qed.

Lemma insert_batches_count (bs : list (list (@record F)))
  (table : list (@record F)) (total : Z) :
  snd (insert_batches other_failure table bs total)
  = total + fold_right Z.add 0 (map (counted other_failure) bs).
Proof.
  revert table total. induction bs as [| b bs IH]; intros table total;
    cbn [insert_batches map fold_right snd]; [lia |].
  set (rest := fold_right Z.add 0 (map (counted other_failure) bs)) in *.
  unfold supabase_insert, counted.
  destruct (other_failure b) as [msg |].
  - destruct (contains "duplicate" (lower msg) || contains "unique" (lower msg));
      rewrite IH; lia.
  - destruct (forallb has_key b); cbn [negb].
    + destruct (has_duplicate (keys b)
                || existsb (fun k => key_in k (keys table)) (keys b)).
      * rewrite unique_violation_swallowed, IH. lia.
      * rewrite IH. lia.
    + rewrite not_null_violation_reported, IH. lia.
Qed.

(** After the loop every batch is empty or refused by the table it leaves. *)
Lemma insert_batches_settles (bs : list (list (@record F)))
  (table : list (@record F)) (total : Z) :
  let table' := fst (insert_batches other_failure table bs total) in
  (exists more, table' = table ++ more)
  /\ Forall (fun b => b = [] \/ refused other_failure table' b = true) bs.
Proof.
  revert table total. induction bs as [| b bs IH]; intros table total.
  - simpl. split; [exists []; now rewrite app_nil_r | constructor].
  - cbn [insert_batches]. destruct (refused other_failure table b) eqn:Hb.
    + destruct (insert_refused table b Hb) as (msg & ->).
      assert (Hstep : forall total',
        let table' := fst (insert_batches other_failure table bs total') in
        (exists more, table' = table ++ more)
        /\ Forall (fun b0 => b0 = [] \/ refused other_failure table' b0 = true) (b :: bs)).
      { intros total'. destruct (IH table total') as ((more & Hmore) & Hall).
        split; [now exists more |]. constructor; [| exact Hall].
        right. rewrite Hmore. now apply refused_mono. }
      destruct (contains "duplicate" (lower msg) || contains "unique" (lower msg));
        apply Hstep.
    + rewrite (insert_accepted table b Hb).
      destruct (IH (table ++ b) (total + len b)) as ((more & Hmore) & Hall).
      split; [exists (b ++ more); now rewrite app_assoc |].
      constructor; [| exact Hall].
      destruct b as [| r b]; [now left | right].
      rewrite Hmore. apply refused_mono, refused_once_stored; [exact Hb | discriminate].
Qed.

(** A loop over batches that are all empty or refused leaves the table as it
    was. *)
Lemma insert_batches_settled (bs : list (list (@record F)))
  (table : list (@record F)) (total : Z) :
  Forall (fun b => b = [] \/ refused other_failure table b = true) bs ->
  fst (insert_batches other_failure table bs total) = table.
Proof.
  revert total. induction bs as [| b bs IH]; intros total Hall; [reflexivity |].
  inversion Hall as [| ? ? Hb Hbs]; subst. cbn [insert_batches].
  destruct (refused other_failure table b) eqn:Href.
  - destruct (insert_refused table b Href) as (msg & ->).
    destruct (contains "duplicate" (lower msg) || contains "unique" (lower msg));
      now apply IH.
  - destruct Hb as [-> | Hb]; [| congruence].
    rewrite (insert_accepted table [] Href), app_nil_r. now apply IH.
Qed.

(** Storing the same records again changes nothing and returns the same
    count. *)
Lemma insert_records_again (table records : list (@record F)) (batch_size : Z) :
  let first := insert_records other_failure table records batch_size in
  insert_records other_failure (fst first) records batch_size = first
  /\ exists n, snd first = Ret n.
Proof.
  unfold insert_records. destruct (batches batch_size records) as [bs | e].
  - destruct (insert_batches other_failure table bs 0) as [table' n] eqn:H1.
    cbn [fst snd]. split; [| now exists n].
    destruct (insert_batches other_failure table' bs 0) as [table'' n'] eqn:H2.
    assert (Ht : table'' = table').
    { change table'' with (fst (table'', n')). rewrite <- H2.
      apply insert_batches_settled.
      change table' with (fst (table', n)). rewrite <- H1.
      apply insert_batches_settles. }
    assert (Hn : n' = n).
    { change n' with (snd (table'', n')). rewrite <- H2.
      change n with (snd (table', n)). rewrite <- H1.
      now rewrite !insert_batches_count. }
    now subst.
  - simpl. split; [reflexivity | now exists 0].
Qed.

End StoreFacts.

Lemma batches_from_concat {F : Type} (fuel n : nat) (records : list (@record F)) :
  (0 < n)%nat -> (List.length records <= fuel)%nat ->
  List.concat (batches_from fuel n records) = records.
Proof.
  intros Hn. revert records. induction fuel as [| fuel IH]; intros records Hlen.
  - destruct records; [reflexivity | simpl in Hlen; lia].
  - destruct records as [| r records]; [reflexivity |].
    cbn [batches_from List.concat]. rewrite IH.
    + apply firstn_skipn.
    + rewrite length_skipn. cbn [List.length] in Hlen |- *. lia.
Qed.

Section StoreCount.

Context {F : Type} {N : PyNum F}.
Variable other_failure : list (@record F) -> option string.
Hypothesis no_other_failure : forall batch, other_failure batch = None.

Lemma counted_sum (bs : list (list (@record F))) :
  (forall r, In r (List.concat bs) -> has_key r = true) ->
  fold_right Z.add 0 (map (counted other_failure) bs) = len (List.concat bs).
Proof.
  induction bs as [| b bs IH]; intros Hkeys; [reflexivity |].
  cbn [map fold_right List.concat]. rewrite IH.
  - unfold counted. rewrite no_other_failure.
    assert (Hb : forallb has_key b = true).
    { apply forallb_forall. intros r Hr. apply Hkeys. simpl.
      apply in_or_app. now left. }
    rewrite Hb. unfold len. rewrite length_app. lia.
  - intros r Hr. apply Hkeys. simpl. apply in_or_app. now right.
Qed.

(** With a positive batch size and no other failure every record is counted,
    stored now or already there. *)
Lemma insert_records_all_counted (table records : list (@record F))
  (batch_size : Z) :
  0 < batch_size ->
  (forall r, In r records -> has_key r = true) ->
  snd (insert_records other_failure table records batch_size)
  = Ret (len records).
Proof.
  intros Hpos Hkeys. unfold insert_records, batches.
  destruct (batch_size =? 0) eqn:H0; [apply Z.eqb_eq in H0; lia |].
  destruct (batch_size <? 0) eqn:Hneg; [apply Z.ltb_lt in Hneg; lia |].
  set (bs := batches_from (List.length records) (Z.to_nat batch_size) records).
  assert (Hcat : List.concat bs = records)
    by (apply batches_from_concat; lia).
  pose proof (insert_batches_count other_failure bs table 0) as Hcount.
  destruct (insert_batches other_failure table bs 0) as [table' n].
  cbn [snd] in *. rewrite Hcount, counted_sum, Hcat; [reflexivity |].
  now rewrite Hcat.
Qed.

End StoreCount.

(** ** Storing twice *)

Lemma v1_record_has_key {F : Type} (today : Z) (method : string)
  (row : @ForecastPoint F) :
  key_of (StoreV1.make_record today method row) = Some (today, symbol row, method).
Proof. reflexivity. Qed.

Lemma v2_record_has_key {F : Type} {N : PyNum F} (method : string)
  (row : @ForecastPoint F) :
  key_of (StoreV2.make_record method row)
  = Some (date_of (timestamp row), strip (symbol row), method).
Proof. reflexivity. Qed.

(** C7. Storing the same forecast rows a second time (with either script, and
    for the first script on the same day) leaves the table exactly as the
    first store left it, so no row is inserted twice; the call returns a
    count instead of raising; the count is the one the first store returned,
    and when the batch size is positive and requests fail only on the
    uniqueness constraint it is the number of rows handed in, the rows in
    conflict included. *)
Theorem store_twice_is_idempotent {F : Type} {N : PyNum F}
  (other_failure : list (@record F) -> option string) (today : Z)
  (table : list (@record F)) (forecast_df : list (@ForecastPoint F))
  (method : string) (batch_size : Z) :
  (let first :=
     StoreV1.insert_forecast_data other_failure today table forecast_df method
       batch_size in
   let second :=
     StoreV1.insert_forecast_data other_failure today (fst first) forecast_df
       method batch_size in
   fst second = fst first
   /\ snd second = snd first
   /\ (exists n, snd second = Ret n)
   /\ (0 < batch_size -> (forall batch, other_failure batch = None) ->
       snd second = Ret (len forecast_df)))
  /\ (let first :=
        StoreV2.insert_forecast_data other_failure table forecast_df method
          batch_size in
      let second :=
        StoreV2.insert_forecast_data other_failure (fst first) forecast_df
          method batch_size in
      fst second = fst first
      /\ snd second = snd first
      /\ (exists n, snd second = Ret n)
      /\ (0 < batch_size -> (forall batch, other_failure batch = None) ->
          snd second = Ret (len forecast_df))).
Proof.
  split.
  - unfold StoreV1.insert_forecast_data.
    destruct forecast_df as [| p rows].
    + cbn. repeat split; eauto.
    + set (records := map (StoreV1.make_record today method) (p :: rows)).
      destruct (insert_records_again other_failure table records batch_size)
        as [Hagain (n & Hn)].
      cbv zeta. rewrite Hagain. repeat split; [now exists n |].
      intros Hpos Hnone.
      rewrite (insert_records_all_counted other_failure Hnone table records
                 batch_size Hpos).
      * unfold records. now rewrite len_map.
      * intros r Hr. apply in_map_iff in Hr as (row & <- & _). reflexivity.
  - unfold StoreV2.insert_forecast_data.
    destruct forecast_df as [| p rows].
    + cbn. repeat split; eauto.
    + set (records := map (StoreV2.make_record method) (p :: rows)).
      destruct (insert_records_again other_failure table records batch_size)
        as [Hagain (n & Hn)].
      cbv zeta. rewrite Hagain. repeat split; [now exists n |].
      intros Hpos Hnone.
      rewrite (insert_records_all_counted other_failure Hnone table records
                 batch_size Hpos).
      * unfold records. now rewrite len_map.
      * intros r Hr. apply in_map_iff in Hr as (row & <- & _). reflexivity.
Qed.

(** The second script on the five points of the scenario, two rows per
    request: the first store fills the table, the second leaves it alone and
    still returns 5. *)
Lemma store_twice_scenario :
  let first :=
    StoreV2.insert_forecast_data (fun _ => None) [] scenario_forecast "linear" 2 in
  first = (map (StoreV2.make_record "linear") scenario_forecast, Ret 5)
  /\ StoreV2.insert_forecast_data (fun _ => None) (fst first) scenario_forecast
       "linear" 2
     = first.
Proof. split; vm_compute; reflexivity. Qed.

(** ** A final close of zero, in binary64 *)

Lemma is_zero_SF (x : float) :
  PrimFloat.is_zero x = true -> exists s, Prim2SF x = S754_zero s.
Proof.
  unfold PrimFloat.is_zero. rewrite eqb_spec.
  change (Prim2SF PrimFloat.zero) with (S754_zero false).
  destruct (Prim2SF x) as [s | s | | s m e];
    [eauto | destruct s; discriminate | discriminate | destruct s; discriminate].
Qed.

Lemma SF_zero_is_zero (x : float) (s : bool) :
  Prim2SF x = S754_zero s -> PrimFloat.is_zero x = true.
Proof.
  intros H. unfold PrimFloat.is_zero. rewrite eqb_spec, H. reflexivity.
Qed.

Lemma SF_nan_is_nan (x : float) : Prim2SF x = S754_nan -> PrimFloat.is_nan x = true.
Proof.
  intros H. unfold PrimFloat.is_nan. rewrite eqb_spec, H. reflexivity.
Qed.

Lemma SF_infinity_is_infinity (x : float) (s : bool) :
  Prim2SF x = S754_infinity s ->
  PrimFloat.is_infinity x = true /\ PrimFloat.is_nan x = false.
Proof.
  intros H. unfold PrimFloat.is_infinity, PrimFloat.is_nan.
  rewrite !eqb_spec, abs_spec, H. now destruct s.
Qed.

(** [change / 0 * 100]: NaN when [change] is zero or NaN, an infinity
    otherwise. *)
Lemma pct_of_zero_close (change z : float) :
  PrimFloat.is_zero z = true ->
  let pct := fmul (fdiv change z) (of_int 100) in
  (PrimFloat.is_nan change || PrimFloat.is_zero change = true ->
   PrimFloat.is_nan pct = true)
  /\ (PrimFloat.is_nan change || PrimFloat.is_zero change = false ->
      PrimFloat.is_infinity pct = true /\ PrimFloat.is_nan pct = false).
Proof.
  intros Hz pct. apply is_zero_SF in Hz as (sz & Hz).
  assert (Hpct : Prim2SF pct
                 = SF64mul (SF64div (Prim2SF change) (S754_zero sz))
                     (Prim2SF (float_of_int 100))).
  { unfold pct. cbn [fmul fdiv of_int float_PyNum].
    now rewrite mul_spec, div_spec, Hz. }
  set (hundred := Prim2SF (float_of_int 100)) in Hpct.
  vm_compute in hundred. subst hundred.
  destruct (Prim2SF change) as [s | s | | s m e] eqn:Hc.
  - rewrite (SF_zero_is_zero change s Hc), orb_true_r.
    split; [intros _ | discriminate]. now apply SF_nan_is_nan.
  - split.
    + intros H. apply orb_true_iff in H as [H | H].
      * destruct (SF_infinity_is_infinity change s Hc) as [_ Hn]. congruence.
      * apply is_zero_SF in H as (s' & H). congruence.
    + intros _. now apply (SF_infinity_is_infinity pct (xorb (xorb s sz) false)).
  - rewrite (SF_nan_is_nan change Hc).
    split; [intros _ | discriminate]. now apply SF_nan_is_nan.
  - split.
    + intros H. apply orb_true_iff in H as [H | H].
      * unfold PrimFloat.is_nan in H. rewrite eqb_spec, Hc in H.
        apply negb_true_iff in H. unfold SFeqb, SFcompare in H.
        destruct s; rewrite Z.compare_refl, Pos.compare_cont_refl in H;
          discriminate.
      * apply is_zero_SF in H as (s' & H). congruence.
    + intros _. now apply (SF_infinity_is_infinity pct (xorb (xorb s sz) false)).
Qed.

(** C6, as the code has it. When the final close of a series with pairwise
    distinct timestamps is zero the strategies divide by it all the same, in
    IEEE arithmetic: for every point of a result [price_change_pct] is
    [price_change / 0 * 100], which is NaN when [price_change] is zero or NaN
    and an infinity otherwise; nothing is raised. *)
Theorem zero_last_close_divides {E : @Externals float} (m : Method)
  (df : list (@PriceBar float)) (symbol : string) (h : Z)
  (b : @PriceBar float) :
  NoDup (map bar_timestamp df) ->
  final_bar df = Ret b -> PrimFloat.is_zero (close b) = true ->
  exists r,
    forecast m df symbol h = Ret r
    /\ forall p, In p r ->
         price_change_pct p = (price_change p / close b * float_of_int 100)%float
         /\ (PrimFloat.is_nan (price_change p) || PrimFloat.is_zero (price_change p)
             = true ->
             PrimFloat.is_nan (price_change_pct p) = true)
         /\ (PrimFloat.is_nan (price_change p) || PrimFloat.is_zero (price_change p)
             = false ->
             PrimFloat.is_infinity (price_change_pct p) = true
             /\ PrimFloat.is_nan (price_change_pct p) = false).
Proof.
  intros _ Hb Hz.
  destruct (forecast_contract m df symbol h) as (r & Hr & Hc).
  exists r. split; [exact Hr |]. intros p Hp.
  destruct Hc as [-> | (b' & Hb' & _ & Hcols)]; [destruct Hp |].
  rewrite Hb in Hb'. injection Hb' as <-.
  rewrite Forall_forall in Hcols. destruct (Hcols p Hp) as [_ Hpct].
  split; [exact Hpct |]. rewrite Hpct.
  exact (pct_of_zero_close (price_change p) (close b) Hz).
Qed.

Lemma zero_last_close_divides_witness :
  exists r,
    forecast (E := sklearn_only []) moving_average falling_to_zero "ZERO" 2 = Ret r
    /\ map price_change_pct r = [neg_infinity; neg_infinity].
Proof.
  assert (Hnd : NoDup (map bar_timestamp falling_to_zero))
    by (apply NoDup_by_nodup; vm_compute; reflexivity).
  destruct (@zero_last_close_divides (sklearn_only []) moving_average
              falling_to_zero "ZERO" 2 (daily_bar "ZERO" 5 0%float) Hnd)
    as (r & Hr & _); [reflexivity | reflexivity |].
  exists r. split; [exact Hr |].
  vm_compute in Hr. injection Hr as <-. reflexivity.
Defined.

(** The claim C6 fails as stated: on a series falling to a final close of
    zero the moving-average strategy returns two points whose
    [price_change_pct] is minus infinity, not NaN, and the second storage
    script sends that value, not null. *)
Lemma zero_last_close_not_nan :
  exists b,
    final_bar falling_to_zero = Ret b
    /\ close b = 0%float
    /\ forecast (E := sklearn_only []) moving_average falling_to_zero "ZERO" 2
       = Ret falling_forecast
    /\ map price_change_pct falling_forecast = [neg_infinity; neg_infinity]
    /\ map (fun p => PrimFloat.is_nan (price_change_pct p)) falling_forecast
       = [false; false]
    /\ map (fun p => get "price_change_pct" (StoreV2.make_record "moving_average" p))
         falling_forecast
       = [Some (JFloat neg_infinity); Some (JFloat neg_infinity)].
Proof.
  exists (daily_bar "ZERO" 5 0%float). repeat split; vm_compute; reflexivity.
Qed.

(** ** The records of the two storage scripts *)

Lemma date_of_days_later (ts k : Z) :
  date_of (ts + timedelta_days k) = date_of ts + k.
Proof. unfold date_of, timedelta_days. now apply Z.div_add. Qed.

Lemma NoDup_map_injective {A B : Type} (f : A -> B) (l : list A) :
  (forall x y, f x = f y -> x = y) -> NoDup l -> NoDup (map f l).
Proof.
  intros Hinj. induction 1 as [| x l Hx Hl IH]; simpl; constructor; [| exact IH].
  intros Hin. apply in_map_iff in Hin as (y & Hy & Hin).
  apply Hinj in Hy. now subst y.
Qed.

Lemma days_ahead_NoDup (d h : Z) : NoDup (map (fun k => d + k) (days_ahead h)).
Proof.
  unfold days_ahead, range. rewrite !map_map.
  apply NoDup_map_injective; [| apply seq_NoDup].
  intros x y Hxy. lia.
Qed.

Section Records.

Context {F : Type} {N : PyNum F}.

(** The second script dates a record by the day of the point's timestamp. *)
Lemma v2_forecast_date (method : string) (p : @ForecastPoint F) :
  get "forecast_date" (StoreV2.make_record method p)
  = Some (JDate (date_of (timestamp p))).
Proof. reflexivity. Qed.

(** It leaves the interval out. *)
Lemma v2_no_bounds (method : string) (p : @ForecastPoint F) :
  get "lower_bound" (StoreV2.make_record method p) = None
  /\ get "upper_bound" (StoreV2.make_record method p) = None.
Proof. split; reflexivity. Qed.

(** The first script dates every record by the day it runs and carries the
    interval. *)
Lemma v1_forecast_date (today : Z) (method : string) (p : @ForecastPoint F) :
  get "forecast_date" (StoreV1.make_record today method p) = Some (JDate today).
Proof. reflexivity. Qed.

Lemma v1_bounds (today : Z) (method : string) (p : @ForecastPoint F) :
  get "lower_bound" (StoreV1.make_record today method p)
  = Some (column_or_none (lower_bound p))
  /\ get "upper_bound" (StoreV1.make_record today method p)
     = Some (column_or_none (upper_bound p)).
Proof. split; reflexivity. Qed.

(** The points of one result get distinct keys from the second script. *)
Lemma v2_keys_distinct {E : @Externals F} (m : Method) (df : list (@PriceBar F))
  (symbol : string) (h : Z) (method : string) (r : list (@ForecastPoint F)) :
  forecast m df symbol h = Ret r ->
  NoDup (map (fun p => key_of (StoreV2.make_record method p)) r).
Proof.
  intros Hr. destruct (forecast_contract m df symbol h) as (r' & Hr' & Hc).
  rewrite Hr in Hr'. injection Hr' as <-.
  destruct Hc as [-> | (b & _ & (_ & _ & Ht) & _)]; [constructor |].
  apply (NoDup_map_inv
           (fun k => match k with Some (d, _, _) => d | None => 0 end)).
  rewrite map_map.
  rewrite (map_ext _ (fun p => date_of (timestamp p))) by reflexivity.
  rewrite <- (map_map timestamp date_of), Ht, map_map.
  rewrite (map_ext _ (fun k => date_of (bar_timestamp b) + k))
    by (intros k; apply date_of_days_later).
  apply days_ahead_NoDup.
Qed.

End Records.

(** C8, at five ARIMA points with their intervals. The second script dates
    each row by the day of the point's timestamp, so the five keys differ,
    but its rows have no [lower_bound] and no [upper_bound]; the first script
    carries both bounds but dates every row by the day of the run (here day
    19), so the five rows share one key, the table refuses the batch and
    stays empty while 5 is returned. *)
Theorem sink_rows_of_arima_points :
  @forecast Qc _ (all_libraries []) arima scenario_series "AAPL" 5
  = Ret scenario_arima_forecast
  /\ map (fun p => (date_of (timestamp p), option_map this (lower_bound p),
                    option_map this (upper_bound p))) scenario_arima_forecast
     = [ (20, Some 118%Q, Some 120%Q); (21, Some 118%Q, Some 120%Q);
         (22, Some 118%Q, Some 120%Q); (23, Some 118%Q, Some 120%Q);
         (24, Some 118%Q, Some 120%Q) ]
  /\ map (fun p => get "forecast_date" (StoreV2.make_record "arima" p))
       scenario_arima_forecast
     = [Some (JDate 20); Some (JDate 21); Some (JDate 22); Some (JDate 23);
        Some (JDate 24)]
  /\ map (fun p => (get "lower_bound" (StoreV2.make_record "arima" p),
                    get "upper_bound" (StoreV2.make_record "arima" p)))
       scenario_arima_forecast
     = [(None, None); (None, None); (None, None); (None, None); (None, None)]
  /\ map (fun p => get "forecast_date" (StoreV1.make_record 19 "arima" p))
       scenario_arima_forecast
     = [Some (JDate 19); Some (JDate 19); Some (JDate 19); Some (JDate 19);
        Some (JDate 19)]
  /\ map (fun p => (get "lower_bound" (StoreV1.make_record 19 "arima" p),
                    get "upper_bound" (StoreV1.make_record 19 "arima" p)))
       scenario_arima_forecast
     = repeat (Some (JFloat (Q2Qc 118)), Some (JFloat (Q2Qc 120))) 5
  /\ StoreV1.insert_forecast_data (fun _ => None) 19 [] scenario_arima_forecast
       "arima" 100
     = ([], Ret 5)
  /\ StoreV2.insert_forecast_data (fun _ => None) [] scenario_arima_forecast
       "arima" 50
     = (map (StoreV2.make_record "arima") scenario_arima_forecast, Ret 5).
Proof.
  repeat split; vm_compute; reflexivity.
Qed.

(** * Further properties of the forecasting module *)

(** ** Columns and symbol of the points *)

Lemma try_except_empty_inv {A : Type} (body : result (list A)) (r : list A) :
  try_except body (fun _ => Ret []) = Ret r -> body = Ret r \/ r = [].
Proof.
  destruct body as [a | e]; simpl; intros [= <-]; [now left | now right].
Qed.

Section PointColumns.

Context {F : Type} {N : PyNum F} {E : @Externals F}.

Lemma zip_columns_no_bounds (ts : list Z) (ps : list F) (ds : list Z)
  (rows : list (@RawPoint F)) :
  zip_columns ts ps ds = Ret rows ->
  Forall (fun r => raw_bounds r = None) rows.
Proof.
  revert ps ds rows. induction ts as [| t ts IH]; intros ps ds rows H.
  - destruct ps, ds; try discriminate. injection H as <-. constructor.
  - destruct ps as [| p ps], ds as [| d ds]; try discriminate.
    simpl in H. destruct (zip_columns ts ps ds) as [rest |] eqn:Hz;
      [| discriminate].
    injection H as <-. constructor; [reflexivity | now apply (IH ps ds)].
Qed.

Lemma zip_bounds_some (rows : list (@RawPoint F)) (lo hi : list F)
  (rows' : list (@RawPoint F)) :
  zip_bounds rows lo hi = Ret rows' ->
  Forall (fun r => exists l h, raw_bounds r = Some (l, h)) rows'.
Proof.
  revert lo hi rows'. induction rows as [| r rows IH]; intros lo hi rows' H.
  - destruct lo, hi; try discriminate. injection H as <-. constructor.
  - destruct lo as [| l lo], hi as [| h hi]; try discriminate.
    simpl in H. destruct (zip_bounds rows lo hi) as [rest |] eqn:Hz;
      [| discriminate].
    injection H as <-. constructor; [now exists l, h | now apply (IH lo hi)].
Qed.

(** Every point of a result carries the symbol the strategy was called with;
    the points of linear and moving_average have no interval, those of arima
    and prophet have both bounds. *)
Theorem points_symbol_and_interval (m : Method) (df : list (@PriceBar F))
  (symbol_arg : string) (h : Z) (r : list (@ForecastPoint F)) :
  forecast m df symbol_arg h = Ret r ->
  forall p, In p r ->
    symbol p = symbol_arg
    /\ match m with
       | linear | moving_average =>
           lower_bound p = None /\ upper_bound p = None
       | arima | prophet =>
           exists lo hi, lower_bound p = Some lo /\ upper_bound p = Some hi
       end.
Proof.
  intros Hr p Hp. destruct m; simpl in Hr.
  - unfold forecast_linear_regression in Hr.
    destruct (_ || _); [injection Hr as <-; destruct Hp |].
    apply try_except_empty_inv in Hr as [Hr | ->]; [| destruct Hp].
    cbv zeta in Hr. bind_inv Hr. injection Hr as <-.
    apply in_map_iff in Hp as (raw & <- & Hraw).
    apply zip_columns_no_bounds in Hv2. rewrite Forall_forall in Hv2.
    simpl. rewrite (Hv2 raw Hraw). now repeat split.
  - unfold forecast_moving_average, forecast_moving_average_with in Hr.
    destruct (_ || _); [injection Hr as <-; destruct Hp |].
    apply try_except_empty_inv in Hr as [Hr | ->]; [| destruct Hp].
    cbv zeta in Hr. bind_inv Hr. injection Hr as <-.
    apply in_map_iff in Hp as (i & <- & _). now repeat split.
  - unfold forecast_arima in Hr.
    destruct (negb _); [injection Hr as <-; destruct Hp |].
    destruct (_ || _); [injection Hr as <-; destruct Hp |].
    apply try_except_empty_inv in Hr as [Hr | ->]; [| destruct Hp].
    cbv zeta in Hr. bind_inv Hr. injection Hr as <-.
    apply in_map_iff in Hp as (raw & <- & Hraw).
    apply zip_bounds_some in Hv3. rewrite Forall_forall in Hv3.
    destruct (Hv3 raw Hraw) as (lo & hi & Hb).
    simpl. rewrite Hb. split; [reflexivity | now exists lo, hi].
  - unfold forecast_prophet in Hr.
    destruct (negb _); [injection Hr as <-; destruct Hp |].
    destruct (_ || _); [injection Hr as <-; destruct Hp |].
    apply try_except_empty_inv in Hr as [Hr | ->]; [| destruct Hp].
    cbv zeta in Hr. bind_inv Hr. injection Hr as <-.
    apply in_map_iff in Hp as (raw & <- & Hraw).
    apply zip_bounds_some in Hv3. rewrite Forall_forall in Hv3.
    destruct (Hv3 raw Hraw) as (lo & hi & Hb).
    simpl. rewrite Hb. split; [reflexivity | now exists lo, hi].
Qed.

End PointColumns.

Lemma points_symbol_and_interval_witness :
  Forall (fun p => symbol p = "AAPL"
                   /\ exists lo hi,
                        lower_bound p = Some lo /\ upper_bound p = Some hi)
    scenario_arima_forecast.
Proof.
  apply Forall_forall.
  apply (@points_symbol_and_interval Qc _ (all_libraries []) arima
           scenario_series "AAPL" 5 scenario_arima_forecast).
  vm_compute. reflexivity.
Defined.

(** ** The linear strategy follows the fitted line *)

Section LinearLine.

Context {F : Type} {N : PyNum F} {E : @Externals F}.

Lemma zip_columns_map (l : list Z) (f : Z -> Z) (g : Z -> F) (k : Z -> Z) :
  zip_columns (map f l) (map g l) (map k l)
  = Ret (map (fun x => {| raw_timestamp := f x; raw_predicted := g x;
                          raw_day := k x; raw_bounds := None |}) l).
Proof.
  induction l as [| x l IH]; simpl; [reflexivity |]. now rewrite IH.
Qed.

Lemma range_positive (days : Z) : 1 <= days -> range days <> [].
Proof.
  intros H Hnil. apply (f_equal (@List.length Z)) in Hnil.
  rewrite range_length in Hnil. simpl in Hnil. lia.
Qed.

Lemma linear_with_fit (df : list (@PriceBar F)) (symbol : string)
  (days : Z) :
  5 <= len df ->
  let closes := map close (sort_values bar_timestamp df) in
  (forall e, sk_fit (arange 0 (len df)) closes = Raise e ->
             forecast_linear_regression df symbol days = Ret [])
  /\ (forall coef intercept,
        sk_fit (arange 0 (len df)) closes = Ret (coef, intercept) ->
        1 <= days ->
        exists r,
          forecast_linear_regression df symbol days = Ret r
          /\ len r = days
          /\ forall i p, nth_error r i = Some p ->
               predicted_close p
               = fadd (fmul coef (of_int (len df + Z.of_nat i))) intercept).
Proof.
  intros Hlen closes.
  assert (Hguard : (match df with [] => true | _ => false end) || (len df <? 5)
                   = false).
  { destruct df; [unfold len in Hlen; simpl in Hlen; lia |].
    simpl. now apply Z.ltb_ge. }
  assert (Hc : len closes = len df)
    by (unfold closes; now rewrite len_map, len_sort_values).
  split.
  - intros e He. unfold forecast_linear_regression. rewrite Hguard. cbv zeta.
    fold closes. rewrite Hc, He. reflexivity.
  - intros coef intercept Hfit Hdays.
    assert (Hne : df <> []) by (intros ->; unfold len in Hlen; simpl in Hlen; lia).
    destruct (final_bar_exists df Hne) as (b & Hb). unfold final_bar in Hb.
    unfold forecast_linear_regression. rewrite Hguard. cbv zeta.
    fold closes. rewrite Hc, Hfit. cbn [bind].
    rewrite index_last_map, Hb. cbn [bind].
    assert (Hlastc : index_last closes = Ret (close b))
      by (unfold closes; now rewrite index_last_map, Hb).
    rewrite Hlastc.
    unfold arange at 1. replace (len df + days - len df) with days by lia.
    unfold sk_predict. destruct (map (fun i => len df + i) (range days)) eqn:Hx.
    { apply map_eq_nil in Hx. now apply range_positive in Hx. }
    rewrite <- Hx. clear Hx. cbn [bind]. rewrite map_map, zip_columns_map.
    cbn [bind try_except]. eexists. split; [reflexivity |]. split.
    + unfold len. rewrite !length_map, range_length. lia.
    + intros i p Hp. rewrite !nth_error_map in Hp.
      destruct (nth_error (range days) i) as [k |] eqn:Hk; [| discriminate].
      apply range_nth in Hk as [-> _]. injection Hp as <-. reflexivity.
Qed.

(** On a series of at least five bars with pairwise distinct timestamps,
    and for a horizon whose dates can be computed, the only thing that can
    fail is the fit: when it raises the result is empty, and when it returns
    the line [(coef, intercept)] the result has one point per day of the
    horizon, the point at position [i] being the line at the index
    [len df + i]. *)
Theorem linear_follows_fitted_line (df : list (@PriceBar F)) (symbol : string)
  (days : Z) :
  5 <= len df ->
  NoDup (map bar_timestamp df) ->
  horizon_in_range df days = true ->
  let closes := map close (sort_values bar_timestamp df) in
  (forall e, sk_fit (arange 0 (len df)) closes = Raise e ->
             forecast_linear_regression df symbol days = Ret [])
  /\ (forall coef intercept,
        sk_fit (arange 0 (len df)) closes = Ret (coef, intercept) ->
        1 <= days ->
        exists r,
          forecast_linear_regression df symbol days = Ret r
          /\ len r = days
          /\ forall i p, nth_error r i = Some p ->
               predicted_close p
               = fadd (fmul coef (of_int (len df + Z.of_nat i))) intercept).
Proof. intros Hlen _ _. exact (linear_with_fit df symbol days Hlen). Qed.

End LinearLine.

Lemma linear_follows_fitted_line_witness :
  exists r,
    @forecast_linear_regression Qc _ (sklearn_only []) scenario_series "AAPL" 5
    = Ret r
    /\ len r = 5.
Proof.
  assert (Hlen5 : 5 <= len scenario_series) by (vm_compute; discriminate).
  assert (Hnd : NoDup (map bar_timestamp scenario_series))
    by (apply NoDup_by_nodup; vm_compute; reflexivity).
  assert (Hrange : horizon_in_range scenario_series 5 = true)
    by (vm_compute; reflexivity).
  destruct (@linear_follows_fitted_line Qc _ (sklearn_only []) scenario_series
              "AAPL" 5 Hlen5 Hnd Hrange) as [_ Hline].
  destruct (ols_fit (arange 0 (len scenario_series))
              (map close (sort_values bar_timestamp scenario_series)))
    as [[coef intercept] | e] eqn:Hfit; [| discriminate].
  destruct (Hline coef intercept Hfit) as (r & Hr & Hlen & _); [lia |].
  exists r. now split.
Defined.

(** ** The order of the input rows *)

Lemma NoDup_map_injective_on {A B : Type} (f : A -> B) (l : list A) (x y : A) :
  NoDup (map f l) -> In x l -> In y l -> f x = f y -> x = y.
Proof.
  induction l as [| a l IH]; intros Hnd Hx Hy Hxy; [destruct Hx |].
  simpl in Hnd. inversion Hnd as [| ? ? Ha Hl]; subst.
  destruct Hx as [-> | Hx], Hy as [-> | Hy]; auto.
  - exfalso. apply Ha. rewrite Hxy. now apply in_map.
  - exfalso. apply Ha. rewrite <- Hxy. now apply in_map.
Qed.

Lemma ascending_perm_eq {A : Type} (key : A -> Z) (s1 s2 : list A) :
  ascending (map key s1) -> ascending (map key s2) -> Permutation s1 s2 ->
  NoDup (map key s1) -> s1 = s2.
Proof.
  revert s2. induction s1 as [| a s1 IH]; intros s2 H1 H2 Hp Hnd.
  - apply Permutation_nil in Hp. now subst.
  - destruct s2 as [| b s2];
      [apply Permutation_sym, Permutation_nil in Hp; discriminate |].
    assert (Hab : a = b).
    { apply (NoDup_map_injective_on key (a :: s1)); [exact Hnd | now left | |].
      - apply (Permutation_in b (Permutation_sym Hp)). now left.
      - destruct H1 as [Ha _], H2 as [Hb _]. apply Z.le_antisymm.
        + assert (Hin : In b (a :: s1))
            by (apply (Permutation_in b (Permutation_sym Hp)); now left).
          destruct Hin as [<- | Hin]; [lia | apply Ha, in_map, Hin].
        + assert (Hin : In a (b :: s2))
            by (apply (Permutation_in a Hp); now left).
          destruct Hin as [<- | Hin]; [lia | apply Hb, in_map, Hin]. }
    subst b. f_equal. apply Permutation_cons_inv in Hp.
    apply IH; [apply H1 | apply H2 | exact Hp |].
    simpl in Hnd. now inversion Hnd.
Qed.

Lemma sort_values_perm_eq {A : Type} (key : A -> Z) (l1 l2 : list A) :
  Permutation l1 l2 -> NoDup (map key l1) ->
  sort_values key l1 = sort_values key l2.
Proof.
  intros Hp Hnd. apply (ascending_perm_eq key).
  - apply sort_values_ascending.
  - apply sort_values_ascending.
  - rewrite !sort_values_perm. exact Hp.
  - apply (Permutation_NoDup (l := map key l1)); [| exact Hnd].
    apply Permutation_map, Permutation_sym, sort_values_perm.
Qed.

(** With pairwise distinct keys a frame has one ascending arrangement: any
    sort gives [sort_values]. *)
Lemma sort_values_unique {A : Type} (key : A -> Z) (l s : list A) :
  NoDup (map key l) -> Permutation l s -> ascending (map key s) ->
  s = sort_values key l.
Proof.
  intros Hnd Hp Hs. symmetry. apply (ascending_perm_eq key).
  - apply sort_values_ascending.
  - exact Hs.
  - rewrite sort_values_perm. exact Hp.
  - apply (Permutation_NoDup (l := map key l)); [| exact Hnd].
    apply Permutation_map, Permutation_sym, sort_values_perm.
Qed.

Lemma sort_values_idem {A : Type} (key : A -> Z) (l : list A) :
  sort_values key (sort_values key l) = sort_values key l.
Proof. apply sort_values_sorted, sort_values_ascending. Qed.

Lemma is_empty_sort_values {A : Type} (key : A -> Z) (l : list A) :
  match sort_values key l with [] => true | _ => false end
  = match l with [] => true | _ => false end.
Proof.
  destruct l as [| x l]; [reflexivity |].
  destruct (sort_values key (x :: l)) eqn:Hs; [| reflexivity].
  apply (f_equal (@List.length A)) in Hs. rewrite sort_values_length in Hs.
  discriminate.
Qed.

Section InputOrder.

Context {F : Type} {N : PyNum F} {E : @Externals F}.

(** A strategy sees its input through the sorted frame only. *)
Lemma forecast_of_sorted (m : Method) (df : list (@PriceBar F)) (symbol : string)
  (h : Z) :
  forecast m df symbol h = forecast m (sort_values bar_timestamp df) symbol h.
Proof.
  destruct m; simpl;
    unfold forecast_linear_regression, forecast_moving_average,
      forecast_moving_average_with, forecast_arima, forecast_prophet;
    rewrite ?prophet_frame, is_empty_sort_values, len_sort_values,
      sort_values_idem;
    reflexivity.
Qed.

(** The strategies do not depend on the order in which the bars arrive,
    provided no two bars share a timestamp. *)
Theorem forecast_ignores_row_order (m : Method) (df df' : list (@PriceBar F))
  (symbol : string) (h : Z) :
  Permutation df df' -> NoDup (map bar_timestamp df) ->
  forecast m df symbol h = forecast m df' symbol h.
Proof.
  intros Hp Hnd.
  rewrite (forecast_of_sorted m df), (forecast_of_sorted m df').
  now rewrite (sort_values_perm_eq bar_timestamp df df' Hp Hnd).
Qed.

End InputOrder.

Lemma forecast_ignores_row_order_witness :
  @forecast Qc _ (sklearn_only []) linear (rev scenario_series) "AAPL" 5
  = Ret scenario_forecast.
Proof.
  rewrite <- (@forecast_ignores_row_order Qc _ (sklearn_only []) linear
                scenario_series (rev scenario_series) "AAPL" 5).
  - vm_compute. reflexivity.
  - apply Permutation_rev.
  - vm_compute. repeat (constructor; [simpl; intuition discriminate |]).
    constructor.
Defined.

(** ** generate_forecast as a whole *)

Lemma fetch_historical_data_length {F : Type} {E : @Externals F}
  (symbol : string) (n : Z) (df : list (@PriceBar F)) :
  0 <= n -> fetch_historical_data symbol n = Ret df -> len df <= n.
Proof.
  intros Hn. unfold fetch_historical_data, try_except.
  destruct (supabase_select symbol) as [[| b data] | e]; simpl;
    intros [= <-]; try (unfold len; simpl; lia).
  rewrite tail_nonneg by exact Hn. unfold len. rewrite length_skipn. lia.
Qed.

(** Whatever the symbol, the horizon and the method string,
    [generate_forecast] returns normally; its result is empty or is the full
    horizon computed from at most the 90 latest bars of the symbol: [days]
    points, numbered from 1 and dated day by day after the latest bar. *)
Theorem generate_forecast_contract {F : Type} {N : PyNum F} {E : @Externals F}
  (symbol : string) (days : Z) (method : string) :
  exists r,
    generate_forecast symbol days method = Ret r
    /\ (r = []
        \/ exists df b,
             fetch_historical_data symbol 90 = Ret df
             /\ len df <= 90
             /\ final_bar df = Ret b
             /\ len r = days
             /\ forall i p, nth_error r i = Some p ->
                  forecast_day p = Z.of_nat i + 1
                  /\ timestamp p
                     = bar_timestamp b + (Z.of_nat i + 1) * ns_per_day).
Proof.
  unfold generate_forecast.
  destruct (fetch_historical_data_returns symbol 90) as (df & Hdf).
  rewrite Hdf. cbn [bind].
  assert (Hlen : len df <= 90)
    by (apply (fetch_historical_data_length symbol 90 df); [lia | exact Hdf]).
  assert (Hm : forall m, exists r,
    forecast m df symbol days = Ret r
    /\ (r = []
        \/ exists df' b,
             Ret df = Ret df' /\ len df' <= 90 /\ final_bar df' = Ret b
             /\ len r = days
             /\ forall i p, nth_error r i = Some p ->
                  forecast_day p = Z.of_nat i + 1
                  /\ timestamp p
                     = bar_timestamp b + (Z.of_nat i + 1) * ns_per_day)).
  { intros m. destruct (forecast_contract m df symbol days)
      as (r & Hr & [Hnil | (b & Hb & Hs & _)]).
    - exists r. split; [exact Hr | now left].
    - exists r. split; [exact Hr | right]. exists df, b.
      repeat (split; [reflexivity || assumption || apply Hs |]).
      intros i p Hp. exact (horizon_shape_nth _ _ _ _ _ Hs Hp). }
  destruct df as [| b0 df0]; [exists []; split; [reflexivity | now left] |].
  destruct (String.eqb method "linear"); [exact (Hm linear) |].
  destruct (String.eqb method "moving_average"); [exact (Hm moving_average) |].
  destruct (String.eqb method "arima"); [exact (Hm arima) |].
  destruct (String.eqb method "prophet"); [exact (Hm prophet) |].
  exists []. split; [reflexivity | now left].
Qed.

(** When the query for the symbol raises or returns no row, the result is
    empty for every method string and every horizon. *)
Theorem generate_forecast_without_data {F : Type} {N : PyNum F}
  {E : @Externals F} (symbol : string) (days : Z) (method : string) :
  (forall rows, supabase_select symbol = Ret rows -> rows = []) ->
  generate_forecast symbol days method = Ret [].
Proof.
  intros Hnone. unfold generate_forecast, fetch_historical_data, try_except.
  destruct (supabase_select symbol) as [rows | e]; [| reflexivity].
  now rewrite (Hnone rows eq_refl).
Qed.

Lemma generate_forecast_without_data_witness :
  @generate_forecast Qc _ (all_libraries scenario_series) "GOOG" 7 "linear"
  = Ret [].
Proof.
  apply (@generate_forecast_without_data Qc _ (all_libraries scenario_series)
           "GOOG" 7 "linear").
  intros rows Hrows. vm_compute in Hrows. now injection Hrows as <-.
Defined.

(** A negative lookback makes the loader drop that many of the earliest bars
    instead of keeping the latest ones (for a history whose bars have
    pairwise distinct timestamps). *)
Theorem loader_drops_first_bars_on_negative_lookback {F : Type}
  {E : @Externals F} (symbol : string) (lookback_days : Z)
  (history : list (@PriceBar F)) :
  lookback_days < 0 -> history <> [] ->
  NoDup (map bar_timestamp history) ->
  supabase_select symbol = Ret history ->
  fetch_historical_data symbol lookback_days
  = Ret (skipn (Z.to_nat (- lookback_days))
           (sort_values bar_timestamp history)).
Proof.
  intros Hn Hne _ Hsel. destruct history as [| b history]; [contradiction |].
  now apply loader_negative_lookback.
Qed.

Lemma loader_drops_first_bars_on_negative_lookback_witness :
  exists series,
    @fetch_historical_data Qc (sklearn_only scenario_series) "AAPL" (-18)
    = Ret series
    /\ map (fun b => this (close b)) series = [118; 119]%Q.
Proof.
  eexists. split.
  - apply (@loader_drops_first_bars_on_negative_lookback Qc
             (sklearn_only scenario_series) "AAPL" (-18) scenario_series).
    + lia.
    + discriminate.
    + apply NoDup_by_nodup. vm_compute. reflexivity.
    + reflexivity.
  - vm_compute. reflexivity.
Defined.

(** * Further properties of the storage scripts *)

(** ** Keys as propositions *)

Lemma unique_key_eqb_eq (a b : unique_key) : unique_key_eqb a b = true <-> a = b.
Proof.
  destruct a as [[d s] m], b as [[d' s'] m']. unfold unique_key_eqb. simpl.
  rewrite !andb_true_iff, Z.eqb_eq, !String.eqb_eq. split.
  - intros [[-> ->] ->]. reflexivity.
  - intros [= -> -> ->]. now repeat split.
Qed.

Lemma key_in_In (k : unique_key) (ks : list unique_key) :
  key_in k ks = true <-> In k ks.
Proof.
  unfold key_in. rewrite existsb_exists. split.
  - intros (k' & Hin & Heq). apply unique_key_eqb_eq in Heq. now subst.
  - intros Hin. exists k. split; [exact Hin | apply unique_key_eqb_refl].
Qed.

Lemma has_duplicate_NoDup (ks : list unique_key) :
  has_duplicate ks = false <-> NoDup ks.
Proof.
  induction ks as [| k ks IH]; simpl.
  - split; [constructor | reflexivity].
  - rewrite orb_false_iff, IH. split.
    + intros [Hk Hnd]. constructor; [| exact Hnd].
      intros Hin. apply key_in_In in Hin. congruence.
    + intros Hnd. inversion Hnd as [| ? ? Hk Hks]; subst. split; [| exact Hks].
      destruct (key_in k ks) eqn:Hin; [| reflexivity].
      apply key_in_In in Hin. contradiction.
Qed.

Lemma keys_of_keyed {F : Type} (f : @record F -> unique_key)
  (rows : list (@record F)) :
  (forall r, In r rows -> key_of r = Some (f r)) -> keys rows = map f rows.
Proof.
  induction rows as [| r rows IH]; intros H; [reflexivity |].
  simpl. rewrite (H r (or_introl eq_refl)), IH; [reflexivity |].
  intros r' Hr'. apply H. now right.
Qed.

Lemma keys_map {F A : Type} (make : A -> @record F) (key : A -> unique_key)
  (l : list A) :
  (forall a, key_of (make a) = Some (key a)) -> keys (map make l) = map key l.
Proof.
  intros H. induction l as [| a l IH]; [reflexivity |].
  simpl. now rewrite H, IH.
Qed.

(** ** The loop only appends, and counts at most what it is given *)

Section StoreAppends.

Context {F : Type} {N : PyNum F}.
Variable other_failure : list (@record F) -> option string.

Lemma insert_batches_appends (bs : list (list (@record F)))
  (table : list (@record F)) (total : Z) :
  exists more,
    fst (insert_batches other_failure table bs total) = table ++ more
    /\ incl more (List.concat bs).
Proof.
  revert table total. induction bs as [| b bs IH]; intros table total.
  - exists []. split; [simpl; now rewrite app_nil_r | apply incl_nil_l].
  - cbn [insert_batches]. destruct (refused other_failure table b) eqn:Hb.
    + destruct (insert_refused other_failure table b Hb) as (msg & ->).
      assert (Hstep : forall total', exists more,
        fst (insert_batches other_failure table bs total') = table ++ more
        /\ incl more (List.concat (b :: bs))).
      { intros total'. destruct (IH table total') as (more & Hmore & Hincl).
        exists more. split; [exact Hmore |]. simpl. now apply incl_appr. }
      destruct (contains "duplicate" (lower msg) || contains "unique" (lower msg));
        apply Hstep.
    + rewrite (insert_accepted other_failure table b Hb).
      destruct (IH (table ++ b) (total + len b)) as (more & Hmore & Hincl).
      exists (b ++ more). split; [now rewrite app_assoc |].
      simpl. apply incl_app; [now apply incl_appl | now apply incl_appr].
Qed.

Lemma counted_bounds (b : list (@record F)) :
  0 <= counted other_failure b <= len b.
Proof.
  unfold counted, len.
  destruct (other_failure b) as [msg |];
    [destruct (contains "duplicate" (lower msg) || contains "unique" (lower msg))
    | destruct (forallb has_key b)]; lia.
Qed.

Lemma counted_sum_bounds (bs : list (list (@record F))) :
  0 <= fold_right Z.add 0 (map (counted other_failure) bs)
    <= len (List.concat bs).
Proof.
  induction bs as [| b bs IH]; [unfold len; simpl; lia |].
  cbn [map fold_right List.concat]. pose proof (counted_bounds b) as Hb.
  unfold len in *. rewrite length_app. lia.
Qed.

Lemma insert_records_appends (table records : list (@record F))
  (batch_size : Z) :
  exists more n,
    insert_records other_failure table records batch_size
    = (table ++ more, Ret n)
    /\ incl more records
    /\ 0 <= n <= len records.
Proof.
  unfold insert_records, batches.
  destruct (batch_size =? 0) eqn:H0.
  { exists [], 0. rewrite app_nil_r. repeat split;
      [apply incl_nil_l | lia | unfold len; lia]. }
  destruct (batch_size <? 0) eqn:Hneg.
  { exists [], 0. cbn. rewrite app_nil_r. repeat split;
      [apply incl_nil_l | lia | unfold len; lia]. }
  apply Z.eqb_neq in H0. apply Z.ltb_ge in Hneg.
  set (bs := batches_from (List.length records) (Z.to_nat batch_size) records).
  assert (Hcat : List.concat bs = records) by (apply batches_from_concat; lia).
  destruct (insert_batches_appends bs table 0) as (more & Hmore & Hincl).
  pose proof (insert_batches_count other_failure bs table 0) as Hcount.
  pose proof (counted_sum_bounds bs) as Hb.
  destruct (insert_batches other_failure table bs 0) as [table' n].
  cbn [fst snd] in *. exists more, n. subst table'. rewrite Hcat in *.
  repeat split; [exact Hincl | lia | lia].
Qed.

End StoreAppends.

(** With either script, storing a frame leaves every row already in the table
    in place: the table afterwards is the table before followed by some of
    the records built from the frame, and the count returned is between 0 and
    the number of rows of the frame. *)
Theorem store_only_appends {F : Type} {N : PyNum F}
  (other_failure : list (@record F) -> option string) (today : Z)
  (table : list (@record F)) (forecast_df : list (@ForecastPoint F))
  (method : string) (batch_size : Z) :
  (exists more n,
     StoreV1.insert_forecast_data other_failure today table forecast_df method
       batch_size
     = (table ++ more, Ret n)
     /\ (forall r, In r more ->
           exists p, In p forecast_df /\ r = StoreV1.make_record today method p)
     /\ 0 <= n <= len forecast_df)
  /\ (exists more n,
        StoreV2.insert_forecast_data other_failure table forecast_df method
          batch_size
        = (table ++ more, Ret n)
        /\ (forall r, In r more ->
              exists p, In p forecast_df /\ r = StoreV2.make_record method p)
        /\ 0 <= n <= len forecast_df).
Proof.
  split.
  - unfold StoreV1.insert_forecast_data. destruct forecast_df as [| p rows].
    + exists [], 0. rewrite app_nil_r.
      repeat split; [intros r [] | lia | unfold len; simpl; lia].
    + destruct (insert_records_appends other_failure table
                  (map (StoreV1.make_record today method) (p :: rows)) batch_size)
        as (more & n & Hins & Hincl & Hn).
      exists more, n. rewrite len_map in Hn. repeat split; try assumption; try lia.
      intros r Hr. apply Hincl, in_map_iff in Hr as (q & <- & Hq). now exists q.
  - unfold StoreV2.insert_forecast_data. destruct forecast_df as [| p rows].
    + exists [], 0. rewrite app_nil_r.
      repeat split; [intros r [] | lia | unfold len; simpl; lia].
    + destruct (insert_records_appends other_failure table
                  (map (StoreV2.make_record method) (p :: rows)) batch_size)
        as (more & n & Hins & Hincl & Hn).
      exists more, n. rewrite len_map in Hn. repeat split; try assumption; try lia.
      intros r Hr. apply Hincl, in_map_iff in Hr as (q & <- & Hq). now exists q.
Qed.

(** ** Storing rows whose keys are new *)

Lemma NoDup_app_disjoint {A : Type} (l l' : list A) :
  NoDup (l ++ l') -> forall x, In x l -> In x l' -> False.
Proof.
  induction l as [| a l IH]; intros Hnd x Hx Hx'; [destruct Hx |].
  simpl in Hnd. inversion Hnd as [| ? ? Ha Hl]; subst.
  destruct Hx as [-> | Hx]; [| now apply (IH Hl x)].
  apply Ha, in_or_app. now right.
Qed.

Section FreshStore.

Context {F : Type} {N : PyNum F}.
Variable other_failure : list (@record F) -> option string.
Hypothesis no_other_failure : forall batch, other_failure batch = None.

Lemma insert_batches_fresh (bs : list (list (@record F)))
  (table : list (@record F)) (total : Z) :
  (forall r, In r (List.concat bs) -> has_key r = true) ->
  NoDup (keys (List.concat bs)) ->
  (forall k, In k (keys (List.concat bs)) -> ~ In k (keys table)) ->
  insert_batches other_failure table bs total
  = (table ++ List.concat bs, total + len (List.concat bs)).
Proof.
  revert table total. induction bs as [| b bs IH];
    intros table total Hkeys Hnd Hnew.
  - simpl. rewrite app_nil_r. unfold len. simpl. now rewrite Z.add_0_r.
  - cbn [List.concat] in *. rewrite keys_app in Hnd, Hnew.
    assert (Hb : refused other_failure table b = false).
    { unfold refused. rewrite no_other_failure.
      assert (Hall : forallb has_key b = true).
      { apply forallb_forall. intros r Hr. apply Hkeys, in_or_app. now left. }
      rewrite Hall. cbn [negb orb]. apply orb_false_iff. split.
      - apply has_duplicate_NoDup. now apply NoDup_app_remove_r in Hnd.
      - destruct (existsb _ (keys b)) eqn:Hex; [| reflexivity].
        apply existsb_exists in Hex as (k & Hk & Hin).
        apply key_in_In in Hin. exfalso. apply (Hnew k); [| exact Hin].
        apply in_or_app. now left. }
    cbn [insert_batches]. rewrite (insert_accepted other_failure table b Hb).
    rewrite IH.
    + rewrite app_assoc. unfold len. rewrite length_app. f_equal. lia.
    + intros r Hr. apply Hkeys, in_or_app. now right.
    + now apply NoDup_app_remove_l in Hnd.
    + intros k Hk. rewrite keys_app. intros Hin.
      apply in_app_or in Hin as [Hin | Hin].
      * apply (Hnew k); [apply in_or_app; now right | exact Hin].
      * exact (NoDup_app_disjoint _ _ Hnd k Hin Hk).
Qed.

Lemma insert_records_fresh (table records : list (@record F)) (batch_size : Z) :
  0 < batch_size ->
  (forall r, In r records -> has_key r = true) ->
  NoDup (keys records) ->
  (forall k, In k (keys records) -> ~ In k (keys table)) ->
  insert_records other_failure table records batch_size
  = (table ++ records, Ret (len records)).
Proof.
  intros Hpos Hkeys Hnd Hnew. unfold insert_records, batches.
  destruct (batch_size =? 0) eqn:H0; [apply Z.eqb_eq in H0; lia |].
  destruct (batch_size <? 0) eqn:Hneg; [apply Z.ltb_lt in Hneg; lia |].
  set (bs := batches_from (List.length records) (Z.to_nat batch_size) records).
  assert (Hcat : List.concat bs = records) by (apply batches_from_concat; lia).
  rewrite insert_batches_fresh; rewrite ?Hcat; try assumption.
  reflexivity.
Qed.

End FreshStore.

(** With the second script, a frame whose rows have pairwise distinct
    (date, stripped symbol) pairs, none of them stored yet for the method, is
    stored whole and in order, whatever the positive batch size, when no
    request fails for another reason: the table gains exactly the records of
    the frame and the count is the number of rows. *)
Theorem v2_stores_new_rows {F : Type} {N : PyNum F}
  (other_failure : list (@record F) -> option string)
  (table : list (@record F)) (forecast_df : list (@ForecastPoint F))
  (method : string) (batch_size : Z) :
  (forall batch, other_failure batch = None) ->
  0 < batch_size ->
  NoDup (map (fun p => (date_of (timestamp p), strip (symbol p))) forecast_df) ->
  (forall p, In p forecast_df ->
     ~ In (date_of (timestamp p), strip (symbol p), method) (keys table)) ->
  StoreV2.insert_forecast_data other_failure table forecast_df method batch_size
  = (table ++ map (StoreV2.make_record method) forecast_df,
     Ret (len forecast_df)).
Proof.
  intros Hnone Hpos Hnd Hnew. unfold StoreV2.insert_forecast_data.
  destruct forecast_df as [| p0 rows] eqn:Hdf;
    [simpl; now rewrite app_nil_r |].
  rewrite <- Hdf in *. clear Hdf.
  assert (Hk : keys (map (StoreV2.make_record method) forecast_df)
               = map (fun p => (date_of (timestamp p), strip (symbol p), method))
                   forecast_df)
    by (apply keys_map; reflexivity).
  rewrite (insert_records_fresh other_failure Hnone table _ batch_size Hpos).
  - now rewrite len_map.
  - intros r Hr. apply in_map_iff in Hr as (p & <- & _). reflexivity.
  - rewrite Hk.
    apply (NoDup_map_inv (fun k : unique_key => fst k)).
    rewrite map_map. exact Hnd.
  - rewrite Hk. intros k Hin. apply in_map_iff in Hin as (p & <- & Hp).
    now apply Hnew.
Qed.

Lemma v2_stores_new_rows_witness :
  StoreV2.insert_forecast_data (fun _ => None) [] scenario_arima_forecast
    "arima" 2
  = (map (StoreV2.make_record "arima") scenario_arima_forecast, Ret 5).
Proof.
  apply (@v2_stores_new_rows Qc _ (fun _ => None) [] scenario_arima_forecast
           "arima" 2).
  - reflexivity.
  - lia.
  - vm_compute. repeat (constructor; [simpl; intuition discriminate |]).
    constructor.
  - intros p _ [].
Defined.

(** The keys the second script gives to the points of one strategy result
    are pairwise distinct. *)
Theorem v2_result_keys_distinct {F : Type} {N : PyNum F} {E : @Externals F}
  (m : Method) (df : list (@PriceBar F)) (symbol_arg : string) (h : Z)
  (method : string) (r : list (@ForecastPoint F)) :
  forecast m df symbol_arg h = Ret r ->
  NoDup (keys (map (StoreV2.make_record method) r)).
Proof.
  intros Hr.
  rewrite (keys_map (StoreV2.make_record method)
             (fun p => (date_of (timestamp p), strip (symbol p), method)))
    by reflexivity.
  apply (NoDup_map_inv Some). rewrite map_map.
  exact (v2_keys_distinct m df symbol_arg h method r Hr).
Qed.

Lemma v2_result_keys_distinct_witness :
  NoDup (keys (map (@StoreV2.make_record Qc _ "linear") scenario_forecast)).
Proof.
  apply (@v2_result_keys_distinct Qc _ (sklearn_only []) linear scenario_series
           "AAPL" 5 "linear" scenario_forecast).
  vm_compute. reflexivity.
Defined.

(** ** The first script on several points of one symbol *)

Lemma batches_from_single {F : Type} (n : nat) (records : list (@record F)) :
  records <> [] -> (List.length records <= n)%nat ->
  batches_from (List.length records) n records = [records].
Proof.
  intros Hne Hn. destruct records as [| r records]; [contradiction |].
  cbn [List.length batches_from].
  rewrite firstn_all2, skipn_all2 by exact Hn.
  now destruct (List.length records).
Qed.

(** With the first script, a frame that holds two rows of one symbol and goes
    out as a single request (batch size at least its length) is never stored:
    all its records get the key (today, symbol, method) twice, the table
    refuses the request and stays as it was, and the rows are counted as
    inserted all the same. *)
Theorem v1_same_symbol_rows_not_stored {F : Type} {N : PyNum F}
  (other_failure : list (@record F) -> option string) (today : Z)
  (table : list (@record F)) (forecast_df : list (@ForecastPoint F))
  (method : string) (batch_size : Z) :
  (forall batch, other_failure batch = None) ->
  len forecast_df <= batch_size ->
  ~ NoDup (map symbol forecast_df) ->
  StoreV1.insert_forecast_data other_failure today table forecast_df method
    batch_size
  = (table, Ret (len forecast_df)).
Proof.
  intros Hnone Hsize Hdup. unfold StoreV1.insert_forecast_data.
  destruct forecast_df as [| p0 rows] eqn:Hdf; [exfalso; apply Hdup; constructor |].
  rewrite <- Hdf in *.
  assert (Hlen : 0 < len forecast_df) by (rewrite Hdf; unfold len; simpl; lia).
  clear Hdf. set (records := map (StoreV1.make_record today method) forecast_df).
  assert (Hrl : List.length records = List.length forecast_df)
    by (unfold records; apply length_map).
  unfold insert_records, batches.
  destruct (batch_size =? 0) eqn:H0; [apply Z.eqb_eq in H0; lia |].
  destruct (batch_size <? 0) eqn:Hneg; [apply Z.ltb_lt in Hneg; lia |].
  rewrite batches_from_single.
  - cbn [insert_batches]. unfold supabase_insert. rewrite Hnone.
    assert (Hall : forallb has_key records = true).
    { apply forallb_forall. intros r Hr.
      apply in_map_iff in Hr as (p & <- & _). reflexivity. }
    rewrite Hall. cbn [negb].
    assert (Hd : has_duplicate (keys records) = true).
    { destruct (has_duplicate (keys records)) eqn:Hd; [reflexivity |].
      exfalso. apply Hdup. apply has_duplicate_NoDup in Hd.
      unfold records in Hd.
      rewrite (keys_map (StoreV1.make_record today method)
                 (fun p => (today, symbol p, method))) in Hd by reflexivity.
      apply (NoDup_map_inv (fun s => (today, s, method))).
      now rewrite map_map. }
    rewrite Hd. cbn [orb]. cbv zeta. rewrite unique_violation_swallowed.
    cbn [insert_batches]. unfold len. now rewrite Hrl.
  - intros Hnil. unfold len in Hlen. rewrite <- Hrl, Hnil in Hlen. simpl in Hlen. lia.
  - unfold len in Hsize. lia.
Qed.

Lemma v1_same_symbol_rows_not_stored_witness :
  StoreV1.insert_forecast_data (fun _ => None) 19 [] scenario_forecast "linear" 100
  = ([], Ret 5).
Proof.
  apply (@v1_same_symbol_rows_not_stored Qc _ (fun _ => None) 19 []
           scenario_forecast "linear" 100).
  - reflexivity.
  - vm_compute. discriminate.
  - intros Hnd. vm_compute in Hnd. inversion Hnd as [| ? ? Hin _].
    apply Hin. now left.
Defined.

(** ** Batch sizes *)

Lemma batches_from_one {F : Type} (fuel : nat) (records : list (@record F)) :
  (List.length records <= fuel)%nat ->
  batches_from fuel 1 records = map (fun r => [r]) records.
Proof.
  revert records. induction fuel as [| fuel IH]; intros records Hlen.
  - destruct records; [reflexivity | simpl in Hlen; lia].
  - destruct records as [| r records]; [reflexivity |].
    cbn [batches_from firstn skipn map]. rewrite IH; [reflexivity |].
    simpl in Hlen. lia.
Qed.

Section BatchSizes.

Context {F : Type} {N : PyNum F}.
Variable other_failure : list (@record F) -> option string.

(** Sent one record per request, every record with a key ends up with its key
    in the table, stored now or before. *)
Lemma insert_records_one_by_one (table records : list (@record F)) :
  (forall batch, other_failure batch = None) ->
  forall r k, In r records -> key_of r = Some k ->
    In k (keys (fst (insert_records other_failure table records 1))).
Proof.
  intros Hnone r k Hr Hk. unfold insert_records, batches. cbn [Z.eqb Z.ltb Z.compare].
  change (Z.to_nat 1) with 1%nat. rewrite batches_from_one by lia.
  pose proof (insert_batches_settles other_failure (map (fun r => [r]) records)
                table 0) as [_ Hall].
  destruct (insert_batches other_failure table (map (fun r => [r]) records) 0)
    as [table' n]. cbn [fst] in *.
  rewrite Forall_forall in Hall.
  destruct (Hall [r]) as [Hnil | Href];
    [exact (in_map (fun r => [r]) records r Hr) | discriminate |].
  unfold refused in Href. rewrite Hnone in Href.
  cbn [forallb keys has_duplicate existsb] in Href.
  unfold has_key in Href. rewrite Hk in Href.
  cbn [andb negb orb keys has_duplicate existsb key_in] in Href.
  rewrite orb_false_r in Href. now apply key_in_In.
Qed.

End BatchSizes.

(** With a batch size of 1 and requests that fail only on the uniqueness
    constraint, after the second script has stored a frame every point of
    the frame has its key (date of its timestamp, stripped symbol, method)
    in the table. *)
Theorem v2_one_row_per_request_covers_frame {F : Type} {N : PyNum F}
  (other_failure : list (@record F) -> option string)
  (table : list (@record F)) (forecast_df : list (@ForecastPoint F))
  (method : string) :
  (forall batch, other_failure batch = None) ->
  forall p, In p forecast_df ->
    In (date_of (timestamp p), strip (symbol p), method)
      (keys (fst (StoreV2.insert_forecast_data other_failure table forecast_df
                    method 1))).
Proof.
  intros Hnone p Hp. unfold StoreV2.insert_forecast_data.
  destruct forecast_df as [| p0 rows] eqn:Hdf; [destruct Hp |].
  rewrite <- Hdf in *. clear Hdf.
  apply (insert_records_one_by_one other_failure table _ Hnone
           (StoreV2.make_record method p)); [now apply in_map | reflexivity].
Qed.

Lemma v2_one_row_per_request_covers_frame_witness :
  Forall (fun p =>
            In (date_of (timestamp p), strip (symbol p), "linear")
              (keys (fst (StoreV2.insert_forecast_data (fun _ => None)
                            (map (StoreV2.make_record "linear")
                               (firstn 2 scenario_forecast))
                            scenario_forecast "linear" 1))))
    scenario_forecast.
Proof.
  apply Forall_forall.
  apply (@v2_one_row_per_request_covers_frame Qc _ (fun _ => None)).
  reflexivity.
Defined.

(** A batch size of zero or less sends nothing: both scripts leave the table
    as it is and return 0, whatever the frame. *)
Theorem nonpositive_batch_size_stores_nothing {F : Type} {N : PyNum F}
  (other_failure : list (@record F) -> option string) (today : Z)
  (table : list (@record F)) (forecast_df : list (@ForecastPoint F))
  (method : string) (batch_size : Z) :
  batch_size <= 0 ->
  StoreV1.insert_forecast_data other_failure today table forecast_df method
    batch_size = (table, Ret 0)
  /\ StoreV2.insert_forecast_data other_failure table forecast_df method
       batch_size = (table, Ret 0).
Proof.
  intros Hb.
  assert (Hrec : forall records : list (@record F),
            insert_records other_failure table records batch_size = (table, Ret 0)).
  { intros records. unfold insert_records, batches.
    destruct (batch_size =? 0) eqn:H0; [reflexivity |].
    apply Z.eqb_neq in H0.
    assert (Hneg : (batch_size <? 0) = true) by (apply Z.ltb_lt; lia).
    now rewrite Hneg. }
  unfold StoreV1.insert_forecast_data, StoreV2.insert_forecast_data.
  destruct forecast_df; [now split |]. now rewrite !Hrec.
Qed.

Lemma nonpositive_batch_size_stores_nothing_witness :
  StoreV1.insert_forecast_data (fun _ => None) 19 [] scenario_forecast "linear" 0
  = ([], Ret 0)
  /\ StoreV2.insert_forecast_data (fun _ => None) [] scenario_forecast "linear" 0
     = ([], Ret 0).
Proof.
  apply (@nonpositive_batch_size_stores_nothing Qc _ (fun _ => None) 19 []
           scenario_forecast "linear" 0).
  lia.
Defined.

(** ** clear_old_forecasts *)

Lemma date_of_days_before (now days : Z) :
  date_of (now - timedelta_days days) = date_of now - days.
Proof.
  replace (now - timedelta_days days) with (now + timedelta_days (- days))
    by (unfold timedelta_days; lia).
  rewrite date_of_days_later. lia.
Qed.

Section ClearOld.

Context {F : Type} {N : PyNum F}.
Variable delete_failure : Z -> option string.

Lemma filter_filter {A : Type} (f g : A -> bool) (l : list A) :
  filter f (filter g l) = filter (fun x => f x && g x) l.
Proof.
  induction l as [| x l IH]; simpl; [reflexivity |].
  destruct (g x), (f x) eqn:Hf; simpl; rewrite ?Hf, IH; reflexivity.
Qed.

Lemma datetime_minus_days_Ret (now days d : Z) :
  datetime_minus_days now days = Ret d -> d = now - timedelta_days days.
Proof.
  unfold datetime_minus_days. destruct (999999999 <? Z.abs days); [discriminate |].
  cbv zeta. destruct (_ && _); [| discriminate]. now intros [= <-].
Qed.

Lemma datetime_minus_days_in_range (now days : Z) :
  cutoff_in_range now days = true ->
  datetime_minus_days now days = Ret (now - timedelta_days days).
Proof.
  unfold cutoff_in_range, datetime_minus_days. intros H.
  apply andb_true_iff in H as [H H3]. apply andb_true_iff in H as [H1 H2].
  apply Z.leb_le in H1. cbv zeta. rewrite date_of_days_before, H2, H3.
  destruct (999999999 <? Z.abs days) eqn:Habs; [| reflexivity].
  apply Z.ltb_lt in Habs. lia.
Qed.

Lemma datetime_minus_days_out_of_range (now days : Z) :
  cutoff_in_range now days = false ->
  exists msg, datetime_minus_days now days = Raise msg.
Proof.
  unfold cutoff_in_range, datetime_minus_days. intros H. cbv zeta.
  rewrite date_of_days_before.
  destruct (999999999 <? Z.abs days) eqn:Habs; [eexists; reflexivity |].
  apply Z.ltb_ge, Z.leb_le in Habs. rewrite Habs in H. simpl in H.
  rewrite H. eexists. reflexivity.
Qed.

Lemma clear_old_in_range (now : Z) (table : list (@record F)) (days : Z) :
  cutoff_in_range now days = true ->
  clear_old_forecasts delete_failure now table days
  = (fst (execute_delete_before delete_failure table (date_of now - days)),
     Ret tt).
Proof.
  intros H. unfold clear_old_forecasts.
  rewrite (datetime_minus_days_in_range now days H). cbv zeta.
  now rewrite date_of_days_before.
Qed.

Lemma clear_old_out_of_range (now : Z) (table : list (@record F)) (days : Z) :
  cutoff_in_range now days = false ->
  clear_old_forecasts delete_failure now table days = (table, Ret tt).
Proof.
  intros H. unfold clear_old_forecasts.
  destruct (datetime_minus_days_out_of_range now days H) as (msg & ->).
  reflexivity.
Qed.

(** [clear_old_forecasts] returns in every case. When the cutoff cannot be
    computed (the retention is more than a [timedelta] holds, or the date of
    [now] minus [days] is outside the years 1 to 9999) no request is sent
    and the table is left as it is; so it is when the request raises. When
    the cutoff can be computed and the request goes through, the rows that
    remain are the rows dated on or after the cutoff (and the rows without a
    date), in their order. *)
Theorem clear_old_keeps_recent_rows (now : Z) (table : list (@record F))
  (days : Z) :
  snd (clear_old_forecasts delete_failure now table days) = Ret tt
  /\ (cutoff_in_range now days = false ->
        fst (clear_old_forecasts delete_failure now table days) = table)
  /\ (forall msg, delete_failure (date_of now - days) = Some msg ->
        fst (clear_old_forecasts delete_failure now table days) = table)
  /\ (cutoff_in_range now days = true ->
      delete_failure (date_of now - days) = None ->
        fst (clear_old_forecasts delete_failure now table days)
        = filter (fun r => match get "forecast_date" r with
                           | Some (JDate d) => date_of now - days <=? d
                           | _ => true
                           end) table).
Proof.
  destruct (cutoff_in_range now days) eqn:Hrange.
  - rewrite (clear_old_in_range now table days Hrange).
    unfold execute_delete_before. cbn [fst snd].
    split; [reflexivity |]. split; [discriminate |]. split.
    + intros msg ->. reflexivity.
    + intros _ ->. cbn [fst]. apply filter_ext. intros r. unfold dated_before.
      destruct (get "forecast_date" r) as [[| | | | d] |]; try reflexivity.
      now rewrite Z.leb_antisym.
  - rewrite (clear_old_out_of_range now table days Hrange). cbn [fst snd].
    split; [reflexivity |]. split; [reflexivity |]. split.
    + reflexivity.
    + discriminate.
Qed.

(** Clearing twice in a row, with retentions [days1] then [days2] at the same
    instant, both cutoffs being dates that can be computed and the requests
    going through, is clearing once with the smaller retention; in
    particular clearing again with the same retention removes nothing
    more. *)
Theorem clear_old_twice (now : Z) (table : list (@record F)) (days1 days2 : Z) :
  (forall cutoff, delete_failure cutoff = None) ->
  cutoff_in_range now days1 = true ->
  cutoff_in_range now days2 = true ->
  fst (clear_old_forecasts delete_failure now
         (fst (clear_old_forecasts delete_failure now table days1)) days2)
  = fst (clear_old_forecasts delete_failure now table (Z.min days1 days2)).
Proof.
  intros Hnone H1 H2.
  assert (Hmin : cutoff_in_range now (Z.min days1 days2) = true)
    by (destruct (Z.min_spec days1 days2) as [[_ ->] | [_ ->]]; assumption).
  rewrite !clear_old_in_range by assumption.
  unfold execute_delete_before. rewrite !Hnone. cbn [fst].
  rewrite filter_filter.
  apply filter_ext. intros r. unfold dated_before.
  destruct (get "forecast_date" r) as [[| | | | d] |]; try reflexivity.
  destruct (d <? date_of now - days2) eqn:E2,
           (d <? date_of now - days1) eqn:E1,
           (d <? date_of now - Z.min days1 days2) eqn:E3;
    try reflexivity;
    rewrite ?Z.ltb_lt, ?Z.ltb_ge in *; lia.
Qed.

End ClearOld.

Lemma clear_old_twice_witness :
  fst (clear_old_forecasts (fun _ => None) (timedelta_days 30)
         (fst (clear_old_forecasts (fun _ => None) (timedelta_days 30)
                 (map (@StoreV2.make_record Qc _ "linear") scenario_forecast) 9))
         7)
  = map (StoreV2.make_record "linear") (skipn 3 scenario_forecast).
Proof.
  rewrite (@clear_old_twice Qc (fun _ => None)) by reflexivity.
  vm_compute. reflexivity.
Defined.

(** ** query_forecasts *)

Lemma column_is_true {F : Type} (column value : string) (r : @record F) :
  column_is column value r = true <-> get column r = Some (JString value).
Proof.
  unfold column_is. destruct (get column r) as [[| s | | |] |];
    try (split; discriminate).
  rewrite String.eqb_eq. split; [now intros -> | now intros [= ->]].
Qed.

Lemma eq_filter_matches {F : Type} (column : string) (value : option string)
  (r : @record F) :
  forallb (fun cv => column_is (fst cv) (snd cv) r) (eq_filter column value) = true
  <-> (forall s, value = Some s -> s <> "" -> get column r = Some (JString s)).
Proof.
  destruct value as [[| c s] |]; simpl.
  - split; [intros _ s' [= <-] Hs; now contradiction Hs | reflexivity].
  - rewrite andb_true_r, column_is_true. split.
    + intros H s' [= <-] _. exact H.
    + intros H. now apply H.
  - split; [intros _ s' [=] | reflexivity].
Qed.

Lemma ascending_firstn (n : nat) (l : list Z) :
  ascending l -> ascending (firstn n l).
Proof.
  revert l. induction n as [| n IH]; intros l Hl; [exact I |].
  destruct l as [| x l]; [exact I |]. simpl. destruct Hl as [Hx Hl].
  split; [| now apply IH].
  intros y Hy. apply Hx.
  rewrite <- (firstn_skipn n l). apply in_or_app. now left.
Qed.

Section QueryFacts.

Context {F : Type} {N : PyNum F}.
Variable select_failure : list (string * string) -> option string.

(** [query_forecasts] of the second script returns normally; every row it
    returns is a stored row whose symbol and method equal the filters that
    were given and are not empty; when the request goes through it returns
    all such rows, and so the whole table when both filters are absent or
    empty. *)
Theorem v2_query_selects_by_symbol_and_method (table : list (@record F))
  (symbol method : option string) :
  let holds (r : @record F) :=
    (forall s, symbol = Some s -> s <> "" -> get "symbol" r = Some (JString s))
    /\ (forall m, method = Some m -> m <> "" -> get "method" r = Some (JString m)) in
  exists rows,
    StoreV2.query_forecasts select_failure table symbol method = Ret rows
    /\ (forall r, In r rows -> In r table /\ holds r)
    /\ (select_failure (eq_filter "symbol" symbol ++ eq_filter "method" method)
        = None ->
        (forall r, In r table -> holds r -> In r rows)
        /\ ((symbol = None \/ symbol = Some "") ->
            (method = None \/ method = Some "") -> rows = table)).
Proof.
  intros holds. unfold StoreV2.query_forecasts, execute_select, try_except.
  cbv zeta.
  set (query := eq_filter "symbol" symbol ++ eq_filter "method" method).
  assert (Hq : forall r,
    forallb (fun cv => column_is (fst cv) (snd cv) r) query = true <-> holds r).
  { intros r. unfold query, holds. rewrite forallb_app, andb_true_iff.
    now rewrite !eq_filter_matches. }
  destruct (select_failure query) as [msg |].
  - exists []. split; [reflexivity |]. split; [intros r [] | discriminate].
  - eexists. split; [reflexivity |]. split.
    + intros r Hr. apply filter_In in Hr as [Hin Hm]. split; [exact Hin |].
      now apply Hq.
    + intros _. split.
      * intros r Hin Hh. apply filter_In. split; [exact Hin | now apply Hq].
      * intros Hs Hm. unfold query.
        destruct Hs as [-> | ->], Hm as [-> | ->]; simpl;
          (induction table as [| r t IH]; simpl; [reflexivity | now rewrite IH]).
Qed.

(** [query_forecasts] of the first script, for a limit of zero or more:
    at most [limit] rows, all of them stored rows that match the filters
    given, latest forecast dates first. *)
Theorem v1_query_latest_matching_rows (table : list (@record F))
  (symbol method : option string) (limit : Z) :
  0 <= limit ->
  exists rows,
    StoreV1.query_forecasts select_failure table symbol method limit = Ret rows
    /\ len rows <= limit
    /\ (forall r, In r rows ->
          In r table
          /\ (forall s, symbol = Some s -> s <> "" ->
                get "symbol" r = Some (JString s))
          /\ (forall m, method = Some m -> m <> "" ->
                get "method" r = Some (JString m)))
    /\ ascending (map (fun r => - row_date r) rows).
Proof.
  intros Hlimit.
  unfold StoreV1.query_forecasts, execute_select_latest, execute_select,
    try_except. cbv zeta.
  set (query := eq_filter "symbol" symbol ++ eq_filter "method" method).
  destruct (select_failure query) as [msg |]; cbn [bind].
  - exists []. split; [reflexivity |].
    split; [unfold len; simpl; lia |]. split; [intros r [] | exact I].
  - eexists. split; [reflexivity |]. split; [| split].
    + unfold len. rewrite length_firstn. lia.
    + intros r Hr.
      assert (Hin : In r (filter (fun r0 =>
                forallb (fun cv => column_is (fst cv) (snd cv) r0) query) table)).
      { apply (sort_values_In (fun r0 : @record F => - row_date r0)).
        rewrite <- (firstn_skipn (Z.to_nat limit)). apply in_or_app. now left. }
      apply filter_In in Hin as [Hin Hm]. split; [exact Hin |].
      unfold query in Hm. rewrite forallb_app, andb_true_iff in Hm.
      now rewrite !eq_filter_matches in Hm.
    + rewrite <- firstn_map. apply ascending_firstn, sort_values_ascending.
Qed.

End QueryFacts.

Lemma v1_query_latest_matching_rows_witness :
  exists rows,
    StoreV1.query_forecasts (fun _ => None)
      (map (@StoreV2.make_record Qc _ "linear") scenario_forecast)
      (Some "AAPL") None 2
    = Ret rows
    /\ map row_date rows = [24; 23].
Proof.
  destruct (@v1_query_latest_matching_rows Qc (fun _ => None)
              (map (@StoreV2.make_record Qc _ "linear") scenario_forecast)
              (Some "AAPL") None 2) as (rows & Hrows & _); [lia |].
  exists rows. split; [exact Hrows |].
  vm_compute in Hrows. injection Hrows as <-. reflexivity.
Defined.

(** ** Storing, then reading or clearing *)

Lemma keys_In {F : Type} (rows : list (@record F)) (k : unique_key) :
  In k (keys rows) -> exists r, In r rows /\ key_of r = Some k.
Proof.
  induction rows as [| r rows IH]; simpl; [intros [] |].
  destruct (key_of r) as [k' |] eqn:Hk.
  - intros [<- | Hin]; [exists r; split; [now left | exact Hk] |].
    destruct (IH Hin) as (r' & Hr' & Hk'). exists r'. split; [now right | exact Hk'].
  - intros Hin. destruct (IH Hin) as (r' & Hr' & Hk').
    exists r'. split; [now right | exact Hk'].
Qed.

Lemma key_of_columns {F : Type} (r : @record F) (d : Z) (s m : string) :
  key_of r = Some (d, s, m) ->
  get "forecast_date" r = Some (JDate d)
  /\ get "symbol" r = Some (JString s)
  /\ get "method" r = Some (JString m).
Proof.
  unfold key_of.
  destruct (get "forecast_date" r) as [[| | | | d'] |]; try discriminate.
  destruct (get "symbol" r) as [[| s' | | |] |]; try discriminate.
  destruct (get "method" r) as [[| m' | | |] |]; try discriminate.
  now intros [= -> -> ->].
Qed.

Lemma filter_none {A : Type} (f : A -> bool) (l : list A) :
  (forall x, In x l -> f x = false) -> filter f l = [].
Proof.
  induction l as [| x l IH]; intros H; [reflexivity |].
  simpl. rewrite (H x (or_introl eq_refl)). apply IH.
  intros y Hy. apply H. now right.
Qed.

Lemma filter_all {A : Type} (f : A -> bool) (l : list A) :
  (forall x, In x l -> f x = true) -> filter f l = l.
Proof.
  induction l as [| x l IH]; intros H; [reflexivity |].
  simpl. rewrite (H x (or_introl eq_refl)). f_equal. apply IH.
  intros y Hy. apply H. now right.
Qed.

(** What the second script stores for a symbol and a method is what its
    query for them finds. When no request fails, the batch size is
    positive, the frame holds points of one symbol on pairwise distinct
    dates, and the table has no row yet for the stripped symbol and the
    method (both non-empty), then after storing the frame the query for the
    stripped symbol and the method returns one row per point of the frame,
    and the keys (forecast_date, symbol, method) of the rows returned are
    the dates of the points of the frame under that symbol and method. *)
Theorem v2_store_then_query {F : Type} {N : PyNum F}
  (other_failure : list (@record F) -> option string)
  (select_failure : list (string * string) -> option string)
  (table : list (@record F)) (forecast_df : list (@ForecastPoint F))
  (s method : string) (batch_size : Z) :
  (forall batch, other_failure batch = None) ->
  (forall query, select_failure query = None) ->
  0 < batch_size ->
  strip s <> "" -> method <> "" ->
  (forall p, In p forecast_df -> symbol p = s) ->
  NoDup (map (fun p => date_of (timestamp p)) forecast_df) ->
  (forall r, In r table ->
     ~ (get "symbol" r = Some (JString (strip s))
        /\ get "method" r = Some (JString method))) ->
  exists rows,
    StoreV2.query_forecasts select_failure
      (fst (StoreV2.insert_forecast_data other_failure table forecast_df method
              batch_size))
      (Some (strip s)) (Some method)
    = Ret rows
    /\ len rows = len forecast_df
    /\ forall d sy m,
         In (d, sy, m) (keys rows)
         <-> sy = strip s /\ m = method
             /\ exists p, In p forecast_df /\ d = date_of (timestamp p).
Proof.
  intros Hins Hsel Hpos Hs Hm Hsym Hnd Hnew.
  exists (map (StoreV2.make_record method) forecast_df).
  assert (Hk : keys (map (StoreV2.make_record method) forecast_df)
               = map (fun p => (date_of (timestamp p), strip (symbol p), method))
                   forecast_df)
    by (apply keys_map; reflexivity).
  assert (Hstored :
    fst (StoreV2.insert_forecast_data other_failure table forecast_df method
           batch_size)
    = table ++ map (StoreV2.make_record method) forecast_df).
  { unfold StoreV2.insert_forecast_data.
    destruct forecast_df as [| p0 rows] eqn:Hdf;
      [simpl; now rewrite app_nil_r |].
    cbv beta iota zeta. rewrite <- Hdf in *. clear Hdf.
    rewrite (insert_records_fresh other_failure Hins table _ batch_size
               Hpos); [reflexivity | | |].
    - intros r Hr. apply in_map_iff in Hr as (p & <- & _). reflexivity.
    - rewrite Hk.
      apply (NoDup_map_inv (fun k : unique_key => fst (fst k))).
      rewrite map_map. exact Hnd.
    - rewrite Hk. intros k Hin Hin'.
      apply in_map_iff in Hin as (p & <- & Hp).
      apply keys_In in Hin' as (r & Hr & Hkey).
      apply key_of_columns in Hkey as (_ & Hrs & Hrm).
      apply (Hnew r Hr). rewrite (Hsym p Hp) in Hrs. now split. }
  split; [| split].
  2: { unfold len. now rewrite length_map. }
  2: { intros d sy m. rewrite Hk, in_map_iff. split.
       - intros (p & [= <- <- <-] & Hp). rewrite (Hsym p Hp).
         split; [reflexivity |]. split; [reflexivity |]. now exists p.
       - intros (-> & -> & p & Hp & ->). exists p.
         split; [now rewrite (Hsym p Hp) | exact Hp]. }
  rewrite Hstored.
  unfold StoreV2.query_forecasts, execute_select, try_except. cbv zeta.
  rewrite Hsel. f_equal.
  set (query := eq_filter "symbol" (Some (strip s))
                ++ eq_filter "method" (Some method)).
  assert (Hq : forall r : @record F,
    forallb (fun cv => column_is (fst cv) (snd cv) r) query = true
    <-> get "symbol" r = Some (JString (strip s))
        /\ get "method" r = Some (JString method)).
  { intros r. unfold query. rewrite forallb_app, andb_true_iff.
    rewrite !eq_filter_matches. split.
    - intros [H1 H2]. split; [now apply H1 | now apply H2].
    - intros [H1 H2]. split; intros x [= <-] _; assumption. }
  rewrite filter_app, filter_none, filter_all; [reflexivity | |].
  - intros r Hr. apply Hq.
    apply in_map_iff in Hr as (p & <- & Hp). simpl.
    now rewrite (Hsym p Hp).
  - intros r Hr. apply not_true_is_false. intros H. apply Hq in H.
    exact (Hnew r Hr H).
Qed.

Lemma v2_store_then_query_witness :
  exists rows,
    StoreV2.query_forecasts (fun _ => None)
      (fst (StoreV2.insert_forecast_data (fun _ => None) [] scenario_forecast
              "linear" 2))
      (Some (strip "AAPL")) (Some "linear")
    = Ret rows
    /\ len rows = len scenario_forecast
    /\ forall d sy m,
         In (d, sy, m) (keys rows)
         <-> sy = strip "AAPL" /\ m = "linear"
             /\ exists p, In p scenario_forecast /\ d = date_of (timestamp p).
Proof.
  apply (@v2_store_then_query Qc _ (fun _ => None) (fun _ => None) []
           scenario_forecast "AAPL" "linear" 2);
    try reflexivity; try discriminate; try lia.
  - intros p Hp. simpl in Hp.
    repeat (destruct Hp as [<- | Hp]; [reflexivity |]). destruct Hp.
  - apply NoDup_by_nodup. vm_compute. reflexivity.
  - intros r [].
Defined.

(** A row the first script has just stored is dated today, so a clean-up run
    at the same instant with a retention of zero days or more leaves it in
    the table. *)
Theorem v1_stored_rows_survive_clean_up {F : Type} {N : PyNum F}
  (other_failure : list (@record F) -> option string)
  (delete_failure : Z -> option string) (now : Z) (table : list (@record F))
  (forecast_df : list (@ForecastPoint F)) (method : string)
  (batch_size days : Z) :
  0 <= days ->
  let stored :=
    fst (StoreV1.insert_forecast_data other_failure (date_of now) table
           forecast_df method batch_size) in
  forall r, In r stored -> ~ In r table ->
    In r (fst (clear_old_forecasts delete_failure now stored days)).
Proof.
  intros Hdays stored r Hr Hnew.
  assert (Hdate : get "forecast_date" r = Some (JDate (date_of now))).
  { unfold stored, StoreV1.insert_forecast_data in Hr.
    destruct forecast_df as [| p0 rows]; [contradiction |].
    destruct (insert_records_appends other_failure table
                (map (StoreV1.make_record (date_of now) method) (p0 :: rows))
                batch_size) as (more & n & Hins & Hincl & _).
    rewrite Hins in Hr. cbn [fst] in Hr.
    apply in_app_or in Hr as [Hr | Hr]; [contradiction |].
    apply Hincl, in_map_iff in Hr as (p & <- & _). reflexivity. }
  unfold clear_old_forecasts.
  destruct (datetime_minus_days now days) as [cutoff | e] eqn:Hcut;
    [| exact Hr].
  apply datetime_minus_days_Ret in Hcut. subst cutoff.
  unfold execute_delete_before. cbv zeta.
  destruct (delete_failure _); [exact Hr |]. cbn [fst].
  apply filter_In. split; [exact Hr |].
  unfold dated_before. rewrite Hdate, date_of_days_before.
  apply negb_true_iff, Z.ltb_ge. lia.
Qed.

Lemma v1_stored_rows_survive_clean_up_witness :
  Forall (fun r =>
            In r (fst (clear_old_forecasts (fun _ => None) (timedelta_days 19)
                         (fst (StoreV1.insert_forecast_data (fun _ => None)
                                 (date_of (timedelta_days 19)) []
                                 (firstn 1 scenario_forecast) "linear" 100))
                         30)))
    (fst (StoreV1.insert_forecast_data (fun _ => None)
            (date_of (timedelta_days 19)) [] (firstn 1 scenario_forecast)
            "linear" 100)).
Proof.
  apply Forall_forall. intros r Hr.
  apply (@v1_stored_rows_survive_clean_up Qc _ (fun _ => None) (fun _ => None)
           (timedelta_days 19) [] (firstn 1 scenario_forecast) "linear" 100 30);
    [lia | exact Hr | intros []].
Defined.

(** ** store_all_forecasts *)

Section StoreAll.

Context {F : Type} {N : PyNum F}.
Variable other_failure : list (@record F) -> option string.

Lemma insert_records_settles (table records : list (@record F)) (batch_size : Z) :
  settled other_failure
    (fst (insert_records other_failure table records batch_size))
    records batch_size.
Proof.
  unfold settled, insert_records.
  destruct (batches batch_size records) as [bs | e]; [| exact I].
  pose proof (insert_batches_settles other_failure bs table 0) as [_ H].
  now destruct (insert_batches other_failure table bs 0).
Qed.

Lemma settled_mono (table more records : list (@record F)) (batch_size : Z) :
  settled other_failure table records batch_size ->
  settled other_failure (table ++ more) records batch_size.
Proof.
  unfold settled. destruct (batches batch_size records) as [bs | e]; [| easy].
  apply Forall_impl. intros b [-> | Hb]; [now left | right].
  now apply refused_mono.
Qed.

Lemma insert_records_settled (table records : list (@record F))
  (batch_size : Z) :
  settled other_failure table records batch_size ->
  fst (insert_records other_failure table records batch_size) = table.
Proof.
  unfold settled, insert_records.
  destruct (batches batch_size records) as [bs | e]; [| reflexivity].
  intros H. pose proof (insert_batches_settled other_failure bs table 0 H) as Ht.
  now destruct (insert_batches other_failure table bs 0).
Qed.

Lemma insert_records_count_independent (table table' records : list (@record F))
  (batch_size : Z) :
  snd (insert_records other_failure table records batch_size)
  = snd (insert_records other_failure table' records batch_size).
Proof.
  unfold insert_records.
  destruct (batches batch_size records) as [bs | e]; [| reflexivity].
  pose proof (insert_batches_count other_failure bs table 0) as H1.
  pose proof (insert_batches_count other_failure bs table' 0) as H2.
  destruct (insert_batches other_failure table bs 0),
           (insert_batches other_failure table' bs 0).
  cbn [snd] in *. congruence.
Qed.

(** One call of the second script's [insert_forecast_data] on a file's
    frame. *)
Lemma v2_insert_outcome (table : list (@record F))
  (df : list (@ForecastPoint F)) (method : string) (batch_size : Z) :
  exists more n,
    StoreV2.insert_forecast_data other_failure table df method batch_size
    = (table ++ more, Ret n)
    /\ incl more (map (StoreV2.make_record method) df)
    /\ 0 <= n <= len df
    /\ (df <> [] ->
        settled other_failure (table ++ more)
          (map (StoreV2.make_record method) df) batch_size)
    /\ forall table',
         snd (StoreV2.insert_forecast_data other_failure table' df method
                batch_size) = Ret n.
Proof.
  unfold StoreV2.insert_forecast_data. destruct df as [| p rows].
  - exists [], 0. rewrite app_nil_r.
    repeat split; try easy; unfold len; simpl; lia.
  - set (records := map (StoreV2.make_record method) (p :: rows)).
    destruct (insert_records_appends other_failure table records batch_size)
      as (more & n & Hins & Hincl & Hn).
    exists more, n. rewrite Hins. unfold records in Hn. rewrite len_map in Hn.
    repeat split; try assumption; try lia.
    + intros _. pose proof (insert_records_settles table records batch_size) as H.
      now rewrite Hins in H.
    + intros table'.
      rewrite (insert_records_count_independent table' table records batch_size).
      now rewrite Hins.
Qed.

Lemma v2_insert_settled (table : list (@record F))
  (df : list (@ForecastPoint F)) (method : string) (batch_size : Z) :
  (df <> [] ->
   settled other_failure table (map (StoreV2.make_record method) df) batch_size) ->
  fst (StoreV2.insert_forecast_data other_failure table df method batch_size)
  = table.
Proof.
  unfold StoreV2.insert_forecast_data. destruct df as [| p rows]; [reflexivity |].
  intros H. apply insert_records_settled, H. discriminate.
Qed.

Variable files : Files F.

Lemma v2_store_methods_appends (methods : list string)
  (table : list (@record F)) (total : Z) :
  exists more n,
    StoreV2.store_methods other_failure files table methods total
    = (table ++ more, total + n)
    /\ 0 <= n
    /\ (forall r, In r more ->
          exists method df p,
            In method methods
            /\ files (all_stocks_path method) = Some (Ret df)
            /\ In p df /\ r = StoreV2.make_record method p)
    /\ (forall method df,
          In method methods ->
          files (all_stocks_path method) = Some (Ret df) -> df <> [] ->
          settled other_failure (table ++ more)
            (map (StoreV2.make_record method) df) 50)
    /\ forall table' total',
         snd (StoreV2.store_methods other_failure files table' methods total')
         = total' + n.
Proof.
  revert table total. induction methods as [| m methods IH]; intros table total.
  - exists [], 0. rewrite app_nil_r, Z.add_0_r. simpl.
    repeat split; try easy. intros. lia.
  - cbn [StoreV2.store_methods].
    destruct (files (all_stocks_path m)) as [[df | e] |] eqn:Hfile.
    + destruct (v2_insert_outcome table df m 50)
        as (more1 & n1 & Hins & Hincl & Hn1 & Hset & Hcount).
      rewrite Hins.
      destruct (IH (table ++ more1) (total + n1))
        as (more2 & n2 & Hrest & Hn2 & Hrows & Hsettled & Hcount2).
      exists (more1 ++ more2), (n1 + n2). rewrite Hrest, app_assoc, Z.add_assoc.
      split; [reflexivity |]. split; [lia |]. split; [| split].
      * intros r Hr. apply in_app_or in Hr as [Hr | Hr].
        -- apply Hincl, in_map_iff in Hr as (p & <- & Hp).
           exists m, df, p. repeat split; try assumption. now left.
        -- destruct (Hrows r Hr) as (m' & df' & p & Hm' & Hf & Hp & Hr').
           exists m', df', p. repeat split; try assumption. now right.
      * intros m' df' [<- | Hm'] Hf Hne.
        -- rewrite Hfile in Hf. injection Hf as <-.
           apply settled_mono, Hset, Hne.
        -- now apply Hsettled.
      * intros table' total'. cbn [StoreV2.store_methods]. rewrite ?Hfile.
        pose proof (Hcount table') as Hc.
        destruct (StoreV2.insert_forecast_data other_failure table' df m 50)
          as [t'' res]. cbn [snd] in Hc. subst res.
        rewrite Hcount2. lia.
    + destruct (IH table total)
        as (more & n & Hrest & Hn & Hrows & Hsettled & Hcount).
      exists more, n. rewrite Hrest. repeat split; try assumption.
      * intros r Hr. destruct (Hrows r Hr) as (m' & df' & p & Hm' & Hf & Hp & Hr').
        exists m', df', p. repeat split; try assumption. now right.
      * intros m' df' [<- | Hm'] Hf Hne; [congruence | now apply Hsettled].
    + destruct (IH table total)
        as (more & n & Hrest & Hn & Hrows & Hsettled & Hcount).
      exists more, n. rewrite Hrest. repeat split; try assumption.
      * intros r Hr. destruct (Hrows r Hr) as (m' & df' & p & Hm' & Hf & Hp & Hr').
        exists m', df', p. repeat split; try assumption. now right.
      * intros m' df' [<- | Hm'] Hf Hne; [congruence | now apply Hsettled].
Qed.

Lemma v2_store_methods_settled (methods : list string)
  (table : list (@record F)) (total : Z) :
  (forall method df,
     In method methods ->
     files (all_stocks_path method) = Some (Ret df) -> df <> [] ->
     settled other_failure table (map (StoreV2.make_record method) df) 50) ->
  fst (StoreV2.store_methods other_failure files table methods total) = table.
Proof.
  revert total. induction methods as [| m methods IH]; intros total H;
    [reflexivity |].
  cbn [StoreV2.store_methods].
  destruct (files (all_stocks_path m)) as [[df | e] |] eqn:Hfile.
  - pose proof (v2_insert_settled table df m 50
                  (H m df (or_introl eq_refl) Hfile)) as Ht.
    destruct (StoreV2.insert_forecast_data other_failure table df m 50)
      as [t' [n | e]]; cbn [fst] in Ht; subst t';
      apply IH; intros m' df' Hm'; apply H; now right.
  - apply IH. intros m' df' Hm'. apply H. now right.
  - apply IH. intros m' df' Hm'. apply H. now right.
Qed.

(** [store_all_forecasts] of the second script only appends: afterwards the
    table is the table before followed by records built, under the method of
    the file, from points of the combined files that exist and can be read;
    the total is not negative; when none of the four files is there, nothing
    is stored and the total is 0. *)
Theorem v2_store_all_appends_rows_of_files (table : list (@record F)) :
  exists more total,
    StoreV2.store_all_forecasts other_failure files table
    = (table ++ more, total)
    /\ 0 <= total
    /\ (forall r, In r more ->
          exists method df p,
            In method ["linear"; "moving_average"; "arima"; "prophet"]
            /\ files (all_stocks_path method) = Some (Ret df)
            /\ In p df /\ r = StoreV2.make_record method p)
    /\ ((forall method,
           In method ["linear"; "moving_average"; "arima"; "prophet"] ->
           files (all_stocks_path method) = None) ->
        more = [] /\ total = 0).
Proof.
  unfold StoreV2.store_all_forecasts.
  destruct (v2_store_methods_appends
              ["linear"; "moving_average"; "arima"; "prophet"] table 0)
    as (more & n & Hrun & Hn & Hrows & _ & _).
  exists more, n. split; [exact Hrun |]. split; [exact Hn |].
  split; [exact Hrows |]. intros Hnone. split.
  - destruct more as [| r more]; [reflexivity |].
    destruct (Hrows r (or_introl eq_refl)) as (m & df & p & Hm & Hf & _).
    rewrite (Hnone m Hm) in Hf. discriminate.
  - cbn [StoreV2.store_methods] in Hrun.
    rewrite !Hnone in Hrun by (simpl; tauto).
    injection Hrun as _ Hn0. lia.
Qed.

(** Running [store_all_forecasts] of the second script a second time over
    the same files leaves the table as the first run left it and prints the
    same total. *)
Theorem v2_store_all_twice (table : list (@record F)) :
  let first := StoreV2.store_all_forecasts other_failure files table in
  StoreV2.store_all_forecasts other_failure files (fst first) = first.
Proof.
  unfold StoreV2.store_all_forecasts.
  set (methods := ["linear"; "moving_average"; "arima"; "prophet"]).
  destruct (v2_store_methods_appends methods table 0)
    as (more & n & Hrun & _ & _ & Hsettled & Hcount).
  cbv zeta. rewrite Hrun. cbn [fst].
  pose proof (v2_store_methods_settled methods (table ++ more) 0 Hsettled) as Ht.
  pose proof (Hcount (table ++ more) 0) as Hn.
  destruct (StoreV2.store_methods other_failure files (table ++ more) methods 0)
    as [t' n']. cbn [fst snd] in *. now subst.
Qed.

End StoreAll.

(** * The run over methods and tickers *)

Lemma to_csv_same {F : Type} (files : Files F) (path : string)
  (df : list (@ForecastPoint F)) :
  to_csv files path df path = Some (Ret df).
Proof. unfold to_csv. now rewrite String.eqb_refl. Qed.

Lemma to_csv_other {F : Type} (files : Files F) (path other : string)
  (df : list (@ForecastPoint F)) :
  other <> path -> to_csv files path df other = files other.
Proof. intros H. unfold to_csv. apply String.eqb_neq in H. now rewrite H. Qed.

Section RunFacts.

Context {F : Type} {N : PyNum F} {E : @Externals F}.

Lemma generate_forecast_length (symbol : string) (days : Z) (method : string) :
  exists r, generate_forecast symbol days method = Ret r
            /\ (r = [] \/ len r = days).
Proof.
  unfold generate_forecast.
  destruct (fetch_historical_data_returns symbol 90) as (df & ->). cbn [bind].
  assert (Hm : forall m, exists r,
             forecast m df symbol days = Ret r /\ (r = [] \/ len r = days)).
  { intros m. destruct (forecast_contract m df symbol days)
      as (r & Hr & [Hnil | (b & _ & Hs & _)]);
      exists r; (split; [exact Hr |]); [now left | right; apply Hs]. }
  destruct df as [| b0 df0]; [exists []; split; [reflexivity | now left] |].
  destruct (String.eqb method "linear"); [exact (Hm linear) |].
  destruct (String.eqb method "moving_average"); [exact (Hm moving_average) |].
  destruct (String.eqb method "arima"); [exact (Hm arima) |].
  destruct (String.eqb method "prophet"); [exact (Hm prophet) |].
  exists []. split; [reflexivity | now left].
Qed.

Lemma save_forecast_path (files : Files F) (p : @ForecastPoint F)
  (r : list (@ForecastPoint F)) (ticker method : string) :
  save_forecast files (p :: r) (replace_char "." "_" ticker ++ "_" ++ method)
  = to_csv files (ticker_path ticker method) (p :: r).
Proof. reflexivity. Qed.

Lemma forecast_tickers_spec (method : string) (tickers : list string)
  (files : Files F) (forecasts : list (list (@ForecastPoint F))) :
  exists files',
    forecast_tickers method tickers files forecasts
    = Ret (files', forecasts ++ successful_forecasts method tickers)
    /\ forall path,
         (forall t, In t tickers -> ticker_path t method <> path) ->
         files' path = files path.
Proof.
  revert files forecasts. induction tickers as [| t tickers IH];
    intros files forecasts.
  - exists files. simpl. rewrite app_nil_r. now split.
  - cbn [forecast_tickers successful_forecasts flat_map].
    destruct (generate_forecast_length t 7 method) as (r & Hr & _).
    rewrite Hr. cbn [bind]. destruct r as [| p r].
    + destruct (IH files forecasts) as (files' & Hrun & Hfiles).
      exists files'. split; [exact Hrun |].
      intros path Hpath. apply Hfiles. intros t' Ht'. apply Hpath. now right.
    + rewrite save_forecast_path.
      destruct (IH (to_csv files (ticker_path t method) (p :: r))
                  (forecasts ++ [p :: r])) as (files' & Hrun & Hfiles).
      exists files'. split.
      * rewrite Hrun. unfold successful_forecasts. now rewrite <- app_assoc.
      * intros path Hpath. rewrite Hfiles.
        -- apply to_csv_other. intros ->. now apply (Hpath t (or_introl eq_refl)).
        -- intros t' Ht'. apply Hpath. now right.
Qed.

Lemma forecast_methods_spec (methods tickers : list string) (files : Files F)
  (all_forecasts : list (string * list (list (@ForecastPoint F)))) :
  exists files',
    forecast_methods methods tickers files all_forecasts
    = Ret (files',
           all_forecasts
           ++ map (fun m => (m, successful_forecasts m tickers)) methods)
    /\ (forall path,
          (forall t m, In t tickers -> In m methods -> ticker_path t m <> path) ->
          ~ In path (map all_stocks_path methods) ->
          files' path = files path)
    /\ (NoDup (map all_stocks_path methods) ->
        forall m,
          In m methods ->
          (forall t m', In t tickers -> In m' methods ->
             ticker_path t m' <> all_stocks_path m) ->
          files' (all_stocks_path m)
          = match successful_forecasts m tickers with
            | [] => files (all_stocks_path m)
            | fs => Some (Ret (List.concat fs))
            end).
Proof.
  revert files all_forecasts. induction methods as [| m0 methods IH];
    intros files all_forecasts.
  - exists files. simpl. rewrite app_nil_r. repeat split; try easy.
  - cbn [forecast_methods map].
    destruct (forecast_tickers_spec m0 tickers files []) as (files1 & Hrun1 & Hf1).
    rewrite Hrun1. cbn [bind fst snd app].
    set (files2 := match successful_forecasts m0 tickers with
                   | [] => files1
                   | _ :: _ =>
                       to_csv files1 (all_stocks_path m0)
                         (List.concat (successful_forecasts m0 tickers))
                   end).
    destruct (IH files2 (all_forecasts ++ [(m0, successful_forecasts m0 tickers)]))
      as (files' & Hrun & Hother & Hcombined).
    exists files'. split; [| split].
    + rewrite Hrun. now rewrite <- app_assoc.
    + intros path Hticker Hpath. rewrite Hother.
      * assert (H1 : files1 path = files path).
        { apply Hf1. intros t Ht. apply Hticker; [exact Ht | now left]. }
        unfold files2. destruct (successful_forecasts m0 tickers); [exact H1 |].
        rewrite to_csv_other; [exact H1 |].
        intros ->. apply Hpath. now left.
      * intros t m Ht Hm. apply Hticker; [exact Ht | now right].
      * intros Hin. apply Hpath. now right.
    + intros Hnd m Hm Hticker. cbn [map] in Hnd.
      inversion Hnd as [| ? ? Hnot Hnd']; subst.
      destruct Hm as [<- | Hm].
      * rewrite Hother.
        -- unfold files2.
           destruct (successful_forecasts m0 tickers) eqn:Hs.
           ++ apply Hf1. intros t Ht. apply Hticker; [exact Ht | now left].
           ++ apply to_csv_same.
        -- intros t m Ht Hm. apply Hticker; [exact Ht | now right].
        -- exact Hnot.
      * rewrite Hcombined; [| exact Hnd' | exact Hm |].
        -- destruct (successful_forecasts m tickers); [| reflexivity].
           assert (H1 : files1 (all_stocks_path m) = files (all_stocks_path m)).
           { apply Hf1. intros t Ht. apply Hticker; [exact Ht | now left]. }
           unfold files2.
           destruct (successful_forecasts m0 tickers); [exact H1 |].
           rewrite to_csv_other; [exact H1 |].
           intros Heq. apply Hnot. rewrite <- Heq. now apply in_map.
        -- intros t m' Ht Hm'. apply Hticker; [exact Ht | now right].
Qed.

(** The run never raises. For each method, in order, [all_forecasts] holds
    the forecasts of the tickers that got one, in the order of the tickers,
    each of exactly 7 points; a ticker whose forecast is empty is left
    out. *)
Theorem run_collects_successful_forecasts (methods tickers : list string)
  (files : Files F) :
  exists files',
    forecast_methods methods tickers files []
    = Ret (files', map (fun m => (m, successful_forecasts m tickers)) methods)
    /\ forall m frame,
         In frame (successful_forecasts m tickers) ->
         len frame = 7
         /\ exists ticker,
              In ticker tickers /\ generate_forecast ticker 7 m = Ret frame.
Proof.
  destruct (forecast_methods_spec methods tickers files []) as (files' & Hrun & _).
  exists files'. split; [exact Hrun |].
  intros m frame Hin. unfold successful_forecasts in Hin.
  apply in_flat_map in Hin as (t & Ht & Hin).
  destruct (generate_forecast_length t 7 m) as (r & Hr & Hlen).
  rewrite Hr in Hin. destruct r as [| p r]; [destruct Hin |].
  destruct Hin as [<- | []]. split.
  - destruct Hlen as [Hnil | Hlen]; [discriminate | exact Hlen].
  - exists t. now split.
Qed.

(** After the run, the combined file of a method holds the concatenation of
    the forecasts the run got for that method; when it got none the file is
    not written, so a file of an earlier run stays as it was. This holds
    when the combined files of the methods have distinct names and no
    per-ticker file has the name of a combined file. *)
Theorem run_writes_combined_files (methods tickers : list string)
  (files files' : Files F)
  (all_forecasts : list (string * list (list (@ForecastPoint F)))) :
  forecast_methods methods tickers files [] = Ret (files', all_forecasts) ->
  NoDup (map all_stocks_path methods) ->
  (forall t m m', In t tickers -> In m methods -> In m' methods ->
     ticker_path t m <> all_stocks_path m') ->
  forall m, In m methods ->
    files' (all_stocks_path m)
    = match successful_forecasts m tickers with
      | [] => files (all_stocks_path m)
      | fs => Some (Ret (List.concat fs))
      end.
Proof.
  intros Hrun Hnd Hticker m Hm.
  destruct (forecast_methods_spec methods tickers files [])
    as (files'' & Hrun' & _ & Hcombined).
  rewrite Hrun in Hrun'. injection Hrun' as <- _.
  apply Hcombined; [exact Hnd | exact Hm |].
  intros t m' Ht Hm'. now apply Hticker.
Qed.

End RunFacts.

Lemma run_writes_combined_files_witness :
  exists files' all_forecasts,
    @forecast_methods Qc _ (all_libraries scenario_series)
      (@METHODS Qc (all_libraries scenario_series)) TICKERS (fun _ => None) []
    = Ret (files', all_forecasts)
    /\ files' (all_stocks_path "arima")
       = match @successful_forecasts Qc _ (all_libraries scenario_series)
                 "arima" TICKERS with
         | [] => None
         | fs => Some (Ret (List.concat fs))
         end.
Proof.
  destruct (@forecast_methods_spec Qc _ (all_libraries scenario_series)
              (@METHODS Qc (all_libraries scenario_series)) TICKERS
              (fun _ => None) []) as (files' & Hrun & _).
  eexists files', _. split; [exact Hrun |].
  apply (@run_writes_combined_files Qc _ (all_libraries scenario_series)
           (@METHODS Qc (all_libraries scenario_series)) TICKERS (fun _ => None)
           files' _ Hrun).
  - vm_compute. repeat (constructor; [simpl; intuition discriminate |]).
    constructor.
  - intros t m m' Ht Hm Hm'. vm_compute in Ht, Hm, Hm'.
    intuition (subst; vm_compute; discriminate).
  - vm_compute. tauto.
Defined.

(** * Least squares on a line, in exact arithmetic *)

Section ExactLine.

Local Open Scope Qc_scope.

Lemma Qc_square_nonneg (x : Qc) : 0 <= x * x.
Proof.
  unfold Qcle, Qcmult, Q2Qc. cbn [this]. rewrite !Qred_correct. nra.
Qed.

Lemma Qc_square_pos (x : Qc) : x <> 0 -> 0 < x * x.
Proof.
  intros H. unfold Qclt, Qcmult, Q2Qc. cbn [this]. rewrite !Qred_correct.
  assert (~ (this x == 0)%Q) by (intros E; apply H; apply Qc_is_canon; exact E).
  nra.
Qed.

Lemma Qc_add_nonneg (x y : Qc) : 0 <= x -> 0 <= y -> 0 <= x + y.
Proof.
  unfold Qcle, Qcplus, Q2Qc. cbn [this]. rewrite !Qred_correct. intros. lra.
Qed.

Lemma Qc_add_pos_l (x y : Qc) : 0 < x -> 0 <= y -> 0 < x + y.
Proof.
  unfold Qcle, Qclt, Qcplus, Q2Qc. cbn [this]. rewrite !Qred_correct.
  intros. lra.
Qed.

Lemma Qc_add_pos_r (x y : Qc) : 0 <= x -> 0 < y -> 0 < x + y.
Proof.
  unfold Qcle, Qclt, Qcplus, Q2Qc. cbn [this]. rewrite !Qred_correct.
  intros. lra.
Qed.

Lemma Qc_pos_nonzero (x : Qc) : 0 < x -> x <> 0.
Proof. intros H ->. revert H. unfold Qclt. cbn. lra. Qed.

Lemma of_int_Qc_succ (z : Z) : of_int (z + 1)%Z = of_int z + 1.
Proof.
  cbn [of_int Qc_PyNum]. apply Qc_is_canon.
  unfold Qcplus, Q2Qc. cbn [this]. rewrite !Qred_correct.
  rewrite inject_Z_plus. reflexivity.
Qed.

Lemma of_int_Qc_inj (x y : Z) : @of_int Qc _ x = of_int y -> x = y.
Proof.
  cbn [of_int Qc_PyNum]. intros H. apply Q2Qc_eq_iff in H.
  unfold Qeq in H. simpl in H. lia.
Qed.

Lemma fold_left_Qcplus (l : list Qc) (acc : Qc) :
  fold_left Qcplus l acc = acc + fold_left Qcplus l 0.
Proof.
  revert acc. induction l as [| x l IH]; intros acc; simpl; [ring |].
  rewrite (IH (acc + x)), (IH (0 + x)). ring.
Qed.

Lemma fsum_Qc_cons (x : Qc) (l : list Qc) : fsum (x :: l) = x + fsum l.
Proof.
  unfold fsum. cbn [fold_left fadd of_int Qc_PyNum].
  rewrite fold_left_Qcplus.
  change (Q2Qc (inject_Z 0)) with 0. ring.
Qed.

Lemma fsum_Qc_nil : @fsum Qc _ [] = 0.
Proof. reflexivity. Qed.

Lemma fsum_line (a b : Qc) (l : list Qc) :
  fsum (map (fun x => a * x + b) l) = a * fsum l + of_int (len l) * b.
Proof.
  induction l as [| x l IH].
  - rewrite fsum_Qc_nil. change (of_int (len (@nil Qc))) with 0. cbn [map].
    rewrite fsum_Qc_nil. ring.
  - cbn [map]. rewrite !fsum_Qc_cons, IH.
    replace (len (x :: l)) with (len l + 1)%Z by (unfold len; simpl; lia).
    rewrite of_int_Qc_succ. ring.
Qed.

Lemma fsum_scaled (a : Qc) (g : Qc -> Qc) (l : list Qc) :
  fsum (map (fun x => a * g x) l) = a * fsum (map g l).
Proof.
  induction l as [| x l IH]; cbn [map].
  - rewrite !fsum_Qc_nil. ring.
  - rewrite !fsum_Qc_cons, IH. ring.
Qed.

Lemma fsum_squares_nonneg (c : Qc) (l : list Qc) :
  0 <= fsum (map (fun x => (x - c) * (x - c)) l).
Proof.
  induction l as [| x l IH]; cbn [map].
  - rewrite fsum_Qc_nil. apply Qcle_refl.
  - rewrite fsum_Qc_cons. apply Qc_add_nonneg; [apply Qc_square_nonneg | exact IH].
Qed.

Lemma fsum_squares_pos (c : Qc) (l : list Qc) (x : Qc) :
  In x l -> x <> c -> 0 < fsum (map (fun x => (x - c) * (x - c)) l).
Proof.
  induction l as [| y l IH]; intros Hin Hx; [destruct Hin |].
  cbn [map]. rewrite fsum_Qc_cons. destruct Hin as [-> | Hin].
  - apply Qc_add_pos_l; [| apply fsum_squares_nonneg].
    apply Qc_square_pos. intros H. apply Hx.
    replace x with (x - c + c) by ring. rewrite H. ring.
  - apply Qc_add_pos_r; [apply Qc_square_nonneg | now apply IH].
Qed.

Lemma combine_with_map {A B : Type} (f : A -> B) (l : list A) :
  combine l (map f l) = map (fun x => (x, f x)) l.
Proof. induction l as [| x l IH]; simpl; [reflexivity | now rewrite IH]. Qed.

(** Least squares on points of a line with at least two distinct abscissas
    gives the line back. *)
Lemma ols_fit_on_line (a b : Qc) (X : list Z) (x x' : Z) :
  In x X -> In x' X -> x <> x' ->
  ols_fit X (map (fun z => fadd (fmul a (of_int z)) b) X) = Ret (a, b).
Proof.
  intros Hx Hx' Hne. unfold ols_fit. cbv zeta.
  set (xs := map of_int X).
  assert (Hy : map (fun z => fadd (fmul a (of_int z)) b) X
               = map (fun q => a * q + b) xs)
    by (unfold xs; now rewrite map_map).
  rewrite Hy. clear Hy.
  assert (Hlen : len (map (fun q : Qc => a * q + b) xs) = len xs)
    by apply len_map.
  assert (Hn : of_int (len xs) <> (0 : Qc)).
  { intros H. change (0 : Qc) with (@of_int Qc _ 0%Z) in H.
    apply of_int_Qc_inj in H. unfold len, xs in H. rewrite length_map in H.
    destruct X; [destruct Hx | simpl in H; lia]. }
  unfold mean. rewrite Hlen, fsum_line, combine_with_map, map_map.
  cbn [fst snd fsub fmul fdiv fadd Qc_PyNum].
  set (S := fsum xs) in *. set (n := of_int (len xs)) in *.
  set (mx := S / n).
  assert (Hmy : (a * S + n * b) / n = a * mx + b) by (unfold mx; now field).
  rewrite Hmy.
  rewrite (map_ext (fun q => (q - mx) * (a * q + b - (a * mx + b)))
             (fun q => a * ((q - mx) * (q - mx)))) by (intros q; ring).
  rewrite (fsum_scaled a (fun q => (q - mx) * (q - mx))).
  set (sxx := fsum (map (fun q => (q - mx) * (q - mx)) xs)).
  assert (Hsxx : sxx <> 0).
  { apply Qc_pos_nonzero. unfold sxx.
    assert (Hd : of_int x <> mx \/ of_int x' <> mx).
    { destruct (Qc_eq_dec (of_int x) mx) as [E | E]; [right | now left].
      intros E'. apply Hne, of_int_Qc_inj. congruence. }
    destruct Hd as [Hd | Hd];
      [apply (fsum_squares_pos mx xs (of_int x))
      | apply (fsum_squares_pos mx xs (of_int x'))];
      try exact Hd; unfold xs; now apply in_map. }
  f_equal. f_equal; field; exact Hsxx.
Qed.

Lemma closes_on_line (a b : Qc) (l : list (@PriceBar Qc)) (k : nat) :
  (forall i bar, nth_error l i = Some bar ->
     close bar = fadd (fmul a (of_int (Z.of_nat (k + i)))) b) ->
  map close l
  = map (fun z => fadd (fmul a (of_int z)) b)
      (map Z.of_nat (seq k (List.length l))).
Proof.
  revert k. induction l as [| bar l IH]; intros k H; [reflexivity |].
  cbn [map List.length seq]. f_equal.
  - rewrite (H 0%nat bar eq_refl). now rewrite Nat.add_0_r.
  - apply IH. intros i bar' Hi. rewrite (H (Datatypes.S i) bar' Hi).
    now rewrite Nat.add_succ_r.
Qed.

(** With least squares as the fit, a series of at least five bars with
    pairwise distinct timestamps whose closes lie on a line [a * t + b] over
    the zero-based index [t] of the bars in time order is continued on that
    line: for a horizon of one day or more whose dates can be computed the
    point at position [i] predicts [a * (n + i) + b], where [n] is the
    length of the series. *)
Theorem linear_reproduces_a_line (rows df : list (@PriceBar Qc))
  (symbol : string) (days : Z) (a b : Qc) :
  (5 <= len df)%Z -> (1 <= days)%Z ->
  NoDup (map bar_timestamp df) ->
  horizon_in_range df days = true ->
  (forall i bar,
     nth_error (sort_values bar_timestamp df) i = Some bar ->
     close bar = fadd (fmul a (of_int (Z.of_nat i))) b) ->
  exists r,
    forecast_linear_regression (E := sklearn_only rows) df symbol days = Ret r
    /\ len r = days
    /\ forall i p, nth_error r i = Some p ->
         predicted_close p
         = fadd (fmul a (of_int (len df + Z.of_nat i)%Z)) b.
Proof.
  intros Hlen Hdays _ _ Hline.
  destruct (linear_with_fit (E := sklearn_only rows) df symbol days Hlen)
    as [_ Hfit].
  apply Hfit; [| exact Hdays].
  cbn [sk_fit sklearn_only].
  rewrite (closes_on_line a b (sort_values bar_timestamp df) 0 Hline).
  assert (Hx : arange 0 (len df)
               = map Z.of_nat (seq 0 (List.length (sort_values bar_timestamp df)))).
  { unfold arange, range. rewrite map_map, sort_values_length, Z.sub_0_r.
    unfold len. rewrite Nat2Z.id. reflexivity. }
  rewrite Hx. apply (ols_fit_on_line a b _ 0%Z 1%Z); [| | discriminate];
    rewrite <- Hx; unfold arange; apply in_map_iff.
  - exists 0%Z. split; [reflexivity | apply range_In; lia].
  - exists 1%Z. split; [reflexivity | apply range_In; lia].
Qed.

End ExactLine.

Lemma linear_reproduces_a_line_witness :
  exists r,
    @forecast_linear_regression Qc _ (sklearn_only []) scenario_series "AAPL" 5
    = Ret r
    /\ len r = 5
    /\ forall i p, nth_error r i = Some p ->
         predicted_close p
         = fadd (fmul (Q2Qc 1) (of_int (len scenario_series + Z.of_nat i)))
             (Q2Qc 100).
Proof.
  apply (linear_reproduces_a_line [] scenario_series "AAPL" 5 (Q2Qc 1) (Q2Qc 100)).
  - vm_compute. discriminate.
  - lia.
  - apply NoDup_by_nodup. vm_compute. reflexivity.
  - vm_compute. reflexivity.
  - intros i bar H.
    do 20 (destruct i as [| i];
           [injection H as <-; apply Qc_is_canon; vm_compute; reflexivity |]).
    destruct i; discriminate.
Defined.
